(** * MCP mini-agent: client/session lifecycle and host registry

    A shallow embedding of [agent/client.py] (class [MCPClient]) and of
    [agent/host.py] (class [ResearchHost]): the registry part first, the
    rest of the class after it, then [test_client] and [test_host] of
    [agent/test_system.py].

    The Python methods are coroutines that mutate [self] and talk to the MCP
    SDK.  They are embedded as functions in a state-and-exception monad: the
    state holds the object the method runs on together with the [World]
    (the SDK's own state, the log of SDK calls made so far, and the store of
    tool dictionaries), the result is either a returned value or a raised
    Python exception.  State changes made before a [raise] survive it, as in
    Python. *)

From stdpp Require Import base option list gmap strings sorting pretty.

Set Warnings "-register-all".

(** ** Python exceptions *)

(** The exception classes the [except] clauses of the two files tell apart.
    [asyncio.CancelledError], [GeneratorExit], [KeyboardInterrupt] and
    [SystemExit] derive from [BaseException] only; [RuntimeError] derives
    from [Exception].  [ExceptionC] stands for [Exception] itself and for
    every subclass of it other than [RuntimeError]; [BaseExceptionC] for
    [BaseException] itself and for every other class outside [Exception]
    (a [BaseExceptionGroup], say). *)
Inductive exn_class : Type :=
  | ExceptionC
  | RuntimeErrorC
  | CancelledErrorC
  | GeneratorExitC
  | KeyboardInterruptC
  | SystemExitC
  | BaseExceptionC.

(** An exception object: its class and what [str(e)] gives. *)
Record exn : Type := MkExn { exn_cls : exn_class; exn_str : string }.

(** [isinstance(e, Exception)]: what [except Exception] catches. *)
Definition isinstance_Exception (e : exn) : bool :=
  match exn_cls e with
  | ExceptionC | RuntimeErrorC => true
  | _ => false
  end.

(** [isinstance(e, (asyncio.CancelledError, GeneratorExit, RuntimeError,
    Exception))]: what the [except] clauses of [_cleanup] catch. *)
Definition isinstance_cleanup_tuple (e : exn) : bool :=
  match exn_cls e with
  | CancelledErrorC | GeneratorExitC | RuntimeErrorC | ExceptionC => true
  | KeyboardInterruptC | SystemExitC | BaseExceptionC => false
  end.

(** [Exception(msg)] *)
Definition Exception (msg : string) : exn := MkExn ExceptionC msg.

(** ** The state-and-exception monad *)

Inductive res (A : Type) : Type :=
  | Ok (a : A)
  | Raise (e : exn).
Arguments Ok {A} a.
Arguments Raise {A} e.

Definition M (S A : Type) : Type := S → res A * S.

Definition ret {S A} (a : A) : M S A := λ s, (Ok a, s).

Definition bind {S A B} (m : M S A) (k : A → M S B) : M S B :=
  λ s, match m s with
       | (Ok a, s') => k a s'
       | (Raise e, s') => (Raise e, s')
       end.

Definition raise {S A} (e : exn) : M S A := λ s, (Raise e, s).

(** A computation without effect that may raise. *)
Definition lift_res {S A} (r : res A) : M S A := λ s, (r, s).

(** Evaluating one expression after another, without state: the first
    exception ends the evaluation. *)
#[global] Instance res_bind : MBind res := λ A B f r,
  match r with
  | Ok a => f a
  | Raise e => Raise e
  end.

(** [try: body  except <classes> as e: handler e] *)
Definition try_except {S A} (body : M S A) (classes : exn → bool)
    (handler : exn → M S A) : M S A :=
  λ s, match body s with
       | (Ok a, s') => (Ok a, s')
       | (Raise e, s') => if classes e then handler e s' else (Raise e, s')
       end.

Definition gets {S A} (f : S → A) : M S A := λ s, (Ok (f s), s).
Definition modify {S} (f : S → S) : M S unit := λ s, (Ok tt, f s).

Declare Scope py_scope.
Delimit Scope py_scope with py.
Notation "x <- m ;; k" := (bind m (λ x, k))
  (at level 100, m at next level, right associativity) : py_scope.
Notation "m ;;; k" := (bind m (λ _, k))
  (at level 100, right associativity) : py_scope.
Open Scope py_scope.

(** ** Values exchanged with the SDK *)

(** JSON-like values; a JSON object (a Python [dict] holding a schema) is an
    association list. *)
Inductive json : Type :=
  | JNull
  | JBool (b : bool)
  | JNum (n : Z)
  | JStr (s : string)
  | JArr (l : list json)
  | JObj (l : list (string * json)).

Definition mapping : Type := list (string * json).

(** Truth value of a [dict]: non-empty. *)
Definition mapping_truthy (m : mapping) : bool :=
  match m with [] => false | _ => true end.

(** What [tool.inputSchema] can be, by what [get_tools] asks of it.  An
    object with the attribute [model_dump] (a Pydantic model, say) has the
    truth value its class gives it, and calling [model_dump()] returns a
    dictionary or raises; a [dict] has no attribute [model_dump] and is
    truthy when not empty; anything else is neither, with the truth value it
    happens to have; [None] is falsy. *)
Inductive schema_repr : Type :=
  | SchemaPydantic (truthy : bool) (model_dump : res mapping)
  | SchemaDict (d : mapping)
  | SchemaOther (truthy : bool)
  | SchemaNone.

(** The objects in [result.tools], by what [get_tools] reads of them.  Each
    of the reads [tool.name], [tool.description] and [tool.inputSchema]
    gives a value or raises (an [AttributeError] when the object has no such
    attribute); reading an attribute again gives the same. *)
Record Tool : Type := MkTool {
  tool_name : res string;
  tool_description : res (option string);
  tool_inputSchema : res schema_repr
}.

(** The values stored in a tool dictionary. *)
Inductive pyval : Type :=
  | PStr (s : string)
  | PMap (m : mapping).

(** A tool dictionary: the [dict] built in [get_tools], later written to by
    the host. *)
Abbreviation ToolDict := (gmap string pyval).

(** Tool dictionaries are mutable objects shared between the client's cache
    and the host's merged list: they live in a store and are referred to by
    their address. *)
Abbreviation loc := nat.

(** The object [item.image], by what [call_tool] reads of it: each of the
    reads [item.image.data] and [item.image.mimeType] gives a value or
    raises (an [AttributeError] when the object has no such attribute). *)
Record ImageObject : Type := MkImage {
  image_data : res string;
  image_mimeType : res string
}.

(** Content items of a [CallToolResult]: [hasattr(item, 'text')] and
    [hasattr(item, 'image')] with the attribute values. *)
Record ContentItem : Type := MkItem {
  item_text : option string;
  item_image : option ImageObject
}.

Record CallToolResult : Type := MkCallToolResult {
  ctr_content : option (list ContentItem);
  ctr_isError : option bool                (* hasattr(result, 'isError') *)
}.

(** The entries of [result_dict["content"]]. *)
Inductive content_part : Type :=
  | TextPart (text : string)
  | ImagePart (data mimeType : string).

(** [result_dict]: the key "content" is always there, the key "isError" only
    when set (to [True]). *)
Record result_dict : Type := MkResultDict {
  rd_content : list content_part;
  rd_isError : option bool
}.

Record StdioServerParameters : Type := MkStdioServerParameters {
  command : string;
  args : list string
}.

(** ** The SDK *)

(** The calls [client.py] makes into the MCP SDK.  Each may return or raise,
    and may change the SDK's own state [Env] (subprocesses, pipes, the
    remote server). *)
Class SDK : Type := {
  Env : Type;
  StdioContext : Type;          (* what [stdio_client(...)] returns *)
  Streams : Type;               (* the pair [read, write] *)
  SessionContext : Type;        (* what [ClientSession(read, write)] returns *)
  ClientSession : Type;         (* what its [__aenter__] returns *)
  sys_executable : string;
  stdio_client : StdioServerParameters → Env → res StdioContext * Env;
  stdio_aenter : StdioContext → Env → res Streams * Env;
  ClientSession_new : Streams → Env → res SessionContext * Env;
  session_aenter : SessionContext → Env → res ClientSession * Env;
  session_initialize : ClientSession → Env → res unit * Env;
  session_aexit : SessionContext → Env → res unit * Env;
  stdio_aexit : StdioContext → Env → res unit * Env;
  session_list_tools : ClientSession → Env → res (option (list Tool)) * Env;
  session_call_tool : ClientSession → string → mapping → Env
                      → res CallToolResult * Env
}.

(** The SDK calls, as they are logged. *)
Inductive sdk_call : Type :=
  | CallStdioClient            (* stdio_client(server_params) *)
  | CallStdioEnter             (* spawn: stdio context __aenter__ *)
  | CallClientSession          (* ClientSession(read, write) *)
  | CallSessionEnter           (* session context __aenter__ *)
  | CallInitialize             (* handshake: session.initialize() *)
  | CallSessionExit            (* session context __aexit__ *)
  | CallStdioExit              (* stdio context __aexit__ *)
  | CallListTools              (* session.list_tools() *)
  | CallCallTool (name : string).

#[global] Instance sdk_call_eq_dec : EqDecision sdk_call.
Proof. solve_decision. Defined.

(** A logged call: the [server_script] of the client that made it, and the
    call. *)
Definition event : Type := string * sdk_call.

Section Agent.
Context `{sdk : SDK}.

Record World : Type := MkWorld {
  w_env : Env;
  w_log : list event;
  w_heap : list ToolDict
}.

(** ** [class MCPClient] *)

Record MCPClient : Type := MkMCPClient {
  server_script : string;
  _session : option ClientSession;
  _stdio_context : option StdioContext;
  _session_context : option SessionContext;
  _tools_cache : option (list loc);
  _initialized : bool
}.

(** [MCPClient.__init__] *)
Definition MCPClient_init (server_script : string) : MCPClient :=
  {| server_script := server_script;
     _session := None;
     _stdio_context := None;
     _session_context := None;
     _tools_cache := None;
     _initialized := false |}.

Definition set_session (v : option ClientSession) (c : MCPClient) :=
  {| server_script := server_script c; _session := v;
     _stdio_context := _stdio_context c;
     _session_context := _session_context c;
     _tools_cache := _tools_cache c; _initialized := _initialized c |}.
Definition set_stdio_context (v : option StdioContext) (c : MCPClient) :=
  {| server_script := server_script c; _session := _session c;
     _stdio_context := v;
     _session_context := _session_context c;
     _tools_cache := _tools_cache c; _initialized := _initialized c |}.
Definition set_session_context (v : option SessionContext) (c : MCPClient) :=
  {| server_script := server_script c; _session := _session c;
     _stdio_context := _stdio_context c;
     _session_context := v;
     _tools_cache := _tools_cache c; _initialized := _initialized c |}.
Definition set_tools_cache (v : option (list loc)) (c : MCPClient) :=
  {| server_script := server_script c; _session := _session c;
     _stdio_context := _stdio_context c;
     _session_context := _session_context c;
     _tools_cache := v; _initialized := _initialized c |}.
Definition set_initialized (v : bool) (c : MCPClient) :=
  {| server_script := server_script c; _session := _session c;
     _stdio_context := _stdio_context c;
     _session_context := _session_context c;
     _tools_cache := _tools_cache c; _initialized := v |}.

(** The state a method of [MCPClient] runs on: [self] and the world. *)
Definition cstate : Type := MCPClient * World.

Definition self_get {A} (f : MCPClient → A) : M cstate A := gets (λ s, f s.1).
Definition self_set (f : MCPClient → MCPClient) : M cstate unit :=
  modify (λ s, (f s.1, s.2)).

(** An SDK call made by [self]: logged, then answered by the SDK. *)
Definition sdk_do {A} (c : sdk_call) (op : Env → res A * Env) : M cstate A :=
  λ s, let '(r, env') := op (w_env s.2) in
       (r, (s.1, {| w_env := env';
                    w_log := w_log s.2 ++ [(server_script s.1, c)];
                    w_heap := w_heap s.2 |})).

(** [MCPClient._cleanup] *)
Definition _cleanup : M cstate unit :=
  sc <- self_get _session_context;;
  (match sc with
   | Some session_context =>
       self_set (set_session_context None);;;
       self_set (set_session None);;;
       try_except (sdk_do CallSessionExit (session_aexit session_context))
         isinstance_cleanup_tuple (λ _, ret tt)
   | None => ret tt
   end);;;
  st <- self_get _stdio_context;;
  (match st with
   | Some stdio_context =>
       self_set (set_stdio_context None);;;
       try_except (sdk_do CallStdioExit (stdio_aexit stdio_context))
         isinstance_cleanup_tuple (λ _, ret tt)
   | None => ret tt
   end);;;
  self_set (set_initialized false);;;
  self_set (set_tools_cache None).

(** The [try] block of [connect]. *)
Definition connect_body : M cstate unit :=
  script <- self_get server_script;;
  let server_params := {| command := sys_executable; args := [script] |} in
  ctx <- sdk_do CallStdioClient (stdio_client server_params);;
  self_set (set_stdio_context (Some ctx));;;
  rw <- sdk_do CallStdioEnter (stdio_aenter ctx);;
  sctx <- sdk_do CallClientSession (ClientSession_new rw);;
  self_set (set_session_context (Some sctx));;;
  sess <- sdk_do CallSessionEnter (session_aenter sctx);;
  self_set (set_session (Some sess));;;
  sdk_do CallInitialize (session_initialize sess);;;
  self_set (set_initialized true).

(** The message of the exception [connect] raises. *)
Definition connect_error (e : exn) : exn :=
  Exception ("Failed to connect to MCP server: " +:+ exn_str e).

(** [MCPClient.connect] *)
Definition connect : M cstate unit :=
  s <- self_get _session;;
  match s with
  | Some _ => ret tt
  | None =>
      try_except connect_body isinstance_Exception
        (λ e, _cleanup;;; raise (connect_error e))
  end.

(** [MCPClient.disconnect] *)
Definition disconnect : M cstate unit := _cleanup.

(** The guard that opens [get_tools] and [call_tool]:
    [if not self._initialized or self._session is None: raise ...];
    past it, [self._session] is the session the call goes to. *)
Definition NotConnectedError : exn :=
  Exception "Client is not connected. Call connect() first.".

Definition require_connected : M cstate ClientSession :=
  init <- self_get _initialized;;
  s <- self_get _session;;
  match negb init, s with
  | false, Some sess => ret sess
  | _, _ => raise NotConnectedError
  end.

(** The truth value of [tool.inputSchema]. *)
Definition schema_truthy (s : schema_repr) : bool :=
  match s with
  | SchemaPydantic b _ => b
  | SchemaDict d => mapping_truthy d
  | SchemaOther b => b
  | SchemaNone => false
  end.

(** The [if tool.inputSchema: ... else: ...] block of [get_tools], on the
    value read: [input_schema], or what [model_dump()] raises. *)
Definition normalize_schema (s : schema_repr) : res mapping :=
  if schema_truthy s then
    match s with
    | SchemaPydantic _ model_dump => model_dump
    | SchemaDict d => Ok d
    | _ => Ok []
    end
  else Ok [].

(** [tool.description or ""] *)
Definition description_or_empty (d : option string) : string :=
  match d with
  | Some s => s
  | None => ""
  end.

(** The [tool_dict] literal of [get_tools], from the values of [tool.name],
    [tool.description] and [input_schema]. *)
Definition tool_dict (name : string) (description : option string)
    (input_schema : mapping) : ToolDict :=
  <["name" := PStr name]>
    (<["description" := PStr (description_or_empty description)]>
       (<["inputSchema" := PMap input_schema]> ∅)).

(** The body of the loop of [get_tools] up to the [append]: the reads in the
    order in which the code makes them, then the dictionary. *)
Definition convert_tool (tool : Tool) : res ToolDict :=
  schema ← tool_inputSchema tool;
  input_schema ← normalize_schema schema;
  name ← tool_name tool;
  description ← tool_description tool;
  Ok (tool_dict name description input_schema).

(** A new dictionary object in the store. *)
Definition alloc (d : ToolDict) : M cstate loc :=
  λ s, (Ok (length (w_heap s.2)),
        (s.1, {| w_env := w_env s.2; w_log := w_log s.2;
                 w_heap := w_heap s.2 ++ [d] |})).

(** [self._tools_cache.append(x)] *)
Definition cache_append (x : loc) (c : MCPClient) : MCPClient :=
  set_tools_cache (option_map (λ l, l ++ [x]) (_tools_cache c)) c.

Fixpoint for_each {S A} (l : list A) (body : A → M S unit) : M S unit :=
  match l with
  | [] => ret tt
  | x :: l' => body x;;; for_each l' body
  end.

(** The message of the exception [get_tools] raises. *)
Definition get_tools_error (e : exn) : exn :=
  Exception ("Failed to get tools: " +:+ exn_str e).

(** [MCPClient.get_tools].  The value returned is the cache itself: the
    addresses of the dictionaries the cache holds. *)
Definition get_tools : M cstate (list loc) :=
  sess <- require_connected;;
  cache <- self_get _tools_cache;;
  (match cache with
   | None =>
       try_except
         (result <- sdk_do CallListTools (session_list_tools sess);;
          self_set (set_tools_cache (Some []));;;
          match result with
          | Some ((_ :: _) as tools) =>
              for_each tools (λ tool,
                tool_dict <- lift_res (convert_tool tool);;
                d <- alloc tool_dict;;
                self_set (cache_append d))
          | _ => ret tt
          end)
         isinstance_Exception
         (λ e, raise (get_tools_error e))
   | Some _ => ret tt
   end);;;
  cache <- self_get _tools_cache;;
  ret (default [] cache).

(** One round of the [for item in result.content] loop of [call_tool]: the
    part appended to [result_dict["content"]], if any.  The dictionary
    display of an image reads [data] before [mimeType]. *)
Definition convert_item (item : ContentItem) : res (option content_part) :=
  match item_text item, item_image item with
  | Some text, _ => Ok (Some (TextPart text))
  | None, Some image =>
      data ← image_data image;
      mimeType ← image_mimeType image;
      Ok (Some (ImagePart data mimeType))
  | None, None => Ok None
  end.

(** The loop: the first read that raises ends it.  [result_dict] is local
    to the call, so nothing of it is left when the loop raises. *)
Fixpoint convert_items (items : list ContentItem) : res (list content_part) :=
  match items with
  | [] => Ok []
  | item :: items =>
      part ← convert_item item;
      parts ← convert_items items;
      Ok (option_list part ++ parts)
  end.

(** From [result_dict = {...}] to [return result_dict]. *)
Definition convert_result (result : CallToolResult) : res result_dict :=
  content ← match ctr_content result with
            | Some items => convert_items items
            | None => Ok []
            end;
  Ok {| rd_content := content;
        rd_isError :=
          match ctr_isError result with
          | Some true => Some true
          | _ => None
          end |}.

(** The message of the exception [call_tool] raises. *)
Definition call_tool_error (tool_name : string) (e : exn) : exn :=
  Exception ("Failed to call tool '" +:+ tool_name +:+ "': " +:+ exn_str e).

(** [MCPClient.call_tool]; [arguments] is [None] or a dictionary, and
    [arguments or {}] is what goes to the SDK. *)
Definition call_tool (tool_name : string) (arguments : option mapping)
    : M cstate result_dict :=
  sess <- require_connected;;
  try_except
    (result <- sdk_do (CallCallTool tool_name)
                 (session_call_tool sess tool_name (default [] arguments));;
     lift_res (convert_result result))
    isinstance_Exception
    (λ e, raise (call_tool_error tool_name e)).

(** ** [class ResearchHost]: the client registry *)

(** [self.mcp_clients]: a [dict] from server script to client.  Python
    dictionaries keep insertion order, which is the order [cleanup] walks
    them in, so the registry is an association list; a key is inserted only
    when absent.  The other attributes of the host (the LLM client, the
    model name, the print flags) are neither read nor written by the
    methods below. *)
Record ResearchHost : Type := MkResearchHost {
  mcp_clients : list (string * MCPClient)
}.

Definition ResearchHost_init : ResearchHost := {| mcp_clients := [] |}.

Definition hstate : Type := ResearchHost * World.

(** [script in self.mcp_clients] and [self.mcp_clients[script]] *)
Fixpoint clients_lookup (script : string) (cs : list (string * MCPClient))
    : option MCPClient :=
  match cs with
  | [] => None
  | (k, c) :: cs' =>
      if decide (k = script) then Some c else clients_lookup script cs'
  end.

(** Writing back the client stored under [script] (the client is an object:
    what a method does to it is seen through the registry). *)
Fixpoint clients_update (script : string) (c : MCPClient)
    (cs : list (string * MCPClient)) : list (string * MCPClient) :=
  match cs with
  | [] => []
  | (k, c0) :: cs' =>
      if decide (k = script) then (k, c) :: cs'
      else (k, c0) :: clients_update script c cs'
  end.

(** Running a method of [MCPClient] on a client object that is not (yet) in
    the registry. *)
Definition on_client {A} (c : MCPClient) (m : M cstate A)
    : M hstate (A * MCPClient) :=
  λ s, match m (c, s.2) with
       | (Ok a, (c', w')) => (Ok (a, c'), (s.1, w'))
       | (Raise e, (c', w')) => (Raise e, (s.1, w'))
       end.

(** Running a method on the client registered under [script]. *)
Definition on_registered {A} (script : string) (c : MCPClient)
    (m : M cstate A) : M hstate A :=
  λ s, let '(r, (c', w')) := m (c, s.2) in
       (r, ({| mcp_clients := clients_update script c' (mcp_clients s.1) |},
            w')).

(** The body of the loop of [_ensure_clients_connected]. *)
Definition ensure_step (script : string) : M hstate unit :=
  cs <- gets (λ s, mcp_clients s.1);;
  match clients_lookup script cs with
  | Some _ => ret tt
  | None =>
      r <- on_client (MCPClient_init script) connect;;
      let client := r.2 in
      modify (λ s, ({| mcp_clients := mcp_clients s.1 ++ [(script, client)] |},
                    s.2))
  end.

(** [ResearchHost._ensure_clients_connected] *)
Definition _ensure_clients_connected (server_scripts : list string)
    : M hstate unit :=
  for_each server_scripts ensure_step.

(** [tool['_server'] = script] on the dictionary at address [l]. *)
Definition tag_server (script : string) (l : loc) (heap : list ToolDict)
    : list ToolDict :=
  alter (insert "_server" (PStr script)) l heap.

Definition set_heap (f : list ToolDict → list ToolDict) (w : World) : World :=
  {| w_env := w_env w; w_log := w_log w; w_heap := f (w_heap w) |}.

(** The body of the loop of [_get_tools_from_clients] for a registered
    script: [client.get_tools()], then the tagging loop.  [tools] is the
    client's cache, so the dictionaries written to are the cached ones. *)
Definition fetch_and_tag (script : string) (client : MCPClient)
    : M hstate (list loc) :=
  tools <- on_registered script client get_tools;;
  for_each tools (λ tool,
    modify (λ s, (s.1, set_heap (tag_server script tool) s.2)));;;
  ret tools.

(** The loop of [_get_tools_from_clients], with [all_tools] as accumulator. *)
Fixpoint merge_tools (server_scripts : list string) (all_tools : list loc)
    : M hstate (list loc) :=
  match server_scripts with
  | [] => ret all_tools
  | script :: rest =>
      cs <- gets (λ s, mcp_clients s.1);;
      match clients_lookup script cs with
      | Some client =>
          tools <- fetch_and_tag script client;;
          merge_tools rest (all_tools ++ tools)
      | None => merge_tools rest all_tools
      end
  end.

(** [ResearchHost._get_tools_from_clients] *)
Definition _get_tools_from_clients (server_scripts : list string)
    : M hstate (list loc) :=
  _ensure_clients_connected server_scripts;;;
  merge_tools server_scripts [].

(** [tool.get(key)] on the dictionary at address [l]. *)
Definition tool_get (heap : list ToolDict) (l : loc) (key : string)
    : option pyval :=
  d ← heap !! l; d !! key.

(** [ResearchHost._convert_mcp_tool_to_openai]: what the model is offered
    for a tool, [{"type": "function", "function": {"name": ...,
    "description": ..., "parameters": ...}}], with the defaults of the three
    [get] calls. *)
Record openai_tool : Type := MkOpenAITool {
  ot_type : string;
  ot_name : pyval;
  ot_description : pyval;
  ot_parameters : pyval
}.

Definition _convert_mcp_tool_to_openai (mcp_tool : ToolDict) : openai_tool :=
  {| ot_type := "function";
     ot_name := default (PStr "") (mcp_tool !! "name");
     ot_description := default (PStr "") (mcp_tool !! "description");
     ot_parameters := default (PMap []) (mcp_tool !! "inputSchema") |}.

(** [openai_tools] in [run_experiment]: the conversion of every tool of the
    merged list, in order. *)
Definition openai_tools (heap : list ToolDict) (mcp_tools : list loc)
    : list openai_tool :=
  map (λ tool, _convert_mcp_tool_to_openai (default ∅ (heap !! tool)))
    mcp_tools.

(** [tool.get('name') == tool_name], for a string [tool_name]. *)
Definition name_matches (heap : list ToolDict) (tool : loc)
    (tool_name : string) : bool :=
  match tool_get heap tool "name" with
  | Some (PStr s) => bool_decide (s = tool_name)
  | _ => false
  end.

(** The lookup loop of [run_experiment]: the server of the first tool of
    [mcp_tools] whose name is [tool_name]; [None] when there is none. *)
Fixpoint find_tool_server (heap : list ToolDict) (mcp_tools : list loc)
    (tool_name : string) : option pyval :=
  match mcp_tools with
  | [] => None
  | tool :: rest =>
      if name_matches heap tool tool_name
      then tool_get heap tool "_server"
      else find_tool_server heap rest tool_name
  end.

(** The body of the loop of [ResearchHost.cleanup]: [disconnect] on one
    client, under [except Exception]. *)
Definition cleanup_step (item : string * MCPClient) : M hstate unit :=
  let '(script, client) := item in
  try_except (on_registered script client disconnect)
    isinstance_Exception (λ _, ret tt).

(** [ResearchHost.cleanup] *)
Definition cleanup : M hstate unit :=
  items <- gets (λ s, mcp_clients s.1);;      (* list(self.mcp_clients.items()) *)
  for_each items cleanup_step;;;
  modify (λ s, ({| mcp_clients := [] |}, s.2)).

(** ** Vocabulary for the statements *)

(** An SDK answer that [_cleanup] lets pass: a return, or an exception of
    one of the classes its [except] clauses name. *)
Definition swallowed {A} (r : res A) : bool :=
  match r with
  | Ok _ => true
  | Raise e => isinstance_cleanup_tuple e
  end.

(** The SDK state after the session release of [c], if its session context
    is open. *)
Definition session_release_env (c : MCPClient) (env : Env) : Env :=
  match _session_context c with
  | Some h => (session_aexit h env).2
  | None => env
  end.

(** The SDK state after both releases. *)
Definition release_env (c : MCPClient) (env : Env) : Env :=
  match _stdio_context c with
  | Some h => (stdio_aexit h (session_release_env c env)).2
  | None => session_release_env c env
  end.

(** Both releases of [c], made from SDK state [env], return or raise what
    [_cleanup] swallows. *)
Definition releases_swallowed (c : MCPClient) (env : Env) : bool :=
  match _session_context c with
  | Some h => swallowed (session_aexit h env).1
  | None => true
  end
  && match _stdio_context c with
     | Some h => swallowed (stdio_aexit h (session_release_env c env)).1
     | None => true
     end.

(** The release calls a teardown of [c] makes, in order. *)
Definition release_calls (c : MCPClient) : list event :=
  match _session_context c with
  | Some _ => [(server_script c, CallSessionExit)]
  | None => []
  end
  ++ match _stdio_context c with
     | Some _ => [(server_script c, CallStdioExit)]
     | None => []
     end.

(** The client after a teardown that ran to its end. *)
Definition torn_down (c : MCPClient) : MCPClient :=
  {| server_script := server_script c;
     _session := match _session_context c with
                 | Some _ => None
                 | None => _session c
                 end;
     _stdio_context := None;
     _session_context := None;
     _tools_cache := None;
     _initialized := false |}.

(** The world after SDK calls [evs] that left the SDK in state [env]. *)
Definition after_calls (w : World) (env : Env) (evs : list event) : World :=
  {| w_env := env; w_log := w_log w ++ evs; w_heap := w_heap w |}.

(** The addresses of the dictionaries a fetch of [n] tools creates. *)
Definition fresh_locs (w : World) (n : nat) : list loc :=
  seq (length (w_heap w)) n.

(** The loop of [get_tools] on the values: the dictionaries it builds, in
    order, up to the first tool whose conversion raises, and what that
    raises. *)
Fixpoint convert_tools (tools : list Tool) : list ToolDict * option exn :=
  match tools with
  | [] => ([], None)
  | tool :: rest =>
      match convert_tool tool with
      | Ok d => let '(ds, e) := convert_tools rest in (d :: ds, e)
      | Raise e => ([], Some e)
      end
  end.

(** Schema normalization in three cases: the dump of a truthy object that
    has [model_dump], a dictionary as it is, the empty dictionary for
    anything else. *)
Definition schema_mapping (s : schema_repr) : mapping :=
  match s with
  | SchemaPydantic true (Ok model_dump) => model_dump
  | SchemaDict d => d
  | _ => []
  end.

(** The dictionaries built, and what [get_tools] does with the exception
    of a step of its [try] block. *)
Definition built (tools : list Tool) : list ToolDict := (convert_tools tools).1.

Definition get_tools_raises (e : exn) : exn :=
  if isinstance_Exception e then get_tools_error e else e.

(** [n] calls of a method in a row, with their results. *)
Fixpoint repeat_call {S A} (n : nat) (m : M S A) : M S (list A) :=
  match n with
  | 0 => ret []
  | S n' => a <- m;; l <- repeat_call n' m;; ret (a :: l)
  end.

(** The number of remote catalog fetches in a log. *)
Definition fetches (log : list event) : nat :=
  length (filter (λ ev, ev.2 = CallListTools) log).

(** What passes the guard of [get_tools] and [call_tool]. *)
Definition connected (c : MCPClient) : bool :=
  _initialized c && bool_decide (is_Some (_session c)).

(** The SDK can be asked about every client of a snapshot of the registry in
    turn: all releases are swallowed; the SDK state after them; the release
    calls made. *)
Fixpoint registry_releases_swallowed (items : list (string * MCPClient))
    (env : Env) : bool :=
  match items with
  | [] => true
  | (_, c) :: rest =>
      releases_swallowed c env
      && registry_releases_swallowed rest (release_env c env)
  end.

Fixpoint registry_release_env (items : list (string * MCPClient))
    (env : Env) : Env :=
  match items with
  | [] => env
  | (_, c) :: rest => registry_release_env rest (release_env c env)
  end.

Definition registry_release_calls (items : list (string * MCPClient))
    : list event :=
  flat_map (λ p, release_calls p.2) items.

(** The dictionaries a client's cache holds, and those of a whole registry. *)
Definition cache_locs (c : MCPClient) : list loc :=
  default [] (_tools_cache c).

Definition owned (cs : list (string * MCPClient)) : list loc :=
  flat_map (λ p, cache_locs p.2) cs.

(** The cache of the client registered under [script]. *)
Definition cache_of (h : ResearchHost) (script : string) : list loc :=
  match clients_lookup script (mcp_clients h) with
  | Some c => cache_locs c
  | None => []
  end.

(** The dictionary at [l] is a descriptor as [get_tools] built it, with or
    without the key [_server]. *)
Definition is_descriptor (heap : list ToolDict) (l : loc) : Prop :=
  ∃ d name description input_schema,
    heap !! l = Some d
    ∧ delete "_server" d = tool_dict name description input_schema.

(** A dictionary as the loop of [get_tools] builds it. *)
Definition built_dict (d : ToolDict) : Prop :=
  ∃ name description input_schema,
    d = tool_dict name description input_schema.

(** The dictionary at [l] carries the origin [script]. *)
Definition tagged (heap : list ToolDict) (script : string) (l : loc) : Prop :=
  tool_get heap l "_server" = Some (PStr script).

(** What holds of the registry and the store between calls of the host's
    methods: the registry is a dictionary (no key twice), every client is
    registered under its own script, no dictionary is in two caches or twice
    in one, and every cached dictionary is a descriptor in the store. *)
Record host_inv (h : ResearchHost) (w : World) : Prop := MkHostInv {
  inv_keys : NoDup ((mcp_clients h).*1);
  inv_script : Forall (λ p, server_script p.2 = p.1) (mcp_clients h);
  inv_nodup : NoDup (owned (mcp_clients h));
  inv_descr : Forall (is_descriptor (w_heap w)) (owned (mcp_clients h))
}.

(** The client registered under [script] passes the guard, has fetched its
    catalog, and all its cached dictionaries carry the origin [script]. *)
Definition merged (script : string) (h : ResearchHost) (w : World) : Prop :=
  ∃ c ls, clients_lookup script (mcp_clients h) = Some c
    ∧ connected c = true ∧ _tools_cache c = Some ls
    ∧ Forall (tagged (w_heap w) script) ls.

(** How the registry and the store move under the host's methods: scripts
    stay registered, merged catalogs stay as they are, the store only grows,
    and no key other than [_server] of an existing dictionary changes. *)
Definition evolves (s s' : hstate) : Prop :=
  (∀ script, is_Some (clients_lookup script (mcp_clients s.1)) →
     is_Some (clients_lookup script (mcp_clients s'.1)))
  ∧ (∀ script, merged script s.1 s.2 →
       merged script s'.1 s'.2 ∧ cache_of s'.1 script = cache_of s.1 script)
  ∧ (∀ l key, key ≠ "_server" → l < length (w_heap s.2) →
       tool_get (w_heap s'.2) l key = tool_get (w_heap s.2) l key)
  ∧ length (w_heap s.2) ≤ length (w_heap s'.2).

(** The states of the host and the world a program can be in: a new host,
    then merges and bulk teardowns, whatever they return or raise; in
    between, other code may create dictionaries of its own. *)
Inductive reachable : hstate → Prop :=
  | reachable_init w : reachable (ResearchHost_init, w)
  | reachable_merge scripts s r s' :
      reachable s → _get_tools_from_clients scripts s = (r, s') →
      reachable s'
  | reachable_cleanup s r s' :
      reachable s → cleanup s = (r, s') → reachable s'
  | reachable_alloc h w env log news :
      reachable (h, w) →
      reachable (h, {| w_env := env; w_log := log;
                       w_heap := w_heap w ++ news |}).

(** The whole tagging loop on the store. *)
Definition tag_all (script : string) (tools : list loc)
    (heap : list ToolDict) : list ToolDict :=
  foldl (λ hp l, tag_server script l hp) heap tools.

(** Some dictionary of [ls] has the name [tool_name]. *)
Definition exports (heap : list ToolDict) (ls : list loc)
    (tool_name : string) : bool :=
  existsb (λ l, name_matches heap l tool_name) ls.

End Agent.

(** ** A scriptable SDK

    An SDK whose answers are given by a table: every handle is the server
    script it was made for, and the SDK's own state counts the
    [list_tools] calls answered so far (so that a call can fail once and
    succeed later). *)

Definition res_map {A B} (f : A → B) (r : res A) : res B :=
  match r with
  | Ok a => Ok (f a)
  | Raise e => Raise e
  end.

Record Mock : Type := MkMock {
  m_stdio_client : string → res unit;
  m_stdio_aenter : string → res unit;
  m_ClientSession : string → res unit;
  m_session_aenter : string → res unit;
  m_initialize : string → res unit;
  m_session_aexit : string → res unit;
  m_stdio_aexit : string → res unit;
  m_list_tools : string → nat → res (option (list Tool));
  m_call_tool : string → string → mapping → res CallToolResult
}.

Definition mock_sdk (m : Mock) : SDK :=
  {| Env := nat;
     StdioContext := string;
     Streams := string;
     SessionContext := string;
     ClientSession := string;
     sys_executable := "python";
     stdio_client := λ p n,
       let script := default "" (head (args p)) in
       (res_map (λ _, script) (m_stdio_client m script), n);
     stdio_aenter := λ h n, (res_map (λ _, h) (m_stdio_aenter m h), n);
     ClientSession_new := λ h n, (res_map (λ _, h) (m_ClientSession m h), n);
     session_aenter := λ h n, (res_map (λ _, h) (m_session_aenter m h), n);
     session_initialize := λ h n, (m_initialize m h, n);
     session_aexit := λ h n, (m_session_aexit m h, n);
     stdio_aexit := λ h n, (m_stdio_aexit m h, n);
     session_list_tools := λ h n, (m_list_tools m h n, S n);
     session_call_tool := λ h name a n, (m_call_tool m h name a, n) |}.

(** The two servers of the repository with the tools they export (the
    schemas abridged to the parameter types), and a third endpoint that
    exports a tool named [simple_query] too, without description or
    schema. *)
Definition server_py : string := "agent/server.py".
Definition experiment_server_py : string := "agent/experiment_server.py".
Definition mirror_py : string := "mirror.py".

Definition object_schema (params : list (string * string)) : mapping :=
  [("type", JStr "object");
   ("properties",
    JObj (map (λ p, (p.1, JObj [("type", JStr p.2)])) params))].

Definition COMMON_DESCRIPTION : string :=
  "This is a general-purpose data processing tool that can handle various types of input data".

(** A tool object all of whose attributes can be read. *)
Definition plain_tool (name : string) (description : option string)
    (schema : schema_repr) : Tool :=
  MkTool (Ok name) (Ok description) (Ok schema).

Definition server_py_tools : list Tool :=
  [ plain_tool "simple_query"
      (Some "Simple query tool that only requires a query string")
      (SchemaDict (object_schema [("query", "string")]));
    plain_tool "search_with_filters"
      (Some "Search tool with filter parameters including query, limit, and sort options")
      (SchemaDict (object_schema
         [("query", "string"); ("limit", "integer"); ("sort_by", "string")]));
    plain_tool "advanced_search"
      (Some "Advanced search tool with complex parameter structure including nested objects and arrays")
      (SchemaDict (object_schema
         [("query", "string"); ("filters", "object"); ("options", "array");
          ("max_results", "integer")]));
    plain_tool "get_status"
      (Some "Get system status, requires no parameters")
      (SchemaDict (object_schema [])) ].

Definition experiment_server_py_tools : list Tool :=
  [ plain_tool "tool_xy87" (Some COMMON_DESCRIPTION)
      (SchemaDict (object_schema [("data_input", "string")]));
    plain_tool "tool_ty32" (Some COMMON_DESCRIPTION)
      (SchemaDict (object_schema [("content", "string"); ("mode", "string")]));
    plain_tool "tool_nt68" (Some COMMON_DESCRIPTION)
      (SchemaDict (object_schema
         [("text", "string"); ("count", "integer");
          ("format_type", "string")]));
    plain_tool "tool_lk72" (Some COMMON_DESCRIPTION)
      (SchemaDict (object_schema
         [("value", "string"); ("threshold", "integer");
          ("category", "string"); ("enable_cache", "boolean")])) ].

Definition mirror_py_tools : list Tool :=
  [ plain_tool "simple_query" None SchemaNone ].

Definition catalog (script : string) : option (list Tool) :=
  if decide (script = server_py) then Some server_py_tools
  else if decide (script = experiment_server_py)
       then Some experiment_server_py_tools
  else if decide (script = mirror_py) then Some mirror_py_tools
  else None.

(** Every call succeeds. *)
Definition healthy : Mock :=
  {| m_stdio_client := λ _, Ok tt;
     m_stdio_aenter := λ _, Ok tt;
     m_ClientSession := λ _, Ok tt;
     m_session_aenter := λ _, Ok tt;
     m_initialize := λ _, Ok tt;
     m_session_aexit := λ _, Ok tt;
     m_stdio_aexit := λ _, Ok tt;
     m_list_tools := λ s _, Ok (catalog s);
     m_call_tool := λ _ _ _,
       Ok (MkCallToolResult (Some [MkItem (Some "ok") None]) None) |}.

Definition with_initialize (f : string → res unit) (m : Mock) : Mock :=
  {| m_stdio_client := m_stdio_client m; m_stdio_aenter := m_stdio_aenter m;
     m_ClientSession := m_ClientSession m;
     m_session_aenter := m_session_aenter m;
     m_initialize := f;
     m_session_aexit := m_session_aexit m; m_stdio_aexit := m_stdio_aexit m;
     m_list_tools := m_list_tools m; m_call_tool := m_call_tool m |}.

Definition with_releases (session stdio : string → res unit) (m : Mock)
    : Mock :=
  {| m_stdio_client := m_stdio_client m; m_stdio_aenter := m_stdio_aenter m;
     m_ClientSession := m_ClientSession m;
     m_session_aenter := m_session_aenter m;
     m_initialize := m_initialize m;
     m_session_aexit := session; m_stdio_aexit := stdio;
     m_list_tools := m_list_tools m; m_call_tool := m_call_tool m |}.

Definition with_remote (list_tools : string → nat → res (option (list Tool)))
    (call_tool : string → string → mapping → res CallToolResult) (m : Mock)
    : Mock :=
  {| m_stdio_client := m_stdio_client m; m_stdio_aenter := m_stdio_aenter m;
     m_ClientSession := m_ClientSession m;
     m_session_aenter := m_session_aenter m;
     m_initialize := m_initialize m;
     m_session_aexit := m_session_aexit m; m_stdio_aexit := m_stdio_aexit m;
     m_list_tools := list_tools; m_call_tool := call_tool |}.

Definition KeyboardInterrupt : exn := MkExn KeyboardInterruptC "".
Definition CancelledError : exn := MkExn CancelledErrorC "".

(** Both releases of every client fail, with exceptions the teardown
    swallows: the session release with the [RuntimeError] of a cancel scope
    left in another task, the stdio release with a cancellation. *)
Definition faulty_releases : Mock :=
  with_releases
    (λ _, Raise (MkExn RuntimeErrorC
                   "Attempted to exit cancel scope in a different task"))
    (λ _, Raise CancelledError)
    healthy.

(** The session release of [agent/server.py] is interrupted from the
    keyboard. *)
Definition interrupted_release : Mock :=
  with_releases
    (λ s, if decide (s = server_py) then Raise KeyboardInterrupt else Ok tt)
    (λ _, Ok tt)
    healthy.

(** The handshake fails. *)
Definition failing_handshake : Mock :=
  with_initialize (λ _, Raise (Exception "handshake failed")) healthy.

(** The handshake fails, and the session release that follows is
    interrupted from the keyboard. *)
Definition failing_handshake_interrupted_release : Mock :=
  with_releases (λ _, Raise KeyboardInterrupt) (λ _, Ok tt) failing_handshake.

(** The task is cancelled during the handshake. *)
Definition cancelled_handshake : Mock :=
  with_initialize (λ _, Raise CancelledError) healthy.

(** The first [list_tools] times out, the later ones are answered; the
    tool calls time out. *)
Definition flaky_remote : Mock :=
  with_remote
    (λ s n, if decide (n = 0) then Raise (Exception "timed out")
            else Ok (catalog s))
    (λ _ _ _, Raise (Exception "timed out"))
    healthy.

(** The task is cancelled while the remote is asked. *)
Definition cancelled_remote : Mock :=
  with_remote (λ _ _, Raise CancelledError) (λ _ _ _, Raise CancelledError)
    healthy.

(** A catalog with schema objects that are not plain: the first tool has a
    falsy object with [model_dump], the [model_dump()] of the second raises,
    the third has no attribute [inputSchema]. *)
Definition AttributeError (msg : string) : exn := MkExn ExceptionC msg.

Definition odd_schema_tools : list Tool :=
  [ plain_tool "empty_model" None
      (SchemaPydantic false (Ok (object_schema [("query", "string")])));
    plain_tool "broken_model" (Some "its schema cannot be dumped")
      (SchemaPydantic true (Raise (Exception "model_dump failed")));
    MkTool (Ok "no_schema") (Ok None)
      (Raise (AttributeError "'Tool' object has no attribute 'inputSchema'")) ].

Definition odd_schemas : Mock :=
  with_remote (λ _ _, Ok (Some odd_schema_tools)) (m_call_tool healthy)
    healthy.

(** Worlds, clients and hosts of the scriptable SDK. *)
Definition mock_world (m : Mock) (env : nat) (log : list event)
    (heap : list ToolDict) : @World (mock_sdk m) :=
  @MkWorld (mock_sdk m) env log heap.

Definition mock_client (m : Mock) (script : string)
    (session stdio_context session_context : option string)
    (tools_cache : option (list loc)) (initialized : bool)
    : @MCPClient (mock_sdk m) :=
  @MkMCPClient (mock_sdk m) script session stdio_context session_context
    tools_cache initialized.

Definition mock_host (m : Mock)
    (clients : list (string * @MCPClient (mock_sdk m)))
    : @ResearchHost (mock_sdk m) :=
  @MkResearchHost (mock_sdk m) clients.

(** The world before anything happened, a new client and a new host. *)
Definition world0 (m : Mock) : @World (mock_sdk m) := mock_world m 0 [] [].

Definition new_client (m : Mock) (script : string) : @MCPClient (mock_sdk m) :=
  @MCPClient_init (mock_sdk m) script.

Definition new_host (m : Mock) : @ResearchHost (mock_sdk m) :=
  @ResearchHost_init (mock_sdk m).

(** A client after a successful [connect], and the log of that [connect]. *)
Definition connected_client (m : Mock) (script : string)
    : @MCPClient (mock_sdk m) :=
  mock_client m script (Some script) (Some script) (Some script) None true.

Definition connect_calls (script : string) : list event :=
  [(script, CallStdioClient); (script, CallStdioEnter);
   (script, CallClientSession); (script, CallSessionEnter);
   (script, CallInitialize)].

Definition connected_world (m : Mock) (script : string)
    : @World (mock_sdk m) :=
  mock_world m 0 (connect_calls script) [].

(** The client and the world after the first [get_tools] of a connected
    client of [agent/server.py], when every call succeeds. *)
Definition fetched_client : @MCPClient (mock_sdk healthy) :=
  mock_client healthy server_py (Some server_py) (Some server_py)
    (Some server_py) (Some [0; 1; 2; 3]) true.

Definition fetched_world : @World (mock_sdk healthy) :=
  mock_world healthy 1
    (connect_calls server_py ++ [(server_py, CallListTools)])
    (built server_py_tools).

(** The request of all three endpoints, and the registry and the world the
    merge leaves from a new host. *)
Definition three_scripts : list string :=
  [server_py; experiment_server_py; mirror_py].

Definition merged_host (m : Mock) : @ResearchHost (mock_sdk m) :=
  (@_get_tools_from_clients (mock_sdk m) three_scripts
     (new_host m, world0 m)).2.1.

Definition merged_world (m : Mock) : @World (mock_sdk m) :=
  (@_get_tools_from_clients (mock_sdk m) three_scripts
     (new_host m, world0 m)).2.2.

Definition merged_tools : list loc := [0; 1; 2; 3; 4; 5; 6; 7; 8].

(** ** The rest of [host.py]: running an experiment

    [ResearchHost.__init__], [_check_and_reset_print_flags],
    [_get_display_server], the two printing helpers,
    [_extract_tool_call_info], [run_experiment] and [print_result]. *)

(** *** What [host.py] takes from outside the repository *)

(** [tool_call.function.arguments]: a JSON text (what the OpenAI SDK
    returns), or a value that is not a [str]. *)
Inductive arguments_repr : Type :=
  | ArgumentsStr (s : string)
  | ArgumentsValue (v : json).

(** [tool_call.function]: an object with the attributes [name] and
    [arguments], or a dictionary, which has neither attribute and is read
    with [get]. *)
Inductive function_repr : Type :=
  | FunctionObject (name : string) (arguments : arguments_repr)
  | FunctionDict (name : option string) (arguments : option arguments_repr).

(** [completion.choices[i].message]: [tool_calls] is [None] when the
    attribute is missing or holds [None]. *)
Record ChatCompletionMessage : Type := MkMessage {
  msg_content : option string;
  msg_tool_calls : option (list function_repr)
}.

(** A completion, as the list of the messages of its choices. *)
Record ChatCompletion : Type := MkChatCompletion {
  choices : list ChatCompletionMessage
}.

(** The entries of [messages]. *)
Record message_param : Type := MkMessageParam {
  role : string;
  content : string
}.

(** A call of [llm_client.chat.completions.create]: the key the client was
    built with and the four keyword arguments. *)
Record completion_request : Type := MkRequest {
  req_api_key : string;
  req_model : string;
  req_messages : list message_param;
  req_tools : list openai_tool;
  req_tool_choice : string
}.

(** The constructor of the OpenAI client, [OpenAI(base_url=...,
    api_key=...)] (the client is known by its key; the constructor returns
    for every key that is not empty, and may raise for the empty one), the
    chat-completions endpoint with its own state, [json.loads], the
    order in which a [set] of strings built from a list is iterated (any
    order of the distinct elements), the environment variable [HF_TOKEN],
    and the paths [str(_get_project_root() / "agent" / "server.py")] and
    [str(_get_project_root() / "agent" / "experiment_server.py")]. *)
Class Platform : Type := {
  OpenAI_new : string → string → res unit;
  OpenAI_new_key : ∀ base_url api_key,
    api_key ≠ "" → OpenAI_new base_url api_key = Ok tt;
  LLMState : Type;
  chat_completions_create :
    completion_request → LLMState → res ChatCompletion * LLMState;
  json_loads : string → res json;
  list_of_set : list string → list string;
  list_of_set_perm : ∀ xs, list_of_set xs ≡ₚ remove_dups xs;
  environ_HF_TOKEN : option string;
  default_server_script : string;
  experiment_server_script : string
}.

(** *** The attributes of the host besides the registry *)

Record HostAttrs : Type := MkHostAttrs {
  llm_client : string;             (* the [api_key] of the OpenAI client *)
  model : string;
  system_prompt : option string;
  _last_server_script : option (list string);
  _has_printed_server_info : bool;
  _has_printed_separator : bool
}.

Definition set_last_server_script (v : option (list string)) (a : HostAttrs) :=
  {| llm_client := llm_client a; model := model a;
     system_prompt := system_prompt a;
     _last_server_script := v;
     _has_printed_server_info := _has_printed_server_info a;
     _has_printed_separator := _has_printed_separator a |}.
Definition set_has_printed_server_info (v : bool) (a : HostAttrs) :=
  {| llm_client := llm_client a; model := model a;
     system_prompt := system_prompt a;
     _last_server_script := _last_server_script a;
     _has_printed_server_info := v;
     _has_printed_separator := _has_printed_separator a |}.
Definition set_has_printed_separator (v : bool) (a : HostAttrs) :=
  {| llm_client := llm_client a; model := model a;
     system_prompt := system_prompt a;
     _last_server_script := _last_server_script a;
     _has_printed_server_info := _has_printed_server_info a;
     _has_printed_separator := v |}.

Definition MODEL : string := "Qwen/Qwen2.5-7B-Instruct:together".

(** Truth value of a [str]: non-empty. *)
Definition str_truthy (s : string) : bool :=
  match s with "" => false | _ => true end.

(** The lines written to standard output: one constructor for each [print]
    of [host.py], of [test_client] and of [test_host], with the values its
    text is made of.  [print] itself is taken to return. *)
Inductive out_line : Type :=
  | OutServer (script : string)           (* "Server: {script}" *)
  | OutClientInstance (script : string)   (* id(client) of the client
                                             registered under [script] *)
  | OutClientStatus (initialized : bool)  (* Connected / Not Connected *)
  | OutBlank
  | OutToolAvailable (names : string)     (* "Tool AVAILABLE: {names}" *)
  | OutRule                               (* "=" * 60 *)
  | OutResults                            (* "Results" *)
  | OutUserQuery (user_query : string)
  | OutChoose (tool : string)
  | OutToolFromServer (server : option pyval)
  | OutNoTool
  | OutLLMResponse (response : string)
  | OutTestServer (script : string)       (* "\nServer: {server_script}" *)
  | OutDashes                             (* "-" * 60 *)
  | OutFindTools (n : nat)                (* "Find {len(tools)} Tools:" *)
  | OutTool (name description : pyval)
  | OutToolSchema (inputSchema : pyval)
  | OutConnectFailed (e : string)
  | OutError (e : string)                 (* "Error: {e}" *)
  | OutExample (n : nat).                 (* "\n=== Example{n}: ... ===" *)

(** The entries of [result["tool_calls"]]. *)
Record tool_call_info : Type := MkToolCallInfo {
  tci_tool_name : string;
  tci_arguments : json;
  tci_server : option pyval
}.

(** The dictionary [run_experiment] returns.  [tool_arguments] is a parsed
    JSON value, with [JNull] for [None]. *)
Record experiment_result : Type := MkResult {
  user_query : string;
  available_tools : list pyval;
  selected_server : string;
  selected_tool : option string;
  tool_arguments : json;
  llm_response : option string;
  tool_calls : list tool_call_info
}.

(** [sep.join(l)] on strings. *)
Fixpoint str_join (sep : string) (l : list string) : string :=
  match l with
  | [] => ""
  | [s] => s
  | s :: rest => s +:+ sep +:+ str_join sep rest
  end.

(** The position of the first value that is not a [str]. *)
Fixpoint first_non_str (i : nat) (vs : list pyval) : option nat :=
  match vs with
  | [] => None
  | PStr _ :: rest => first_non_str (S i) rest
  | PMap _ :: _ => Some i
  end.

Definition pyval_strs (vs : list pyval) : list string :=
  omap (λ v, match v with PStr s => Some s | PMap _ => None end) vs.

(** [sep.join(vs)]: a [TypeError] when a value is not a [str]. *)
Definition join_values (sep : string) (vs : list pyval) : res string :=
  match first_non_str 0 vs with
  | Some i =>
      Raise (Exception ("sequence item " +:+ pretty i
                        +:+ ": expected str instance, dict found"))
  | None => Ok (str_join sep (pyval_strs vs))
  end.

(** [sorted(l)] on strings: Python compares strings by code point, which on
    UTF-8 texts is the order of the bytes. *)
Definition sorted (l : list string) : list string := merge_sort String.le l.

(** [_extract_tool_call_info], given [json.loads]. *)
Definition extract_tool_call_info (json_loads : string → res json)
    (function : function_repr) : res (string * json) :=
  let tool_name :=
    match function with
    | FunctionObject name _ => name
    | FunctionDict name _ => default "" name
    end in
  let arguments_str :=
    match function with
    | FunctionObject _ arguments => arguments
    | FunctionDict _ arguments => default (ArgumentsStr "{}") arguments
    end in
  match arguments_str with
  | ArgumentsStr s => res_map (λ arguments, (tool_name, arguments)) (json_loads s)
  | ArgumentsValue arguments => Ok (tool_name, arguments)
  end.

(** What [run_experiment] accepts as [server_script]. *)
Inductive server_script_arg : Type :=
  | OneScript (script : string)
  | ScriptList (scripts : list string).

Section Experiment.
Context `{sdk : SDK} `{platform : Platform}.

(** [ResearchHost.__init__]: the attributes and the empty registry, or the
    [ValueError], or what the constructor of the OpenAI client raises. *)
Definition HF_TOKEN_not_found : exn :=
  Exception "HF_TOKEN not found. Please set it in environment variable ".

Definition HF_BASE_URL : string := "https://router.huggingface.co/v1".

Definition ResearchHost_new (hf_token : option string) (model : string)
    (system_prompt : option string) : res (HostAttrs * ResearchHost) :=
  hf_token ←
    match hf_token with
    | Some t => Ok t
    | None =>
        match environ_HF_TOKEN with
        | Some t => if str_truthy t then Ok t else Raise HF_TOKEN_not_found
        | None => Raise HF_TOKEN_not_found
        end
    end;
  _ ← OpenAI_new HF_BASE_URL hf_token;
  Ok ({| llm_client := hf_token; model := model;
         system_prompt := system_prompt;
         _last_server_script := None;
         _has_printed_server_info := false;
         _has_printed_separator := false |},
      ResearchHost_init).

(** The state [run_experiment] and [print_result] run on: the host with all
    its attributes, the world, the state of the chat-completions endpoint
    with the requests made so far, and standard output. *)
Record rstate : Type := MkRState {
  r_attrs : HostAttrs;
  r_host : ResearchHost;
  r_world : World;
  r_llm : LLMState;
  r_requests : list completion_request;
  r_stdout : list out_line
}.

Definition set_attrs (a : HostAttrs) (s : rstate) : rstate :=
  {| r_attrs := a; r_host := r_host s; r_world := r_world s;
     r_llm := r_llm s; r_requests := r_requests s; r_stdout := r_stdout s |}.
Definition set_registry (h : ResearchHost) (w : World) (s : rstate) : rstate :=
  {| r_attrs := r_attrs s; r_host := h; r_world := w;
     r_llm := r_llm s; r_requests := r_requests s; r_stdout := r_stdout s |}.
Definition set_llm (llm : LLMState) (requests : list completion_request)
    (s : rstate) : rstate :=
  {| r_attrs := r_attrs s; r_host := r_host s; r_world := r_world s;
     r_llm := llm; r_requests := requests; r_stdout := r_stdout s |}.
Definition set_stdout (out : list out_line) (s : rstate) : rstate :=
  {| r_attrs := r_attrs s; r_host := r_host s; r_world := r_world s;
     r_llm := r_llm s; r_requests := r_requests s; r_stdout := out |}.

Definition attr_get {A} (f : HostAttrs → A) : M rstate A :=
  gets (λ s, f (r_attrs s)).

Definition attr_set (f : HostAttrs → HostAttrs) : M rstate unit :=
  modify (λ s, set_attrs (f (r_attrs s)) s).

Definition print (l : out_line) : M rstate unit :=
  modify (λ s, set_stdout (r_stdout s ++ [l]) s).

(** A method of the registry part, run on the whole host. *)
Definition on_host {A} (m : M hstate A) : M rstate A :=
  λ s, let '(r, (h, w)) := m (r_host s, r_world s) in (r, set_registry h w s).

(** A request to the chat-completions endpoint: recorded, then answered. *)
Definition llm_do (req : completion_request) : M rstate ChatCompletion :=
  λ s, let '(r, llm') := chat_completions_create req (r_llm s) in
       (r, set_llm llm' (r_requests s ++ [req]) s).

(** [tool.get(key, dflt)] on the dictionary at address [tool]. *)
Definition tool_get_default (heap : list ToolDict) (tool : loc)
    (key : string) (dflt : pyval) : pyval :=
  default dflt (tool_get heap tool key).

(** [ResearchHost._get_display_server]: [set(...)] raises a [TypeError] on a
    value that cannot be hashed (a dictionary). *)
Definition _get_display_server (heap : list ToolDict) (mcp_tools : list loc)
    : res string :=
  let tags :=
    map (λ tool, tool_get_default heap tool "_server" (PStr "unknown"))
      mcp_tools in
  match first_non_str 0 tags with
  | Some _ => Raise (Exception "unhashable type: 'dict'")
  | None =>
      let used_servers := list_of_set (pyval_strs tags) in
      Ok (match used_servers with
          | [] => "unknown"
          | _ => str_join ", " used_servers
          end)
  end.

(** [ResearchHost._check_and_reset_print_flags] *)
Definition _check_and_reset_print_flags (server_scripts : list string)
    : M rstate unit :=
  let current_server_key := sorted server_scripts in
  last <- attr_get _last_server_script;;
  if bool_decide (last ≠ Some current_server_key) then
    attr_set (set_has_printed_server_info false);;;
    attr_set (set_has_printed_separator false);;;
    attr_set (set_last_server_script (Some current_server_key))
  else ret tt.

(** [available_tools = [tool.get('name', 'N/A') for tool in mcp_tools]] *)
Definition tool_names (heap : list ToolDict) (mcp_tools : list loc)
    : list pyval :=
  map (λ tool, tool_get_default heap tool "name" (PStr "N/A")) mcp_tools.

(** [ResearchHost._print_server_info] *)
Definition _print_server_info (server_scripts : list string)
    (mcp_tools : list loc) : M rstate unit :=
  heap <- gets (λ s, w_heap (r_world s));;
  let available_tools := tool_names heap mcp_tools in
  names <- lift_res (join_values ", " available_tools);;
  print (OutToolAvailable names).

(** [ResearchHost._print_client_server_mapping] *)
Definition print_mapping_step (script : string) : M rstate unit :=
  cs <- gets (λ s, mcp_clients (r_host s));;
  match clients_lookup script cs with
  | Some client =>
      print (OutServer script);;;
      print (OutClientInstance script);;;
      print (OutClientStatus (_initialized client));;;
      print OutBlank
  | None => ret tt
  end.

(** What [_print_client_server_mapping] writes, given the registry. *)
Definition mapping_block (cs : list (string * MCPClient))
    (server_scripts : list string) : list out_line :=
  flat_map (λ script,
    match clients_lookup script cs with
    | Some client =>
        [OutServer script; OutClientInstance script;
         OutClientStatus (_initialized client); OutBlank]
    | None => []
    end) server_scripts.

Definition _print_client_server_mapping (server_scripts : list string)
    : M rstate unit :=
  for_each server_scripts print_mapping_step.

(** [ResearchHost._extract_tool_call_info] *)
Definition _extract_tool_call_info (function : function_repr)
    : res (string * json) :=
  extract_tool_call_info json_loads function.

(** The [for tool_call in message.tool_calls] loop of [run_experiment], on
    the dictionary [result]. *)
Fixpoint record_tool_calls (heap : list ToolDict) (mcp_tools : list loc)
    (calls : list function_repr) (result : experiment_result)
    : res experiment_result :=
  match calls with
  | [] => Ok result
  | tool_call :: rest =>
      match _extract_tool_call_info tool_call with
      | Raise e => Raise e
      | Ok (tool_name, arguments) =>
          let tool_server := find_tool_server heap mcp_tools tool_name in
          record_tool_calls heap mcp_tools rest
            {| user_query := user_query result;
               available_tools := available_tools result;
               selected_server := selected_server result;
               selected_tool := Some tool_name;
               tool_arguments := arguments;
               llm_response := llm_response result;
               tool_calls :=
                 tool_calls result
                 ++ [{| tci_tool_name := tool_name;
                        tci_arguments := arguments;
                        tci_server := tool_server |}] |}
      end
  end.

(** [server_scripts] in [run_experiment]. *)
Definition server_scripts_of (server_script : option server_script_arg)
    : list string :=
  match default (OneScript default_server_script) server_script with
  | OneScript script => [script]
  | ScriptList scripts => scripts
  end.

(** [messages] in [run_experiment]. *)
Definition build_messages (system_prompt : option string)
    (user_query : string) : list message_param :=
  match system_prompt with
  | Some p =>
      if str_truthy p then [{| role := "system"; content := p |}] else []
  | None => []
  end
  ++ [{| role := "user"; content := user_query |}].

(** [completion.choices[0]] *)
Definition IndexError : exn := Exception "list index out of range".

(** The [if not self._has_printed_server_info:] block of
    [run_experiment]. *)
Definition print_server_info_once (server_scripts : list string)
    (mcp_tools : list loc) : M rstate unit :=
  printed <- attr_get _has_printed_server_info;;
  if negb printed then
    _print_client_server_mapping server_scripts;;;
    _print_server_info server_scripts mcp_tools;;;
    attr_set (set_has_printed_server_info true)
  else ret tt.

(** The call of [chat.completions.create] in [run_experiment]. *)
Definition completion_request_of (a : HostAttrs) (heap : list ToolDict)
    (mcp_tools : list loc) (user_query : string) : completion_request :=
  {| req_api_key := llm_client a;
     req_model := model a;
     req_messages := build_messages (system_prompt a) user_query;
     req_tools := openai_tools heap mcp_tools;
     req_tool_choice := "auto" |}.

(** What follows the call in [run_experiment]: the analysis of the
    completion, which reads the dictionaries and has no effect. *)
Definition analyse_completion (user_query : string) (heap : list ToolDict)
    (mcp_tools : list loc) (completion : ChatCompletion)
    : res experiment_result :=
  match choices completion with
  | [] => Raise IndexError
  | message :: _ =>
      match _get_display_server heap mcp_tools with
      | Raise e => Raise e
      | Ok display_server =>
          let result :=
            {| user_query := user_query;
               available_tools := tool_names heap mcp_tools;
               selected_server := display_server;
               selected_tool := None;
               tool_arguments := JNull;
               llm_response := msg_content message;
               tool_calls := [] |} in
          match msg_tool_calls message with
          | Some ((_ :: _) as calls) =>
              record_tool_calls heap mcp_tools calls result
          | _ => Ok result
          end
      end
  end.

(** [ResearchHost.run_experiment] *)
Definition run_experiment (user_query : string)
    (server_script : option server_script_arg) : M rstate experiment_result :=
  let server_scripts := server_scripts_of server_script in
  _check_and_reset_print_flags server_scripts;;;
  mcp_tools <- on_host (_get_tools_from_clients server_scripts);;
  print_server_info_once server_scripts mcp_tools;;;
  heap <- gets (λ s, w_heap (r_world s));;
  a <- gets r_attrs;;
  completion <- llm_do (completion_request_of a heap mcp_tools user_query);;
  lift_res (analyse_completion user_query heap mcp_tools completion).

(** [ResearchHost.print_result] *)
Definition print_result (result : experiment_result) : M rstate unit :=
  printed <- attr_get _has_printed_separator;;
  (if negb printed then
     print OutRule;;;
     print OutResults;;;
     print OutRule;;;
     attr_set (set_has_printed_separator true)
   else ret tt);;;
  print (OutUserQuery (user_query result));;;
  (match selected_tool result with
   | Some tool =>
       if str_truthy tool then
         print (OutChoose tool);;;
         match List.find (λ info, bool_decide (tci_tool_name info = tool))
                 (tool_calls result) with
         | Some tool_call_info =>
             print (OutToolFromServer (tci_server tool_call_info))
         | None => ret tt
         end
       else print OutNoTool
   | None => print OutNoTool
   end);;;
  (match llm_response result with
   | Some response =>
       if str_truthy response then print (OutLLMResponse response)
       else ret tt
   | None => ret tt
   end);;;
  print OutRule.

End Experiment.

(** ** [test_system.py]: [test_client] and [test_host] *)

(** [try: body  finally: final]: [final] runs however [body] ends; what it
    raises replaces the outcome of [body]. *)
Definition try_finally {S A} (body : M S A) (final : M S unit) : M S A :=
  λ s, let '(r, s1) := body s in
       match final s1 with
       | (Ok _, s2) => (r, s2)
       | (Raise e, s2) => (Raise e, s2)
       end.

(** [test_queries] *)
Definition test_queries : list string :=
  ["Find information about USDT";
   "Search for the latest financial news, limiting the results to 5 items, sorted from newest to oldest";
   "Get system status"].

Definition test_system_prompt : string :=
  "You are a professional tool selection assistant".

Section TestSystem.
Context `{sdk : SDK} `{platform : Platform}.

(** The state an iteration of [test_client] runs on: the variable [client],
    the world and standard output. *)
Record tstate : Type := MkTState {
  t_client : MCPClient;
  t_world : World;
  t_stdout : list out_line
}.

(** A method called on [client]. *)
Definition on_test_client {A} (m : M cstate A) : M tstate A :=
  λ s, let '(r, (c, w)) := m (t_client s, t_world s) in
       (r, {| t_client := c; t_world := w; t_stdout := t_stdout s |}).

Definition tprint (l : out_line) : M tstate unit :=
  modify (λ s, {| t_client := t_client s; t_world := t_world s;
                  t_stdout := t_stdout s ++ [l] |}).

(** The two lines [test_client] prints for a tool. *)
Definition print_tool (tool : loc) : M tstate unit :=
  heap <- gets (λ s, w_heap (t_world s));;
  tprint (OutTool (tool_get_default heap tool "name" (PStr "N/A"))
            (tool_get_default heap tool "description" (PStr "N/A")));;;
  tprint (OutToolSchema
            (tool_get_default heap tool "inputSchema" (PStr "N/A"))).

(** The body of the loop of [test_client], from [client =
    MCPClient(server_script)] on, with [client] in the state. *)
Definition test_client_iteration (server_script : string) : M tstate unit :=
  tprint (OutTestServer server_script);;;
  tprint OutDashes;;;
  modify (λ s, {| t_client := MCPClient_init server_script;
                  t_world := t_world s; t_stdout := t_stdout s |});;;
  try_except
    (on_test_client connect;;;
     tools <- on_test_client get_tools;;
     tprint (OutFindTools (length tools));;;
     for_each tools print_tool;;;
     tprint OutRule;;;
     on_test_client disconnect)
    isinstance_Exception
    (λ e,
       tprint (OutConnectFailed (exn_str e));;;
       try_except (on_test_client disconnect) isinstance_Exception
         (λ _, ret tt)).

(** An iteration as the loop sees it: [client] is a new object each time. *)
Definition test_client_step (server_script : string)
    : M (World * list out_line) unit :=
  λ s, let '(r, t) :=
         test_client_iteration server_script
           {| t_client := MCPClient_init server_script;
              t_world := s.1; t_stdout := s.2 |} in
       (r, (t_world t, t_stdout t)).

(** [servers] in [test_client]. *)
Definition test_servers : list string :=
  [default_server_script; experiment_server_script].

(** [test_client] *)
Definition test_client : M (World * list out_line) unit :=
  for_each test_servers test_client_step.

(** The body of the second [try] of [test_host]. *)
Definition run_and_print (query : string) (server_script : server_script_arg)
    : M rstate unit :=
  result <- run_experiment query (Some server_script);;
  print_result result.

Definition test_host_body : M rstate unit :=
  print (OutExample 1);;;
  for_each test_queries (λ query,
    run_and_print query (OneScript default_server_script));;;
  print (OutExample 2);;;
  run_and_print "Find information about USDT"
    (OneScript experiment_server_script);;;
  print (OutExample 3);;;
  run_and_print "Find information about USDT"
    (ScriptList [default_server_script; experiment_server_script]).

(** How [test_host] ends: without a host, or with the host it created. *)
Inductive test_end : Type :=
  | EndWithoutHost (out : list out_line)
  | EndWithHost (s : rstate).

(** [test_host], from the world, the state of the chat-completions
    endpoint and standard output.  [ResearchHost(system_prompt=...)] takes
    the token from the environment: it raises the [ValueError], which the
    first [try] catches, or the token is not empty and the constructor of
    the OpenAI client returns.  A host object is truthy, so the [finally]
    clause calls [cleanup] whenever the host was created. *)
Definition test_host (w : World) (llm : LLMState)
    (requests : list completion_request) (out : list out_line)
    : res unit * test_end :=
  match ResearchHost_new None MODEL (Some test_system_prompt) with
  | Raise e => (Ok tt, EndWithoutHost (out ++ [OutError (exn_str e)]))
  | Ok (a, h) =>
      let '(r, s) :=
        try_finally test_host_body (on_host cleanup)
          {| r_attrs := a; r_host := h; r_world := w; r_llm := llm;
             r_requests := requests; r_stdout := out |} in
      (r, EndWithHost s)
  end.

End TestSystem.

(** ** Vocabulary for the statements about the rest of the code *)

(** The release calls of the teardown that follows a [connect] whose [k]-th
    SDK call raised: the stdio context exists from the second call on, the
    session context from the fourth. *)
Definition releases_after (k : nat) (script : string) : list event :=
  (if decide (4 ≤ k) then [(script, CallSessionExit)] else [])
  ++ (if decide (2 ≤ k) then [(script, CallStdioExit)] else []).

(** The tool invocations in a log. *)
Definition is_tool_call (ev : event) : bool :=
  match ev.2 with
  | CallCallTool _ => true
  | _ => false
  end.

Definition tool_invocations (log : list event) : list event :=
  filter (λ ev, is_tool_call ev = true) log.

(** The calls that open and close a connection: all but [list_tools] and
    the tool invocations. *)
Definition is_lifecycle (ev : event) : bool :=
  match ev.2 with
  | CallListTools | CallCallTool _ => false
  | _ => true
  end.

(** The texts of the text parts of a result, in order. *)
Definition texts (parts : list content_part) : list string :=
  omap (λ p, match p with TextPart t => Some t | ImagePart _ _ => None end)
    parts.

(** A part of a result holds what was read of a content item: the text of
    an item that has one, the data and the MIME type of the image of an item
    that has an image and no text. *)
Definition part_of (item : ContentItem) (part : content_part) : Prop :=
  match part with
  | TextPart text => item_text item = Some text
  | ImagePart data mimeType =>
      item_text item = None
      ∧ ∃ image, item_image item = Some image
          ∧ image_data image = Ok data
          ∧ image_mimeType image = Ok mimeType
  end.

(** The item has a text or an image. *)
Definition has_part (item : ContentItem) : Prop :=
  is_Some (item_text item) ∨ is_Some (item_image item).

#[global] Instance has_part_dec item : Decision (has_part item).
Proof. unfold has_part. apply _. Defined.

(** The item has no text, and reading its image raises [cause]: at [data],
    or at [mimeType] after [data] was read. *)
Definition image_read_raises (item : ContentItem) (cause : exn) : Prop :=
  item_text item = None
  ∧ ∃ image, item_image item = Some image
      ∧ (image_data image = Raise cause
         ∨ (∃ data, image_data image = Ok data)
           ∧ image_mimeType image = Raise cause).

(** The keys of a dictionary in the order in which [scripts] inserts them:
    a key is appended when it is not there yet. *)
Definition first_seen (keys scripts : list string) : list string :=
  foldl (λ ks s, if decide (s ∈ ks) then ks else ks ++ [s]) keys scripts.

(** The header [print_result] writes when it has not been written yet. *)
Definition header_lines (printed : bool) : list out_line :=
  if printed then [] else [OutRule; OutResults; OutRule].

(** What [print_result] shows of the model's choice when that is the last
    tool call of the result, and of the model's comment. *)
Definition choice_lines (result : experiment_result) : list out_line :=
  match last (tool_calls result) with
  | Some info =>
      if str_truthy (tci_tool_name info)
      then [OutChoose (tci_tool_name info);
            OutToolFromServer (tci_server info)]
      else [OutNoTool]
  | None => [OutNoTool]
  end.

Definition response_lines (result : experiment_result) : list out_line :=
  match llm_response result with
  | Some response =>
      if str_truthy response then [OutLLMResponse response] else []
  | None => []
  end.

(** The number of times the SDK was asked to start a server for [script]. *)
Definition spawns (script : string) (log : list event) : nat :=
  length (filter (λ ev, ev = (script, CallStdioClient)) log).

(** Since the log was [log0], every script of the registry was started once
    and no other script was started. *)
Definition opened_once `{sdk : SDK} (log0 : list event) (h : ResearchHost)
    (log : list event) : Prop :=
  ∀ script,
    spawns script log
    = spawns script log0
      + (if decide (script ∈ (mcp_clients h).*1) then 1 else 0).

(** Since the log was [log0], each script of [allowed] was started at most
    once and no other script was started. *)
Definition at_most_once (allowed : list string) (log0 log : list event)
    : Prop :=
  ∀ script,
    spawns script log
    ≤ spawns script log0 + (if decide (script ∈ allowed) then 1 else 0).

(** The servers [test_client] has announced, in order. *)
Definition announced (out : list out_line) : list string :=
  omap (λ l, match l with OutTestServer script => Some script | _ => None end)
    out.

(** The number of lines [l] in what was written. *)
Definition count_lines (l : out_line → bool) (out : list out_line) : nat :=
  length (filter (λ x, l x = true) out).

Definition is_results_line (l : out_line) : bool :=
  match l with OutResults => true | _ => false end.

Definition is_query_line (l : out_line) : bool :=
  match l with OutUserQuery _ => true | _ => false end.

Section ClientStates.
Context `{sdk : SDK}.

(** The handles a client holds are nested: a session only with its session
    context, a session context only with the stdio context. *)
Definition client_inv (c : MCPClient) : Prop :=
  (is_Some (_session c) → is_Some (_session_context c))
  ∧ (is_Some (_session_context c) → is_Some (_stdio_context c)).

(** The states a client can be in: a new client, then calls of its four
    public methods, whatever they return or raise; in between, the world may
    change under other code. *)
Inductive client_reachable : cstate → Prop :=
  | client_reachable_init script w :
      client_reachable (MCPClient_init script, w)
  | client_reachable_connect s r s' :
      client_reachable s → connect s = (r, s') → client_reachable s'
  | client_reachable_disconnect s r s' :
      client_reachable s → disconnect s = (r, s') → client_reachable s'
  | client_reachable_get_tools s r s' :
      client_reachable s → get_tools s = (r, s') → client_reachable s'
  | client_reachable_call_tool name arguments s r s' :
      client_reachable s → call_tool name arguments s = (r, s') →
      client_reachable s'
  | client_reachable_world c w w' :
      client_reachable (c, w) → client_reachable (c, w').

(** What a client that [_ensure_clients_connected] has just registered
    under a script is: it passes the guard and has no cache. *)
Definition just_connected (p : string * MCPClient) : Prop :=
  connected p.2 = true ∧ _tools_cache p.2 = None ∧ server_script p.2 = p.1.

End ClientStates.

(** ** A scriptable platform

    The chat-completions endpoint answers from a table and counts the
    requests it has answered; [json.loads] knows three texts; a set is
    iterated in the order of first insertion. *)

Definition dquote : string := String (Ascii.ascii_of_nat 34) "".

(** The JSON text of an object with one string member. *)
Definition json_text (key value : string) : string :=
  "{" +:+ dquote +:+ key +:+ dquote +:+ ": "
  +:+ dquote +:+ value +:+ dquote +:+ "}".

Definition JSONDecodeError : exn :=
  Exception "Expecting value: line 1 column 1 (char 0)".

Definition mock_json_loads (s : string) : res json :=
  if decide (s = "{}") then Ok (JObj [])
  else if decide (s = json_text "query" "USDT")
       then Ok (JObj [("query", JStr "USDT")])
  else if decide (s = json_text "data_input" "USDT")
       then Ok (JObj [("data_input", JStr "USDT")])
  else Raise JSONDecodeError.

(** What the constructor of the OpenAI client raises for an empty key. *)
Definition api_key_not_set : exn :=
  Exception "The api_key client option must be set either by passing api_key to the client or by setting the OPENAI_API_KEY environment variable".

Definition mock_platform
    (answer : completion_request → nat → res ChatCompletion)
    (token : option string) : Platform :=
  {| OpenAI_new := λ _ api_key,
       if decide (api_key = "") then Raise api_key_not_set else Ok tt;
     OpenAI_new_key := λ _ api_key H,
       match decide (api_key = "") as d
         return (if d then Raise api_key_not_set else Ok tt) = Ok tt with
       | left E => match H E with end
       | right _ => eq_refl
       end;
     LLMState := nat;
     chat_completions_create := λ req n, (answer req n, S n);
     json_loads := mock_json_loads;
     list_of_set := remove_dups;
     list_of_set_perm := λ xs, Permutation_refl (remove_dups xs);
     environ_HF_TOKEN := token;
     default_server_script := server_py;
     experiment_server_script := experiment_server_py |}.

(** The model picks [simple_query], with a comment. *)
Definition picks_simple_query (req : completion_request) (n : nat)
    : res ChatCompletion :=
  Ok {| choices :=
          [{| msg_content := Some "I will look it up.";
              msg_tool_calls :=
                Some [FunctionObject "simple_query"
                        (ArgumentsStr (json_text "query" "USDT"))] |}] |}.

(** The model calls two tools in one answer: [tool_xy87], then
    [simple_query]. *)
Definition picks_two_tools (req : completion_request) (n : nat)
    : res ChatCompletion :=
  Ok {| choices :=
          [{| msg_content := None;
              msg_tool_calls :=
                Some [FunctionObject "tool_xy87"
                        (ArgumentsStr (json_text "data_input" "USDT"));
                      FunctionObject "simple_query"
                        (ArgumentsStr (json_text "query" "USDT"))] |}] |}.

(** The model answers in words. *)
Definition picks_nothing (req : completion_request) (n : nat)
    : res ChatCompletion :=
  Ok {| choices :=
          [{| msg_content := Some "USDT is a stablecoin.";
              msg_tool_calls := None |}] |}.

(** The model names a tool that no endpoint exports, with arguments that
    are not JSON. *)
Definition picks_garbage (req : completion_request) (n : nat)
    : res ChatCompletion :=
  Ok {| choices :=
          [{| msg_content := None;
              msg_tool_calls :=
                Some [FunctionObject "lookup" (ArgumentsStr "query=USDT")] |}] |}.

(** The endpoint is down. *)
Definition llm_down (req : completion_request) (n : nat)
    : res ChatCompletion :=
  Raise (Exception "Connection error.").

(** The handshake of [agent/experiment_server.py] fails. *)
Definition failing_experiment_server : Mock :=
  with_initialize
    (λ s, if decide (s = experiment_server_py)
          then Raise (Exception "handshake failed") else Ok tt)
    healthy.

Definition mock_attrs (prompt : option string) (last : option (list string))
    (printed_info printed_separator : bool) : HostAttrs :=
  {| llm_client := "hf_test"; model := MODEL; system_prompt := prompt;
     _last_server_script := last;
     _has_printed_server_info := printed_info;
     _has_printed_separator := printed_separator |}.

Definition mock_rstate (m : Mock)
    (answer : completion_request → nat → res ChatCompletion)
    (a : HostAttrs) (h : @ResearchHost (mock_sdk m)) (w : @World (mock_sdk m))
    (n : nat) (requests : list completion_request) (out : list out_line)
    : @rstate (mock_sdk m) (mock_platform answer None) :=
  @MkRState (mock_sdk m) (mock_platform answer None) a h w n requests out.

(** A new host with the system prompt of [test_system.py]. *)
Definition test_prompt : string := test_system_prompt.

Definition new_rstate (m : Mock)
    (answer : completion_request → nat → res ChatCompletion)
    : @rstate (mock_sdk m) (mock_platform answer None) :=
  mock_rstate m answer (mock_attrs (Some test_prompt) None false false)
    (new_host m) (world0 m) 0 [] [].

(** ** Runs of the scriptable SDK and platform *)

(** An image object with both attributes. *)
Definition plain_image (data mimeType : string) : ImageObject :=
  MkImage (Ok data) (Ok mimeType).

(** The remote answers an invocation with a text, an image, an item that
    is neither, and an item that is both, and flags no error. *)
Definition mixed_content_result : CallToolResult :=
  MkCallToolResult
    (Some [MkItem (Some "first") None;
           MkItem None (Some (plain_image "aGVsbG8=" "image/png"));
           MkItem None None;
           MkItem (Some "second") (Some (plain_image "aGVsbG8=" "image/png"))])
    (Some false).

(** The remote answers an invocation with a text and an image whose object
    has no attribute [mimeType], and flags an error. *)
Definition broken_image_result : CallToolResult :=
  MkCallToolResult
    (Some [MkItem (Some "first") None;
           MkItem None
             (Some (MkImage (Ok "aGVsbG8=")
                      (Raise (AttributeError
                                "'Image' object has no attribute 'mimeType'"))))])
    (Some true).

Definition broken_image : Mock :=
  with_remote (m_list_tools healthy) (λ _ _ _, Ok broken_image_result)
    healthy.

Definition mixed_content : Mock :=
  with_remote (m_list_tools healthy) (λ _ _ _, Ok mixed_content_result)
    healthy.

(** A script whose server reports no catalog. *)
Definition empty_py : string := "empty.py".

(** The world after [fetched_client] has disconnected, then connected
    again, then fetched again. *)
Definition released_world : @World (mock_sdk healthy) :=
  mock_world healthy 1
    (connect_calls server_py
     ++ [(server_py, CallListTools); (server_py, CallSessionExit);
         (server_py, CallStdioExit)])
    (built server_py_tools).

Definition reconnected_world : @World (mock_sdk healthy) :=
  mock_world healthy 1
    (w_log released_world ++ connect_calls server_py)
    (built server_py_tools).

Definition refetched_client : @MCPClient (mock_sdk healthy) :=
  mock_client healthy server_py (Some server_py) (Some server_py)
    (Some server_py) (Some [4; 5; 6; 7]) true.

Definition refetched_world : @World (mock_sdk healthy) :=
  mock_world healthy 2
    (w_log reconnected_world ++ [(server_py, CallListTools)])
    (built server_py_tools ++ built server_py_tools).

(** A request that names [agent/server.py] twice, and the registry and the
    world [_ensure_clients_connected] leaves for it from a new host. *)
Definition repeated_scripts : list string :=
  [server_py; experiment_server_py; server_py].

Definition ensured_host (m : Mock) (scripts : list string)
    : @ResearchHost (mock_sdk m) :=
  (@_ensure_clients_connected (mock_sdk m) scripts
     (new_host m, world0 m)).2.1.

Definition ensured_world (m : Mock) (scripts : list string)
    : @World (mock_sdk m) :=
  (@_ensure_clients_connected (mock_sdk m) scripts
     (new_host m, world0 m)).2.2.

(** A run of [run_experiment] from a new host, and the state it leaves. *)
Definition usdt_query : string := "Find information about USDT".

Definition ran_state (m : Mock)
    (answer : completion_request → nat → res ChatCompletion)
    (arg : option server_script_arg)
    : @rstate (mock_sdk m) (mock_platform answer None) :=
  (@run_experiment (mock_sdk m) (mock_platform answer None) usdt_query arg
     (new_rstate m answer)).2.

(** The result when the model calls [tool_xy87] and then [simple_query],
    all three endpoints being requested. *)
Definition two_tools_result : experiment_result :=
  {| user_query := usdt_query;
     available_tools :=
       PStr <$> ["simple_query"; "search_with_filters"; "advanced_search";
                 "get_status"; "tool_xy87"; "tool_ty32"; "tool_nt68";
                 "tool_lk72"; "simple_query"];
     selected_server := "agent/server.py, agent/experiment_server.py, mirror.py";
     selected_tool := Some "simple_query";
     tool_arguments := JObj [("query", JStr "USDT")];
     llm_response := None;
     tool_calls :=
       [{| tci_tool_name := "tool_xy87";
           tci_arguments := JObj [("data_input", JStr "USDT")];
           tci_server := Some (PStr experiment_server_py) |};
        {| tci_tool_name := "simple_query";
           tci_arguments := JObj [("query", JStr "USDT")];
           tci_server := Some (PStr server_py) |}] |}.

(** The same request with the scripts in another order, and the state the
    second run leaves. *)
Definition three_scripts_again : list string :=
  [mirror_py; server_py; experiment_server_py].

Definition ran_again_state
    : @rstate (mock_sdk healthy) (mock_platform picks_two_tools None) :=
  (@run_experiment (mock_sdk healthy) (mock_platform picks_two_tools None)
     "Get system status" (Some (ScriptList three_scripts_again))
     (ran_state healthy picks_two_tools (Some (ScriptList three_scripts)))).2.

(** A state in which the previous request was for the two servers of the
    repository. *)
Definition after_two_servers
    : @rstate (mock_sdk healthy) (mock_platform picks_nothing None) :=
  mock_rstate healthy picks_nothing
    (mock_attrs None (Some (sorted [server_py; experiment_server_py]))
       true true)
    (new_host healthy) (world0 healthy) 0 [] [].

Definition ran_again_result : res experiment_result :=
  (@run_experiment (mock_sdk healthy) (mock_platform picks_two_tools None)
     "Get system status" (Some (ScriptList three_scripts_again))
     (ran_state healthy picks_two_tools (Some (ScriptList three_scripts)))).1.

(** A round of [test_client] starts from a world where nothing happened;
    [client] is whatever it was before. *)
Definition round_start (m : Mock) : @tstate (mock_sdk m) :=
  @MkTState (mock_sdk m) (new_client m mirror_py) (world0 m) [].

(** A platform whose environment holds a token. *)
Definition token_platform
    (answer : completion_request → nat → res ChatCompletion) : Platform :=
  mock_platform answer (Some "hf_test").

(** [test_host] from the world where nothing happened: the host its
    examples start with, the state they end in, and the state [test_host]
    ends in. *)
Definition test_host_start (m : Mock)
    (answer : completion_request → nat → res ChatCompletion)
    : @rstate (mock_sdk m) (token_platform answer) :=
  @MkRState (mock_sdk m) (token_platform answer)
    (mock_attrs (Some test_system_prompt) None false false)
    (new_host m) (world0 m) 0 [] [].

Definition examples_end (m : Mock)
    (answer : completion_request → nat → res ChatCompletion)
    : @rstate (mock_sdk m) (token_platform answer) :=
  (@test_host_body (mock_sdk m) (token_platform answer)
     (test_host_start m answer)).2.

Definition host_at_end (m : Mock)
    (answer : completion_request → nat → res ChatCompletion)
    : @rstate (mock_sdk m) (token_platform answer) :=
  match (@test_host (mock_sdk m) (token_platform answer)
           (world0 m) 0 [] []).2 with
  | EndWithHost s => s
  | EndWithoutHost _ => test_host_start m answer
  end.

(** * Properties *)

Set Warnings "-clear-no-such-hyp".

Section ClientFacts.
Context `{sdk : SDK}.

(** *** Teardown and connect *)

(** Unfolding the monad. *)
Ltac mstep :=
  unfold self_get, self_set, sdk_do, alloc in *;
  unfold bind, ret, raise, gets, modify, try_except in *; simpl in *.

Lemma after_calls_nil (w : World) : after_calls w (w_env w) [] = w.
Proof. destruct w. unfold after_calls. simpl. by rewrite app_nil_r. Qed.

(** What [_cleanup] does when both releases return or raise something it
    swallows. *)
Lemma cleanup_swallowed (c : MCPClient) (w : World) :
  releases_swallowed c (w_env w) = true →
  _cleanup (c, w)
  = (Ok tt, (torn_down c,
             after_calls w (release_env c (w_env w)) (release_calls c))).
Proof.
  unfold releases_swallowed, release_env, session_release_env, release_calls,
    torn_down, after_calls, _cleanup, swallowed.
  destruct c as [script sess stdio sctx cache init], w as [env log heap].
  mstep. intros H. apply andb_prop in H as [Hs Ht].
  destruct sctx as [h|]; simpl in *.
  - destruct (session_aexit h env) as [[[]|e] env1]; simpl in *.
    + destruct stdio as [h'|]; simpl in *.
      * destruct (stdio_aexit h' env1) as [[[]|e'] env2]; simpl in *.
        -- by rewrite <- app_assoc.
        -- rewrite Ht. by rewrite <- app_assoc.
      * done.
    + rewrite Hs. destruct stdio as [h'|]; simpl in *.
      * destruct (stdio_aexit h' env1) as [[[]|e'] env2]; simpl in *.
        -- by rewrite <- app_assoc.
        -- rewrite Ht. by rewrite <- app_assoc.
      * done.
  - destruct stdio as [h'|]; simpl in *.
    + destruct (stdio_aexit h' env) as [[[]|e'] env2]; simpl in *.
      * done.
      * by rewrite Ht.
    + by rewrite app_nil_r.
Qed.

Lemma cleanup_noop (c : MCPClient) (w : World) :
  _session_context c = None → _stdio_context c = None →
  _cleanup (c, w) = (Ok tt, (torn_down c, w)).
Proof.
  intros Hs Ht. rewrite cleanup_swallowed.
  - unfold release_env, session_release_env, release_calls.
    rewrite Hs, Ht. simpl. by rewrite after_calls_nil.
  - unfold releases_swallowed. by rewrite Hs, Ht.
Qed.

(** Case analysis on every branch of the monadic computation in the goal,
    innermost scrutinee first. *)
Ltac mcases :=
  repeat (simpl in *;
    match goal with
    | |- context [match ?x with _ => _ end] =>
        lazymatch x with
        | context [match _ with _ => _ end] => fail
        | _ => destruct x eqn:?
        end
    end); simpl in *.

(** [_cleanup] never touches the store of tool dictionaries nor the script,
    and never sets the initialized flag, whatever the releases do. *)
Lemma cleanup_frame (c c' : MCPClient) (w w' : World) (r : res unit) :
  _cleanup (c, w) = (r, (c', w')) →
  server_script c' = server_script c ∧ w_heap w' = w_heap w
  ∧ (_initialized c = false → _initialized c' = false).
Proof.
  unfold _cleanup.
  destruct c as [script sess stdio sctx cache init], w as [env log heap].
  mstep. mcases; intros; simplify_eq; done.
Qed.

(** A teardown leaves the cache as it was or unset, whatever it returns or
    raises. *)
Lemma cleanup_cache (c c' : MCPClient) (w w' : World) (r : res unit) :
  _cleanup (c, w) = (r, (c', w')) →
  _tools_cache c' = None ∨ _tools_cache c' = _tools_cache c.
Proof.
  unfold _cleanup.
  destruct c as [script sess stdio sctx cache init], w as [env log heap].
  mstep. mcases; intros; simplify_eq; simpl; auto.
Qed.

Lemma connect_connected (c : MCPClient) (w : World) :
  is_Some (_session c) → connect (c, w) = (Ok tt, (c, w)).
Proof. intros [s Hs]. unfold connect. mstep. by rewrite Hs. Qed.

(** The client and the store after the [try] block of [connect]. *)
Lemma connect_body_inv (c c' : MCPClient) (w w' : World) (r : res unit) :
  connect_body (c, w) = (r, (c', w')) →
  server_script c' = server_script c
  ∧ _tools_cache c' = _tools_cache c
  ∧ w_heap w' = w_heap w
  ∧ match r with
    | Ok _ => is_Some (_session c') ∧ _initialized c' = true
              ∧ is_Some (_session_context c') ∧ is_Some (_stdio_context c')
    | Raise _ => _initialized c' = _initialized c
                 ∧ (_session_context c' = None → _session c' = _session c)
    end.
Proof.
  unfold connect_body.
  destruct c as [script sess stdio sctx cache init], w as [env log heap].
  mstep. mcases; intros; simplify_eq; simpl; repeat split; eauto; done.
Qed.

Lemma connect_ok_inv (c c' : MCPClient) (w w' : World) :
  connect (c, w) = (Ok tt, (c', w')) →
  is_Some (_session c') ∧ server_script c' = server_script c
  ∧ _tools_cache c' = _tools_cache c ∧ w_heap w' = w_heap w.
Proof.
  unfold connect. mstep. destruct (_session c) eqn:Hs.
  - intros ?; simplify_eq. rewrite Hs. eauto.
  - destruct (connect_body (c, w)) as [[[]|e] [c1 w1]] eqn:Hb.
    + intros ?; simplify_eq.
      apply connect_body_inv in Hb as (? & ? & ? & ? & _). done.
    + destruct (isinstance_Exception e); [|done].
      destruct (_cleanup (c1, w1)) as [[[]|e'] [c2 w2]]; done.
Qed.

(** A [connect] that raises leaves the initialized flag as it was, the
    script and the store untouched. *)
Lemma connect_raise_inv (c c' : MCPClient) (w w' : World) (e : exn) :
  connect (c, w) = (Raise e, (c', w')) →
  server_script c' = server_script c ∧ w_heap w' = w_heap w
  ∧ (_initialized c = false → _initialized c' = false).
Proof.
  unfold connect. mstep. destruct (_session c) eqn:Hs; [done|].
  destruct (connect_body (c, w)) as [[[]|e0] [c1 w1]] eqn:Hb; [done|].
  apply connect_body_inv in Hb as (Hscr & Hc & Hh & Hi & Hsess).
  destruct (isinstance_Exception e0).
  - destruct (_cleanup (c1, w1)) as [r [c2 w2]] eqn:Hcl.
    apply cleanup_frame in Hcl as (? & ? & ?).
    destruct r as [[]|e']; intros ?; simplify_eq;
      rewrite Hi in *; intuition congruence.
  - intros ?; simplify_eq. intuition congruence.
Qed.

(** *** The guard of [get_tools] and [call_tool] *)

Lemma require_connected_fail (c : MCPClient) (w : World) :
  connected c = false →
  require_connected (c, w) = (Raise NotConnectedError, (c, w)).
Proof.
  unfold connected, require_connected. mstep.
  destruct (_initialized c), (_session c); simpl; done.
Qed.

Lemma require_connected_ok (c : MCPClient) (w : World) sess :
  _initialized c = true → _session c = Some sess →
  require_connected (c, w) = (Ok sess, (c, w)).
Proof. unfold require_connected. mstep. by intros -> ->. Qed.

Lemma connected_iff (c : MCPClient) :
  connected c = true ↔ _initialized c = true ∧ is_Some (_session c).
Proof.
  unfold connected. rewrite andb_true_iff, bool_decide_eq_true. done.
Qed.

(** *** What [get_tools] does *)

Lemma for_each_cons {S A} (x : A) (l : list A) (body : A → M S unit) :
  for_each (x :: l) body = (body x;;; for_each l body).
Proof. done. Qed.

Lemma convert_tools_cons (tool : Tool) (rest : list Tool) :
  convert_tools (tool :: rest)
  = match convert_tool tool with
    | Ok d => (d :: (convert_tools rest).1, (convert_tools rest).2)
    | Raise e => ([], Some e)
    end.
Proof. simpl. destruct (convert_tool tool); [|done]. by destruct convert_tools. Qed.

(** The loop that builds the cache: one new dictionary per tool, in order,
    until a conversion raises. *)
Lemma get_tools_loop (tools : list Tool) : ∀ (c : MCPClient) (w : World) ls,
  _tools_cache c = Some ls →
  for_each tools (λ tool, tool_dict <- lift_res (convert_tool tool);;
                          d <- alloc tool_dict;;
                          self_set (cache_append d)) (c, w)
  = (match (convert_tools tools).2 with
     | None => Ok tt
     | Some e => Raise e
     end,
     (set_tools_cache
        (Some (ls ++ seq (length (w_heap w)) (length (built tools)))) c,
      set_heap (λ h, h ++ built tools) w)).
Proof.
  unfold built.
  induction tools as [|t tools IH]; intros c w ls Hc.
  - simpl. unfold ret, set_heap. rewrite !app_nil_r.
    destruct c, w; simpl in *. by subst.
  - rewrite convert_tools_cons. rewrite for_each_cons.
    unfold bind at 1. unfold bind at 1. unfold lift_res at 1.
    destruct (convert_tool t) as [d|e]; simpl.
    + unfold alloc at 1. unfold bind at 1, self_set at 1, modify at 1. simpl.
      rewrite (IH _ _ (ls ++ [length (w_heap w)])).
      * unfold set_heap, cache_append, set_tools_cache. simpl.
        rewrite length_app. simpl.
        rewrite <- !app_assoc. simpl.
        by rewrite Nat.add_1_r.
      * unfold cache_append. simpl. by rewrite Hc.
    + unfold set_heap. rewrite !app_nil_r.
      destruct c, w; simpl in *. by subst.
Qed.

Lemma get_tools_cached (c : MCPClient) (w : World) ls :
  connected c = true → _tools_cache c = Some ls →
  get_tools (c, w) = (Ok ls, (c, w)).
Proof.
  intros [Hi [sess Hs]]%connected_iff Hc. unfold get_tools.
  unfold bind at 1. rewrite (require_connected_ok _ _ sess) by done.
  mstep. by rewrite Hc; simpl; rewrite Hc.
Qed.

Lemma get_tools_fetch_ok (c : MCPClient) (w : World) sess r env' :
  _initialized c = true → _session c = Some sess → _tools_cache c = None →
  session_list_tools sess (w_env w) = (Ok r, env') →
  let tools := default [] r in
  let ls := fresh_locs w (length (built tools)) in
  get_tools (c, w)
  = (match (convert_tools tools).2 with
     | None => Ok ls
     | Some e => Raise (get_tools_raises e)
     end,
     (set_tools_cache (Some ls) c,
      set_heap (λ h, h ++ built tools)
        (after_calls w env' [(server_script c, CallListTools)]))).
Proof.
  intros Hi Hs Hc Hl tools ls. unfold get_tools.
  unfold bind at 1. rewrite (require_connected_ok _ _ sess) by done.
  unfold bind at 1, self_get at 1, gets at 1. simpl. rewrite Hc.
  unfold bind at 1, try_except, bind at 1, sdk_do at 1. simpl. rewrite Hl.
  unfold bind at 1, self_set at 1, modify at 1. simpl.
  destruct r as [[|t ts]|].
  - simpl. unfold ret. mstep. subst tools ls. simpl.
    unfold set_heap, after_calls. simpl. by rewrite app_nil_r.
  - pose proof (get_tools_loop (t :: ts)
      (set_tools_cache (Some []) c)
      (after_calls w env' [(server_script c, CallListTools)]) [] eq_refl) as HL.
    unfold after_calls in HL. cbn [w_env w_log w_heap app] in HL.
    change (default [] (Some (t :: ts))) with (t :: ts) in tools.
    subst tools ls. unfold fresh_locs.
    cbv beta iota. rewrite HL. unfold get_tools_raises.
    destruct ((convert_tools (t :: ts)).2) as [e|].
    + unfold raise. by destruct (isinstance_Exception e).
    + unfold bind, self_get, gets, ret. done.
  - simpl. unfold ret. mstep. subst tools ls. simpl.
    unfold set_heap, after_calls. simpl. by rewrite app_nil_r.
Qed.

Lemma get_tools_fetch_raise (c : MCPClient) (w : World) sess e env' :
  _initialized c = true → _session c = Some sess → _tools_cache c = None →
  session_list_tools sess (w_env w) = (Raise e, env') →
  get_tools (c, w)
  = (Raise (if isinstance_Exception e then get_tools_error e else e),
     (c, after_calls w env' [(server_script c, CallListTools)])).
Proof.
  intros Hi Hs Hc Hl. unfold get_tools.
  unfold bind at 1. rewrite (require_connected_ok _ _ sess) by done.
  mstep. rewrite Hc. simpl. rewrite Hl. simpl.
  destruct c; simpl. by destruct (isinstance_Exception e).
Qed.

(** The remote answered: the conversion of the result decides. *)
Lemma call_tool_answered (c : MCPClient) (w : World) sess name arguments r
    env' :
  _initialized c = true → _session c = Some sess →
  session_call_tool sess name (default [] arguments) (w_env w) = (Ok r, env') →
  call_tool name arguments (c, w)
  = (match convert_result r with
     | Ok d => Ok d
     | Raise e =>
         Raise (if isinstance_Exception e then call_tool_error name e else e)
     end,
     (c, after_calls w env' [(server_script c, CallCallTool name)])).
Proof.
  intros Hi Hs Hl. unfold call_tool.
  unfold bind at 1. rewrite (require_connected_ok _ _ sess) by done.
  unfold lift_res. mstep. rewrite Hl. simpl.
  destruct c; simpl. destruct (convert_result r) as [d|e]; [done|].
  by destruct (isinstance_Exception e).
Qed.

Lemma call_tool_ok (c : MCPClient) (w : World) sess name arguments r env' d :
  _initialized c = true → _session c = Some sess →
  session_call_tool sess name (default [] arguments) (w_env w) = (Ok r, env') →
  convert_result r = Ok d →
  call_tool name arguments (c, w)
  = (Ok d, (c, after_calls w env' [(server_script c, CallCallTool name)])).
Proof.
  intros Hi Hs Hl Hd.
  by rewrite (call_tool_answered c w sess name arguments r env'), Hd.
Qed.

Lemma call_tool_raise (c : MCPClient) (w : World) sess name arguments e env' :
  _initialized c = true → _session c = Some sess →
  session_call_tool sess name (default [] arguments) (w_env w)
  = (Raise e, env') →
  call_tool name arguments (c, w)
  = (Raise (if isinstance_Exception e then call_tool_error name e else e),
     (c, after_calls w env' [(server_script c, CallCallTool name)])).
Proof.
  intros Hi Hs Hl. unfold call_tool.
  unfold bind at 1. rewrite (require_connected_ok _ _ sess) by done.
  mstep. rewrite Hl. simpl.
  destruct c; simpl. by destruct (isinstance_Exception e).
Qed.

(** Every way a call of [get_tools] can go. *)
Lemma get_tools_cases (c : MCPClient) (w : World) :
  (connected c = false
   ∧ get_tools (c, w) = (Raise NotConnectedError, (c, w)))
  ∨ (connected c = true ∧ ∃ ls, _tools_cache c = Some ls
     ∧ get_tools (c, w) = (Ok ls, (c, w)))
  ∨ (connected c = true ∧ _tools_cache c = None
     ∧ ∃ sess r env', _session c = Some sess
       ∧ session_list_tools sess (w_env w) = (Ok r, env')
       ∧ get_tools (c, w)
         = (match (convert_tools (default [] r)).2 with
            | None => Ok (fresh_locs w (length (built (default [] r))))
            | Some e => Raise (get_tools_raises e)
            end,
            (set_tools_cache
               (Some (fresh_locs w (length (built (default [] r))))) c,
             set_heap (λ h, h ++ built (default [] r))
               (after_calls w env' [(server_script c, CallListTools)]))))
  ∨ (connected c = true ∧ _tools_cache c = None
     ∧ ∃ sess e env', _session c = Some sess
       ∧ session_list_tools sess (w_env w) = (Raise e, env')
       ∧ get_tools (c, w)
         = (Raise (if isinstance_Exception e then get_tools_error e else e),
            (c, after_calls w env' [(server_script c, CallListTools)]))).
Proof.
  destruct (connected c) eqn:Hconn.
  - right. apply connected_iff in Hconn as Hconn'.
    destruct Hconn' as [Hi [sess Hs]].
    destruct (_tools_cache c) as [ls|] eqn:Hc.
    + left. split; [done|]. exists ls. split; [done|].
      by apply get_tools_cached.
    + right. destruct (session_list_tools sess (w_env w)) as [[r|e] env'] eqn:Hl.
      * left. split; [done|]. split; [done|]. exists sess, r, env'.
        split; [done|]. split; [done|].
        exact (get_tools_fetch_ok c w sess r env' Hi Hs Hc Hl).
      * right. split; [done|]. split; [done|]. exists sess, e, env'.
        split; [done|]. split; [done|].
        exact (get_tools_fetch_raise c w sess e env' Hi Hs Hc Hl).
  - left. split; [done|]. unfold get_tools. unfold bind at 1.
    by rewrite require_connected_fail.
Qed.

Lemma repeat_call_fixed {S A} (m : M S A) (s : S) (a : A) (n : nat) :
  m s = (Ok a, s) → repeat_call n m s = (Ok (replicate n a), s).
Proof.
  intros Hm. induction n as [|n IH]; [done|].
  simpl. unfold bind. rewrite Hm, IH. done.
Qed.

(** ** The claims about the client *)

(** C1 (as amended).  Teardown calls the session release before the stdio
    release, each only when that context is open.  Whether a release returns
    or raises something that is an instance of [asyncio.CancelledError],
    [GeneratorExit], [RuntimeError] or [Exception], the next step runs all
    the same, [_cleanup] returns without raising, and the client is left
    with no session, no context, no cache and the initialized flag off.
    An exception of another class raised by the session release is raised by
    [_cleanup], before the stdio release is attempted.  When no context is
    open no SDK call is made; on a never-connected or already torn-down
    client nothing changes. *)
Theorem cleanup_releases_session_then_stdio (c : MCPClient) (w : World) :
  (releases_swallowed c (w_env w) = true →
   _cleanup (c, w)
   = (Ok tt, (torn_down c,
              after_calls w (release_env c (w_env w)) (release_calls c))))
  ∧ (∀ h e env', _session_context c = Some h →
       session_aexit h (w_env w) = (Raise e, env') →
       isinstance_cleanup_tuple e = false →
       _cleanup (c, w)
       = (Raise e, (set_session None (set_session_context None c),
                    after_calls w env' [(server_script c, CallSessionExit)])))
  ∧ (_session_context c = None → _stdio_context c = None →
     _cleanup (c, w) = (Ok tt, (torn_down c, w)))
  ∧ torn_down (torn_down c) = torn_down c
  ∧ torn_down (MCPClient_init (server_script c))
    = MCPClient_init (server_script c).
Proof.
  split; [apply cleanup_swallowed|]. split.
  - intros h e env' Hc Hr He. unfold _cleanup. mstep.
    rewrite Hc. simpl. rewrite Hr. simpl. by rewrite He.
  - split; [apply cleanup_noop|]. done.
Qed.

(** C2 (as amended).  When the [try] block of [connect] raises an instance
    of [Exception] at any of its steps, and the releases of the teardown
    raise nothing but what the teardown swallows, [connect] runs the
    teardown (the release calls of every context opened so far follow the
    failed call in the log) and then raises the wrapped error, whose message
    carries the cause; the client is then what a freshly created client is,
    so [connect] can be called again.  When the block raises something that
    is not an instance of [Exception], [connect] raises it as it is and
    leaves the client as the block left it. *)
Theorem connect_failure_cleans_up (c c1 : MCPClient) (w w1 : World) (e : exn) :
  _session c = None →
  connect_body (c, w) = (Raise e, (c1, w1)) →
  (isinstance_Exception e = true →
   releases_swallowed c1 (w_env w1) = true →
   connect (c, w)
   = (Raise (connect_error e),
      (MCPClient_init (server_script c),
       after_calls w1 (release_env c1 (w_env w1)) (release_calls c1)))
   ∧ exn_str (connect_error e)
     = "Failed to connect to MCP server: " +:+ exn_str e)
  ∧ (isinstance_Exception e = false →
     connect (c, w) = (Raise e, (c1, w1))).
Proof.
  intros Hs Hb. split.
  - intros He Hr. split; [|done].
    unfold connect. unfold bind at 1, self_get, gets. simpl. rewrite Hs.
    unfold try_except. rewrite Hb, He.
    unfold bind. rewrite cleanup_swallowed by done.
    unfold raise. do 2 f_equal.
    apply connect_body_inv in Hb as (Hscr & _ & _ & _ & Hsess).
    unfold torn_down, MCPClient_init. rewrite Hscr. f_equal.
    destruct (_session_context c1); [done|]. rewrite Hsess by done. done.
  - intros He. unfold connect. unfold bind at 1, self_get, gets. simpl.
    rewrite Hs. unfold try_except. by rewrite Hb, He.
Qed.

(** C3.  [connect] on a client that holds a session returns at once: no SDK
    call is made, neither the client nor the world changes.  A [connect]
    that returned has left a session in place, so a second [connect] right
    after it does nothing: two calls in a row are one call. *)
Theorem connect_twice_is_connect_once (c : MCPClient) (w : World) :
  (is_Some (_session c) → connect (c, w) = (Ok tt, (c, w)))
  ∧ (∀ c' w', connect (c, w) = (Ok tt, (c', w')) →
       connect (c', w') = (Ok tt, (c', w')))
  ∧ (connect;;; connect) (c, w) = connect (c, w).
Proof.
  split; [apply connect_connected|].
  assert (∀ c' w', connect (c, w) = (Ok tt, (c', w')) →
            connect (c', w') = (Ok tt, (c', w'))) as Hidem.
  { intros c' w' H. pose proof H as (Hs & _)%connect_ok_inv.
    by apply connect_connected. }
  split; [exact Hidem|].
  unfold bind. destruct (connect (c, w)) as [[[]|e] [c' w']] eqn:H; [|done].
  by apply Hidem.
Qed.


(** C5.  On a client that does not pass the guard, [get_tools] and
    [call_tool] raise the not-connected error without any SDK call and
    without changing anything.  A client that was never connected, a client
    after [disconnect], and a client whose [connect] raised do not pass the
    guard.  [disconnect] on a never-connected client changes nothing and
    raises nothing. *)
Theorem not_connected_calls_fail :
  (∀ c w, connected c = false →
     get_tools (c, w) = (Raise NotConnectedError, (c, w))
     ∧ ∀ name arguments,
         call_tool name arguments (c, w) = (Raise NotConnectedError, (c, w)))
  ∧ (∀ script, connected (MCPClient_init script) = false)
  ∧ (∀ c w c' w', disconnect (c, w) = (Ok tt, (c', w')) →
       connected c' = false)
  ∧ (∀ c w e c' w', _initialized c = false →
       connect (c, w) = (Raise e, (c', w')) → connected c' = false)
  ∧ (∀ script w, disconnect (MCPClient_init script, w)
                 = (Ok tt, (MCPClient_init script, w))).
Proof.
  split; [|split; [|split; [|split]]].
  - intros c w Hc. split.
    + unfold get_tools. unfold bind at 1. by rewrite require_connected_fail.
    + intros name arguments. unfold call_tool. unfold bind at 1.
      by rewrite require_connected_fail.
  - done.
  - intros c w c' w'. unfold disconnect, _cleanup.
    destruct c as [script sess stdio sctx cache init], w as [env log heap].
    mstep. mcases; intros; simplify_eq; done.
  - intros c w e c' w' Hi (_ & _ & H)%connect_raise_inv.
    unfold connected. by rewrite H.
  - intros script w. unfold disconnect. by rewrite cleanup_noop.
Qed.

(** *** The conversion of the tool objects *)

Lemma normalize_schema_cases (s : schema_repr) :
  normalize_schema s
  = match s with
    | SchemaPydantic true (Raise e) => Raise e
    | _ => Ok (schema_mapping s)
    end.
Proof. by destruct s as [[] []|[]|[]|]. Qed.

Lemma convert_tool_ok (tool : Tool) (d : ToolDict) :
  convert_tool tool = Ok d →
  ∃ name description schema,
    tool_name tool = Ok name ∧ tool_description tool = Ok description
    ∧ tool_inputSchema tool = Ok schema
    ∧ (∀ e, schema ≠ SchemaPydantic true (Raise e))
    ∧ d = tool_dict name description (schema_mapping schema).
Proof.
  unfold convert_tool. destruct tool as [[n|?] [ds|?] [s|?]]; simpl; try done;
    rewrite normalize_schema_cases;
    destruct s as [[] [m|?]| | |]; simpl; try done;
    intros [= <-]; eexists _, _, _; repeat split; done.
Qed.


(** What the loop has built when it ends. *)
Lemma convert_tools_spec (tools : list Tool) :
  Forall2 (λ d tool, convert_tool tool = Ok d)
    (built tools) (take (length (built tools)) tools)
  ∧ match (convert_tools tools).2 with
    | None => length (built tools) = length tools
    | Some e => ∃ tool, tools !! length (built tools) = Some tool
                        ∧ convert_tool tool = Raise e
    end.
Proof.
  unfold built. induction tools as [|t tools [IH1 IH2]]; [by split|].
  rewrite convert_tools_cons. destruct (convert_tool t) as [d|e] eqn:Ht; simpl.
  - split; [by constructor|].
    destruct ((convert_tools tools).2); [done|]. by rewrite IH2.
  - split; [constructor|]. by exists t.
Qed.

Lemma built_descriptors (tools : list Tool) :
  Forall built_dict (built tools).
Proof.
  unfold built_dict.
  destruct (convert_tools_spec tools) as [H _].
  induction H as [|d t ds ts Hd _ IH]; constructor; [|done].
  apply convert_tool_ok in Hd as (n & ds' & s & _ & _ & _ & _ & ->). eauto.
Qed.

Lemma connected_set_tools_cache v (c : MCPClient) :
  connected (set_tools_cache v c) = connected c.
Proof. done. Qed.


(** Every way a call of [get_tools] on a connected client can raise. *)
Lemma get_tools_raise_cases (c c' : MCPClient) (w w' : World) sess e :
  _initialized c = true → _session c = Some sess →
  get_tools (c, w) = (Raise e, (c', w')) →
  _tools_cache c = None
  ∧ w_log w' = w_log w ++ [(server_script c, CallListTools)]
  ∧ ∃ cause, e = get_tools_raises cause
      ∧ ((∃ env', session_list_tools sess (w_env w) = (Raise cause, env')
          ∧ c' = c ∧ w_heap w' = w_heap w)
         ∨ (∃ r env' tool n,
              session_list_tools sess (w_env w) = (Ok r, env')
              ∧ default [] r !! n = Some tool
              ∧ convert_tool tool = Raise cause
              ∧ c' = set_tools_cache (Some (fresh_locs w n)) c
              ∧ length (w_heap w') = length (w_heap w) + n)).
Proof.
  intros Hi Hs H.
  destruct (get_tools_cases c w) as
    [[Hn E]|[(_ & ls & Hc & E)|[(_ & Hc & sess' & r & env' & Hs' & Hl & E)
     |(_ & Hc & sess' & e0 & env' & Hs' & Hl & E)]]];
    rewrite E in H.
  - unfold connected in Hn. rewrite Hi, Hs in Hn.
    by rewrite bool_decide_true in Hn by eauto.
  - by simplify_eq.
  - rewrite Hs in Hs'. injection Hs' as <-.
    destruct (convert_tools_spec (default [] r)) as [_ He].
    destruct ((convert_tools (default [] r)).2) as [cause|]; [|by simplify_eq].
    destruct He as (tool & Ht & Hr).
    injection H as <- <- <-. split; [done|]. split; [done|].
    exists cause. split; [done|]. right.
    exists r, env', tool, (length (built (default [] r))).
    split; [done|]. split; [done|]. split; [done|]. split; [done|].
    simpl. by rewrite length_app.
  - rewrite Hs in Hs'. injection Hs' as <-.
    injection H as <- <- <-. split; [done|]. split; [done|].
    exists e0. split; [done|]. left. exists env'. done.
Qed.

(** C7 (as amended).  On a connected client, [get_tools] and [call_tool]
    raise only because the remote call raised or because what it returned
    could not be converted, and then they raise the wrapped error if the
    cause is an instance of [Exception] and the cause itself otherwise.
    Either way the session, both contexts and the initialized flag are as
    before ([call_tool] leaves the cache too), so the client still passes
    the guard, and a later call whose remote answer can be converted
    returns it. *)
Theorem fetch_and_invoke_failures_keep_connection
    (c : MCPClient) (w : World) sess :
  _initialized c = true → _session c = Some sess →
  (∀ e env', _tools_cache c = None →
     session_list_tools sess (w_env w) = (Raise e, env') →
     get_tools (c, w)
     = (Raise (if isinstance_Exception e then get_tools_error e else e),
        (c, after_calls w env' [(server_script c, CallListTools)])))
  ∧ (∀ name arguments e env',
       session_call_tool sess name (default [] arguments) (w_env w)
       = (Raise e, env') →
       call_tool name arguments (c, w)
       = (Raise (if isinstance_Exception e
                 then call_tool_error name e else e),
          (c, after_calls w env' [(server_script c, CallCallTool name)])))
  ∧ (∀ e c' w', get_tools (c, w) = (Raise e, (c', w')) →
       c' = set_tools_cache (_tools_cache c') c
       ∧ connected c' = true
       ∧ ∃ cause,
           e = (if isinstance_Exception cause
                then get_tools_error cause else cause)
           ∧ ((∃ env', session_list_tools sess (w_env w)
                       = (Raise cause, env'))
              ∨ ∃ r env' tool,
                  session_list_tools sess (w_env w) = (Ok r, env')
                  ∧ tool ∈ default [] r
                  ∧ convert_tool tool = Raise cause))
  ∧ (∀ name arguments e c' w',
       call_tool name arguments (c, w) = (Raise e, (c', w')) →
       c' = c
       ∧ ∃ cause,
           e = (if isinstance_Exception cause
                then call_tool_error name cause else cause)
           ∧ ((∃ env', session_call_tool sess name (default [] arguments)
                         (w_env w)
                       = (Raise cause, env'))
              ∨ ∃ r env',
                  session_call_tool sess name (default [] arguments)
                    (w_env w)
                  = (Ok r, env')
                  ∧ convert_result r = Raise cause))
  ∧ connected c = true
  ∧ (∀ cache w1 name arguments r env' d,
       session_call_tool sess name (default [] arguments) (w_env w1)
       = (Ok r, env') →
       convert_result r = Ok d →
       call_tool name arguments (set_tools_cache cache c, w1)
       = (Ok d,
          (set_tools_cache cache c,
           after_calls w1 env' [(server_script c, CallCallTool name)]))).
Proof.
  intros Hi Hs. split; [|split; [|split; [|split; [|split]]]].
  - intros e env' Hc Hl. by apply (get_tools_fetch_raise c w sess).
  - intros name arguments e env' Hl. by apply (call_tool_raise c w sess).
  - intros e c' w' H.
    pose proof (get_tools_raise_cases _ _ _ _ _ _ Hi Hs H)
      as (Hc & _ & cause & -> & Hcause).
    assert (connected c = true) as Hconn by (apply connected_iff; eauto).
    destruct Hcause as [(env' & Hl & -> & _)
                       |(r & env' & tool & n & Hl & Ht & Hr & -> & _)].
    + split; [by destruct c|]. split; [done|].
      exists cause. split; [done|]. left. eauto.
    + split; [done|]. split; [done|].
      exists cause. split; [done|]. right. exists r, env', tool.
      split; [done|]. split; [|done]. by eapply list_elem_of_lookup_2.
  - intros name arguments e c' w' H.
    destruct (session_call_tool sess name (default [] arguments) (w_env w))
      as [[res|cause] env'] eqn:Hl.
    + rewrite (call_tool_answered c w sess name arguments res env') in H
        by done.
      destruct (convert_result res) as [d|cause] eqn:Hr; [by simplify_eq|].
      injection H as <- <- <-. split; [done|].
      exists cause. split; [done|]. right. eauto.
    + rewrite (call_tool_raise c w sess name arguments cause env') in H
        by done.
      injection H as <- <- <-. split; [done|].
      exists cause. split; [done|]. left. eauto.
  - apply connected_iff. eauto.
  - intros cache w1 name arguments r env' d Hl Hd.
    by apply (call_tool_ok (set_tools_cache cache c) w1 sess _ _ r).
Qed.

End ClientFacts.

Section HostFacts.
Context `{sdk : SDK}.

Ltac mstep :=
  unfold self_get, self_set, sdk_do, alloc in *;
  unfold bind, ret, raise, gets, modify, try_except in *; simpl in *.

(** *** The registry as a dictionary *)

Lemma clients_lookup_None script (cs : list (string * MCPClient)) :
  clients_lookup script cs = None ↔ (script ∉ cs.*1).
Proof.
  induction cs as [|[k c] cs IH]; simpl.
  - split; [|done]. intros _. apply not_elem_of_nil.
  - rewrite not_elem_of_cons. case_decide; subst.
    + split; [done|]. intros [? _]. done.
    + rewrite IH. split; [done|]. by intros [_ ?].
Qed.

(** The entry a successful lookup finds, and what an update does to it. *)
Lemma clients_lookup_Some script (cs : list (string * MCPClient)) c :
  clients_lookup script cs = Some c →
  ∃ pre post, cs = pre ++ ((script, c) :: post) ∧ (script ∉ pre.*1)
    ∧ ∀ c', clients_update script c' cs = pre ++ ((script, c') :: post).
Proof.
  induction cs as [|[k c0] cs IH]; simpl; [done|].
  case_decide; subst.
  - intros ?; simplify_eq. exists [], cs. split; [done|].
    split; [apply not_elem_of_nil|]. done.
  - intros (pre & post & -> & Hn & Hu)%IH.
    exists ((k, c0) :: pre), post. split; [done|]. split.
    + simpl. rewrite not_elem_of_cons. done.
    + intros c'. by rewrite Hu.
Qed.

Lemma clients_lookup_middle script pre c post :
  (script ∉ pre.*1) →
  clients_lookup script (pre ++ (script, c) :: post) = Some c.
Proof.
  induction pre as [|[k c0] pre IH]; simpl; intros Hn.
  - by case_decide.
  - rewrite not_elem_of_cons in Hn. destruct Hn as [Hk Hn].
    case_decide; [done|]. by apply IH.
Qed.

Lemma clients_lookup_middle_ne script k pre c c' post :
  script ≠ k →
  clients_lookup script (pre ++ (k, c') :: post)
  = clients_lookup script (pre ++ (k, c) :: post).
Proof.
  intros Hne. induction pre as [|[k0 c0] pre IH]; simpl.
  - by repeat case_decide.
  - case_decide; [done|]. apply IH.
Qed.

Lemma clients_update_id script (cs : list (string * MCPClient)) c :
  clients_lookup script cs = Some c → clients_update script c cs = cs.
Proof.
  intros (pre & post & -> & _ & Hu)%clients_lookup_Some. apply Hu.
Qed.

Lemma clients_lookup_app_l script (cs new : list (string * MCPClient)) c :
  clients_lookup script cs = Some c →
  clients_lookup script (cs ++ new) = Some c.
Proof.
  induction cs as [|[k c0] cs IH]; simpl; [done|]. by case_decide.
Qed.

Lemma clients_lookup_app_r script (cs new : list (string * MCPClient)) :
  clients_lookup script cs = None →
  clients_lookup script (cs ++ new) = clients_lookup script new.
Proof.
  induction cs as [|[k c0] cs IH]; simpl; [done|]. by case_decide.
Qed.

Lemma owned_app (cs1 cs2 : list (string * MCPClient)) :
  owned (cs1 ++ cs2) = owned cs1 ++ owned cs2.
Proof. unfold owned. apply flat_map_app. Qed.

Lemma owned_cons script c (cs : list (string * MCPClient)) :
  owned ((script, c) :: cs) = cache_locs c ++ owned cs.
Proof. done. Qed.

(** *** The tagging loop *)

Lemma tag_server_length script l heap :
  length (tag_server script l heap) = length heap.
Proof. unfold tag_server. apply length_alter. Qed.

Lemma tag_all_cons script l tools heap :
  tag_all script (l :: tools) heap
  = tag_all script tools (tag_server script l heap).
Proof. done. Qed.

Lemma tag_all_length script tools : ∀ heap,
  length (tag_all script tools heap) = length heap.
Proof.
  induction tools as [|l tools IH]; intros heap; [done|].
  by rewrite tag_all_cons, IH, tag_server_length.
Qed.

Lemma tag_all_lookup_notin script tools l : ∀ heap,
  l ∉ tools → tag_all script tools heap !! l = heap !! l.
Proof.
  induction tools as [|l0 tools IH]; intros heap Hn; [done|].
  rewrite not_elem_of_cons in Hn. destruct Hn as [Hne Hn].
  rewrite tag_all_cons, IH by done.
  unfold tag_server. by rewrite list_lookup_alter_ne.
Qed.

Lemma tag_all_lookup_in script tools l : ∀ heap,
  l ∈ tools →
  tag_all script tools heap !! l
  = insert "_server" (PStr script) <$> heap !! l.
Proof.
  induction tools as [|l0 tools IH]; intros heap Hin.
  - by apply elem_of_nil in Hin.
  - rewrite tag_all_cons.
    destruct (decide (l ∈ tools)) as [Hin'|Hn].
    + rewrite IH by done. unfold tag_server.
      destruct (decide (l0 = l)) as [->|Hne].
      * rewrite list_lookup_alter_eq. destruct (heap !! l); simpl; [|done].
        by rewrite insert_insert_eq.
      * by rewrite list_lookup_alter_ne.
    + apply elem_of_cons in Hin as [->|]; [|done].
      rewrite tag_all_lookup_notin by done.
      unfold tag_server. by rewrite list_lookup_alter_eq.
Qed.

(** Tagging dictionaries that carry the tag already changes nothing. *)
Lemma tag_all_tagged script tools : ∀ heap,
  Forall (tagged heap script) tools → tag_all script tools heap = heap.
Proof.
  induction tools as [|l tools IH]; intros heap Ht; [done|].
  apply Forall_cons in Ht as [Hl Ht]. rewrite tag_all_cons.
  assert (tag_server script l heap = heap) as ->; [|by apply IH].
  unfold tag_server. apply list_eq. intros i.
  destruct (decide (l = i)) as [->|Hne].
  - rewrite list_lookup_alter_eq. unfold tagged, tool_get in Hl.
    destruct (heap !! i) as [d|]; simpl in *; [|done].
    by rewrite insert_id.
  - by rewrite list_lookup_alter_ne.
Qed.

Lemma tag_all_tagged_id script tools (w : World) :
  Forall (tagged (w_heap w) script) tools →
  set_heap (tag_all script tools) w = w.
Proof.
  intros Ht. unfold set_heap. rewrite tag_all_tagged by done. by destruct w.
Qed.

Lemma tag_loop script tools : ∀ (h : ResearchHost) (w : World),
  for_each tools (λ tool,
    modify (λ s : hstate, (s.1, set_heap (tag_server script tool) s.2)))
    (h, w)
  = (Ok tt, (h, set_heap (tag_all script tools) w)).
Proof.
  induction tools as [|l tools IH]; intros h w.
  - simpl. unfold ret, set_heap. by destruct w.
  - simpl. mstep. rewrite IH. by destruct w.
Qed.

(** The tag leaves the other keys of every dictionary alone. *)
Lemma tag_all_other_keys script tools heap l key :
  key ≠ "_server" →
  tool_get (tag_all script tools heap) l key = tool_get heap l key.
Proof.
  intros Hk. unfold tool_get.
  destruct (decide (l ∈ tools)).
  - rewrite tag_all_lookup_in by done.
    destruct (heap !! l); simpl; [|done]. by rewrite lookup_insert_ne.
  - by rewrite tag_all_lookup_notin.
Qed.

Lemma tag_all_is_descriptor script tools heap l :
  is_descriptor heap l → is_descriptor (tag_all script tools heap) l.
Proof.
  intros (d & n & de & m & Hd & Ht). unfold is_descriptor.
  destruct (decide (l ∈ tools)).
  - rewrite tag_all_lookup_in, Hd by done. simpl.
    eexists _, n, de, m. split; [done|]. by rewrite delete_insert_eq.
  - rewrite tag_all_lookup_notin by done. eauto 6.
Qed.

Lemma tag_all_tags script tools heap l :
  l ∈ tools → is_Some (heap !! l) → tagged (tag_all script tools heap) script l.
Proof.
  intros Hin [d Hd]. unfold tagged, tool_get.
  rewrite tag_all_lookup_in, Hd by done. simpl. by rewrite lookup_insert_eq.
Qed.

Lemma tag_all_tagged_other script script' tools heap l :
  l ∉ tools → tagged heap script' l →
  tagged (tag_all script tools heap) script' l.
Proof.
  intros Hn Ht. unfold tagged, tool_get in *.
  by rewrite tag_all_lookup_notin.
Qed.

(** *** Bulk teardown *)

Lemma after_calls_after_calls (w : World) e1 l1 e2 l2 :
  after_calls (after_calls w e1 l1) e2 l2 = after_calls w e2 (l1 ++ l2).
Proof. unfold after_calls. simpl. by rewrite app_assoc. Qed.

Lemma cleanup_step_swallowed script c (h : ResearchHost) (w : World) :
  releases_swallowed c (w_env w) = true →
  cleanup_step (script, c) (h, w)
  = (Ok tt,
     ({| mcp_clients := clients_update script (torn_down c) (mcp_clients h) |},
      after_calls w (release_env c (w_env w)) (release_calls c))).
Proof.
  intros Hc. unfold cleanup_step, try_except, on_registered, disconnect.
  simpl. by rewrite cleanup_swallowed.
Qed.

Lemma cleanup_loop_swallowed items : ∀ (h : ResearchHost) (w : World),
  registry_releases_swallowed items (w_env w) = true →
  ∃ h', for_each items cleanup_step (h, w)
        = (Ok tt, (h', after_calls w (registry_release_env items (w_env w))
                         (registry_release_calls items))).
Proof.
  induction items as [|[script c] items IH]; intros h w Hsw.
  - exists h. simpl. unfold ret. by rewrite after_calls_nil.
  - simpl in Hsw. apply andb_prop in Hsw as [Hc Hrest].
    rewrite for_each_cons. unfold bind.
    rewrite cleanup_step_swallowed by done.
    edestruct (IH {| mcp_clients :=
                       clients_update script (torn_down c) (mcp_clients h) |}
                 (after_calls w (release_env c (w_env w)) (release_calls c)))
      as [h' Hh']; [done|].
    exists h'. rewrite Hh'. simpl.
    by rewrite after_calls_after_calls.
Qed.

(** *** The invariant *)

Lemma host_inv_init (w : World) : host_inv ResearchHost_init w.
Proof. split; simpl; constructor. Qed.

Lemma is_descriptor_lt heap l : is_descriptor heap l → l < length heap.
Proof. intros (d & _ & _ & _ & Hd & _). by eapply lookup_lt_Some. Qed.

Lemma is_descriptor_app heap news l :
  is_descriptor heap l → is_descriptor (heap ++ news) l.
Proof.
  intros (d & n & de & m & Hd & Ht). exists d, n, de, m. split; [|done].
  by apply lookup_app_l_Some.
Qed.

Lemma tool_dict_no_server name description input_schema :
  tool_dict name description input_schema !! "_server" = None.
Proof. done. Qed.

Lemma is_descriptor_fresh heap (ds : list ToolDict) i :
  Forall built_dict ds → i < length ds →
  is_descriptor (heap ++ ds) (length heap + i).
Proof.
  intros Hds Hi. destruct (lookup_lt_is_Some_2 ds i Hi) as [d Hd].
  rewrite Forall_lookup in Hds.
  destruct (Hds i d Hd) as (n & de & m & ->).
  exists (tool_dict n de m), n, de, m. split.
  - rewrite lookup_app_r by lia.
    replace (length heap + i - length heap) with i by lia. done.
  - apply delete_id. apply tool_dict_no_server.
Qed.

Lemma cache_in_owned script (cs : list (string * MCPClient)) c l :
  clients_lookup script cs = Some c → l ∈ cache_locs c → l ∈ owned cs.
Proof.
  intros (pre & post & -> & _ & _)%clients_lookup_Some Hl.
  rewrite owned_app, owned_cons. set_solver.
Qed.

(** A dictionary is in the cache of one registered script only. *)
Lemma owned_unique (cs : list (string * MCPClient)) s1 s2 c1 c2 l :
  NoDup (owned cs) →
  clients_lookup s1 cs = Some c1 → clients_lookup s2 cs = Some c2 →
  l ∈ cache_locs c1 → l ∈ cache_locs c2 → s1 = s2.
Proof.
  induction cs as [|[k c] cs IH]; [done|].
  rewrite owned_cons. intros [Hc [Hdisj Hcs]]%NoDup_app. simpl.
  destruct (decide (k = s1)), (decide (k = s2)); subst; try done.
  - intros ? Hl2 Hin1 Hin2; simplify_eq.
    exfalso. eapply Hdisj; [done|]. by eapply cache_in_owned.
  - intros Hl1 ? Hin1 Hin2; simplify_eq.
    exfalso. eapply Hdisj; [done|]. by eapply cache_in_owned.
  - by apply IH.
Qed.

Lemma host_eta (h : ResearchHost) : {| mcp_clients := mcp_clients h |} = h.
Proof. by destruct h. Qed.

Lemma evolves_same (s s' : hstate) :
  mcp_clients s'.1 = mcp_clients s.1 → w_heap s'.2 = w_heap s.2 →
  evolves s s'.
Proof.
  intros Hc Hh. unfold evolves, merged, cache_of. rewrite Hc, Hh. done.
Qed.

Lemma evolves_refl (s : hstate) : evolves s s.
Proof. by apply evolves_same. Qed.

Lemma evolves_trans (s1 s2 s3 : hstate) :
  evolves s1 s2 → evolves s2 s3 → evolves s1 s3.
Proof.
  intros (Hr1 & Hm1 & Hk1 & Hl1) (Hr2 & Hm2 & Hk2 & Hl2).
  split; [|split; [|split]].
  - intros script H. by apply Hr2, Hr1.
  - intros script H. destruct (Hm1 _ H) as [H1 E1].
    destruct (Hm2 _ H1) as [H2 E2]. split; [done|]. by rewrite E2.
  - intros l key Hkey Hlt. rewrite Hk2 by (done || lia). by apply Hk1.
  - lia.
Qed.

Lemma tagged_is_Some heap script l :
  tagged heap script l → is_Some (heap !! l).
Proof.
  unfold tagged, tool_get. destruct (heap !! l); [eauto|done].
Qed.

Lemma fetch_and_tag_unfold script c (h : ResearchHost) (w : World) :
  fetch_and_tag script c (h, w)
  = match get_tools (c, w) with
    | (Ok tools, (c', w')) =>
        (Ok tools,
         ({| mcp_clients := clients_update script c' (mcp_clients h) |},
          set_heap (tag_all script tools) w'))
    | (Raise e, (c', w')) =>
        (Raise e,
         ({| mcp_clients := clients_update script c' (mcp_clients h) |}, w'))
    end.
Proof.
  unfold fetch_and_tag, on_registered, bind. simpl.
  destruct (get_tools (c, w)) as [[tools|e] [c' w']]; [|done].
  by rewrite tag_loop.
Qed.

Lemma tagged_app heap news script l :
  tagged heap script l → tagged (heap ++ news) script l.
Proof.
  intros Ht. destruct (tagged_is_Some _ _ _ Ht) as [d Hd].
  unfold tagged, tool_get in *.
  rewrite (lookup_app_l_Some _ _ _ _ Hd). by rewrite Hd in Ht.
Qed.

(** Every way the body of the merge loop can go for a registered script. *)
Lemma fetch_and_tag_cases script c (h : ResearchHost) (w : World) :
  clients_lookup script (mcp_clients h) = Some c →
  (connected c = false
   ∧ fetch_and_tag script c (h, w) = (Raise NotConnectedError, (h, w)))
  ∨ (connected c = true ∧ ∃ ls, _tools_cache c = Some ls
     ∧ fetch_and_tag script c (h, w)
       = (Ok ls, (h, set_heap (tag_all script ls) w)))
  ∨ (connected c = true ∧ _tools_cache c = None
     ∧ ∃ (ds : list ToolDict) env' r tagged,
         Forall built_dict ds
         ∧ (r = Ok (fresh_locs w (length ds))
            ∧ tagged = fresh_locs w (length ds)
            ∨ (∃ e, r = Raise e) ∧ tagged = [])
         ∧ fetch_and_tag script c (h, w)
           = (r,
              ({| mcp_clients :=
                    clients_update script
                      (set_tools_cache (Some (fresh_locs w (length ds))) c)
                      (mcp_clients h) |},
               set_heap (tag_all script tagged)
                 (set_heap (λ hp, hp ++ ds)
                    (after_calls w env'
                       [(server_script c, CallListTools)])))))
  ∨ (∃ e env',
       fetch_and_tag script c (h, w)
       = (Raise e,
          (h, after_calls w env' [(server_script c, CallListTools)]))).
Proof.
  intros Hl. rewrite !fetch_and_tag_unfold.
  destruct (get_tools_cases c w) as
    [[Hconn E]|[(Hconn & ls & Hc & E)|[(Hconn & Hc & sess & r & env' & Hs & _ & E)
     |(_ & _ & sess & e & env' & _ & _ & E)]]]; rewrite E.
  - left. split; [done|]. by rewrite clients_update_id, host_eta.
  - right; left. split; [done|]. exists ls. split; [done|].
    by rewrite clients_update_id, host_eta.
  - right; right; left. split; [done|]. split; [done|].
    pose proof (built_descriptors (default [] r)) as Hds.
    destruct ((convert_tools (default [] r)).2) as [e|].
    + exists (built (default [] r)), env', (Raise (get_tools_raises e)), [].
      split; [done|]. split; [right; eauto|]. done.
    + exists (built (default [] r)), env',
        (Ok (fresh_locs w (length (built (default [] r))))),
        (fresh_locs w (length (built (default [] r)))).
      split; [done|]. split; [by left|]. done.
  - right; right; right. eexists _, env'.
    by rewrite clients_update_id, host_eta.
Qed.

(** One round of the merge loop keeps the invariant, and when it returns
    the script's catalog is merged. *)
Lemma fetch_and_tag_step script c (h h1 : ResearchHost) (w w1 : World) r :
  host_inv h w → clients_lookup script (mcp_clients h) = Some c →
  fetch_and_tag script c (h, w) = (r, (h1, w1)) →
  host_inv h1 w1 ∧ evolves (h, w) (h1, w1)
  ∧ ∀ tools, r = Ok tools →
      merged script h1 w1 ∧ cache_of h1 script = tools.
Proof.
  intros [Hkeys Hscr Hnd Hdescr] Hl H.
  destruct (fetch_and_tag_cases script c h w Hl) as
    [[_ E]|[(Hconn & ls & Hc & E)
     |[(Hconn & Hc & ds & env' & r0 & tl & Hds & Htl & E)
     |(e & env' & E)]]]; rewrite E in H; simplify_eq.
  - split; [done|]. split; [apply evolves_refl|]. done.
  - (* the catalog was cached *)
    assert (∀ l, l ∈ ls → is_Some (w_heap w !! l)) as Hsome.
    { intros l Hin. rewrite Forall_forall in Hdescr.
      destruct (Hdescr l) as (d & _ & _ & _ & Hd & _); [|eauto].
      eapply cache_in_owned; [done|]. unfold cache_locs. by rewrite Hc. }
    split; [|split].
    + split; simpl; try done.
      eapply Forall_impl; [done|]. intros l. apply tag_all_is_descriptor.
    + split; [done|]. split; [|split].
      * intros s0 (c0 & ls0 & Hl0 & Hconn0 & Hc0 & Ht0). simpl in *.
        split; [|done]. exists c0, ls0. do 3 (split; [done|]).
        rewrite Forall_forall in Ht0 |- *. intros l Hin.
        destruct (decide (l ∈ ls)) as [Hin'|Hn].
        -- assert (script = s0) as ->.
           { eapply (owned_unique _ _ _ c c0 l); try done.
             - unfold cache_locs. by rewrite Hc.
             - unfold cache_locs. by rewrite Hc0. }
           apply tag_all_tags; [done|]. by apply Hsome.
        -- apply tag_all_tagged_other; [done|]. by apply Ht0.
      * intros l key Hkey _. simpl. by apply tag_all_other_keys.
      * simpl. by rewrite tag_all_length.
    + intros ? ?; simplify_eq. split.
      * exists c, tools. do 3 (split; [done|]). simpl.
        rewrite Forall_forall. intros l Hin.
        apply tag_all_tags; [done|]. by apply Hsome.
      * unfold cache_of, cache_locs. by rewrite Hl, Hc.
  - (* the catalog was fetched *)
    destruct (clients_lookup_Some _ _ _ Hl) as (pre & post & Hcs & Hpre & Hupd).
    set (ls := fresh_locs w (length ds)) in *.
    set (c' := set_tools_cache (Some ls) c) in *.
    assert (∀ l, l ∈ tl → l ∈ ls) as Hsub.
    { intros l. destruct Htl as [[_ ->]|[_ ->]]; [done|].
      by intros ?%elem_of_nil. }
    rewrite Hupd. simpl in *.
    assert (cache_locs c = []) as Hcl by (unfold cache_locs; by rewrite Hc).
    assert (cache_locs c' = ls) as Hcl' by done.
    rewrite Hcs in Hkeys, Hscr, Hnd, Hdescr.
    rewrite owned_app, owned_cons, Hcl in Hnd, Hdescr. simpl in Hnd, Hdescr.
    assert (∀ l, l ∈ ls ↔ ∃ i, l = length (w_heap w) + i ∧ i < length ds)
      as Hls.
    { intros l. unfold ls, fresh_locs. rewrite elem_of_seq. split.
      - intros [? ?]. exists (l - length (w_heap w)). lia.
      - intros (i & -> & ?). lia. }
    assert (∀ l, l ∈ owned pre ++ owned post → l ∉ ls) as Hold.
    { intros l Hin [i [-> Hi]]%Hls. rewrite Forall_forall in Hdescr.
      apply Hdescr, is_descriptor_lt in Hin. lia. }
    split; [|split].
    + split; simpl.
      * by rewrite fmap_app, fmap_cons in *.
      * rewrite Forall_app, Forall_cons in *. naive_solver.
      * rewrite owned_app, owned_cons, Hcl'.
        apply NoDup_app in Hnd as (Hn1 & Hn2 & Hn3).
        apply NoDup_app. split; [done|]. split.
        -- intros l Hin1 [Hin2|Hin2]%elem_of_app.
           ++ eapply Hold; [|done]. set_solver.
           ++ by eapply Hn2.
        -- apply NoDup_app. split; [apply NoDup_seq|]. split; [|done].
           intros l Hin1 Hin2. eapply Hold; [|done]. set_solver.
      * rewrite owned_app, owned_cons, Hcl'.
        rewrite !Forall_app in *. destruct Hdescr as [Hd1 Hd2].
        split; [|split].
        -- eapply Forall_impl; [done|]. intros l Hd.
           by apply tag_all_is_descriptor, is_descriptor_app.
        -- rewrite Forall_forall. intros l [i [-> Hi]]%Hls.
           by apply tag_all_is_descriptor, is_descriptor_fresh.
        -- eapply Forall_impl; [done|]. intros l Hd.
           by apply tag_all_is_descriptor, is_descriptor_app.
    + split; [|split; [|split]]; simpl.
      * intros s0. rewrite Hcs. destruct (decide (s0 = script)) as [->|Hne].
        -- rewrite !clients_lookup_middle by done. eauto.
        -- by rewrite (clients_lookup_middle_ne s0 script pre c c').
      * intros s0 (c0 & ls0 & Hl0 & Hconn0 & Hc0 & Ht0). simpl in *.
        assert (s0 ≠ script) as Hne by (intros ->; congruence).
        assert (clients_lookup s0 (pre ++ (script, c') :: post) = Some c0)
          as Hl0'.
        { rewrite (clients_lookup_middle_ne s0 script pre c c') by done.
          by rewrite <- Hcs. }
        split.
        -- exists c0, ls0. do 3 (split; [done|]).
           rewrite Forall_forall in Ht0 |- *. intros l Hin.
           specialize (Ht0 l Hin).
           apply tag_all_tagged_other.
           ++ intros [i [-> Hi]]%Hsub%Hls.
              apply tagged_is_Some, lookup_lt_is_Some in Ht0. lia.
           ++ by apply tagged_app.
        -- unfold cache_of. simpl. by rewrite Hl0', Hl0.
      * intros l key Hkey Hlt. rewrite tag_all_other_keys by done.
        unfold tool_get. by rewrite lookup_app_l.
      * rewrite tag_all_length, length_app. lia.
    + intros tools0 Htools.
      destruct Htl as [[Hr ->]|[[e Hr] _]]; [|congruence].
      assert (tools0 = ls) as -> by congruence.
      split.
      * exists c', ls. simpl. rewrite clients_lookup_middle by done.
        split; [done|]. split; [done|]. split; [done|].
        rewrite Forall_forall. intros l Hin. apply tag_all_tags; [done|].
        apply Hls in Hin as [i [-> Hi]]. apply lookup_lt_is_Some.
        rewrite length_app. lia.
      * unfold cache_of. simpl. by rewrite clients_lookup_middle.
  - split; [done|]. split; [by apply evolves_same|]. done.
Qed.

(** Registering a script keeps the invariant; when it returns the script is
    registered. *)
Lemma ensure_step_spec script (h h1 : ResearchHost) (w w1 : World) r :
  host_inv h w → ensure_step script (h, w) = (r, (h1, w1)) →
  host_inv h1 w1 ∧ evolves (h, w) (h1, w1)
  ∧ (r = Ok tt → is_Some (clients_lookup script (mcp_clients h1))).
Proof.
  intros [Hkeys Hscr Hnd Hdescr]. unfold ensure_step, bind, gets. simpl.
  destruct (clients_lookup script (mcp_clients h)) as [c|] eqn:Hl.
  - unfold ret. intros ?; simplify_eq.
    split; [done|]. split; [apply evolves_refl|]. rewrite Hl. eauto.
  - unfold on_client, modify. simpl.
    destruct (connect (MCPClient_init script, w)) as [[[]|e] [c' w']] eqn:Hc;
      simpl; intros ?; simplify_eq.
    + apply connect_ok_inv in Hc as (_ & Hs & Hcache & Hheap). simpl in *.
      assert (cache_locs c' = []) as Hcl
        by (unfold cache_locs; by rewrite Hcache).
      assert (owned (mcp_clients h ++ [(script, c')]) = owned (mcp_clients h))
        as Hown.
      { rewrite owned_app, owned_cons, Hcl. simpl.
        unfold owned at 2. simpl. by rewrite app_nil_r. }
      split; [|split].
      * split; simpl.
        -- rewrite fmap_app. simpl. apply NoDup_app. split; [done|].
           split; [|apply NoDup_singleton].
           intros x Hx ->%list_elem_of_singleton.
           by apply clients_lookup_None in Hl.
        -- apply Forall_app. split; [done|]. by apply Forall_singleton.
        -- by rewrite Hown.
        -- by rewrite Hown, Hheap.
      * split; [|split; [|split]]; simpl.
        -- intros s0 [c0 H0]. rewrite (clients_lookup_app_l _ _ _ _ H0). eauto.
        -- intros s0 (c0 & ls0 & Hl0 & Hconn0 & Hc0 & Ht0). simpl in *.
           split.
           ++ exists c0, ls0. simpl.
              rewrite (clients_lookup_app_l _ _ _ _ Hl0), Hheap. done.
           ++ unfold cache_of. simpl.
              by rewrite (clients_lookup_app_l _ _ _ _ Hl0), Hl0.
        -- intros l key _ _. by rewrite Hheap.
        -- by rewrite Hheap.
      * intros _. simpl. rewrite clients_lookup_app_r by done. simpl.
        rewrite decide_True by done. eauto.
    + apply connect_raise_inv in Hc as (_ & Hheap & _).
      split; [|split; [|done]].
      * split; simpl; try done. by rewrite Hheap.
      * by apply evolves_same.
Qed.

Lemma ensure_spec scripts : ∀ (h h1 : ResearchHost) (w w1 : World) r,
  host_inv h w → _ensure_clients_connected scripts (h, w) = (r, (h1, w1)) →
  host_inv h1 w1 ∧ evolves (h, w) (h1, w1)
  ∧ (r = Ok tt →
     ∀ s, s ∈ scripts → is_Some (clients_lookup s (mcp_clients h1))).
Proof.
  unfold _ensure_clients_connected.
  induction scripts as [|script scripts IH]; intros h h1 w w1 r Hinv.
  - simpl. unfold ret. intros ?; simplify_eq.
    split; [done|]. split; [apply evolves_refl|].
    intros _ s Hs. by apply elem_of_nil in Hs.
  - rewrite for_each_cons. unfold bind.
    destruct (ensure_step script (h, w)) as [[[]|e] [h2 w2]] eqn:E.
    + apply ensure_step_spec in E as (Hinv2 & Hev2 & Hreg2); [|done].
      intros H. apply IH in H as (Hinv1 & Hev1 & Hreg1); [|done].
      split; [done|]. split; [by eapply evolves_trans|].
      intros -> s [->|Hs]%elem_of_cons.
      * destruct Hev1 as [Hr _]. apply (Hr script). by apply Hreg2.
      * by apply Hreg1.
    + apply ensure_step_spec in E as (Hinv2 & Hev2 & _); [|done].
      intros ?; simplify_eq. done.
Qed.

(** The merge loop keeps the invariant; when it returns, the merged list is
    the accumulator followed by the caches of the scripts, in order, and the
    catalog of every script is merged. *)
Lemma merge_tools_spec scripts :
  ∀ acc (h h1 : ResearchHost) (w w1 : World) r,
  host_inv h w → merge_tools scripts acc (h, w) = (r, (h1, w1)) →
  host_inv h1 w1 ∧ evolves (h, w) (h1, w1)
  ∧ ∀ all_tools, r = Ok all_tools →
      (∀ s, s ∈ scripts → is_Some (clients_lookup s (mcp_clients h))) →
      all_tools = acc ++ flat_map (cache_of h1) scripts
      ∧ ∀ s, s ∈ scripts → merged s h1 w1.
Proof.
  induction scripts as [|script scripts IH]; intros acc h h1 w w1 r Hinv.
  - simpl. unfold ret. intros ?; simplify_eq.
    split; [done|]. split; [apply evolves_refl|].
    intros all_tools ? _; simplify_eq. rewrite app_nil_r. split; [done|].
    intros s Hs. by apply elem_of_nil in Hs.
  - simpl. unfold bind at 1, gets. simpl.
    destruct (clients_lookup script (mcp_clients h)) as [c|] eqn:Hl.
    + unfold bind.
      destruct (fetch_and_tag script c (h, w)) as [[tools|e] [h2 w2]] eqn:E.
      * apply fetch_and_tag_step in E as (Hinv2 & Hev2 & Hm2); [|done..].
        destruct (Hm2 tools eq_refl) as [Hmerged Hcache].
        intros H. apply IH in H as (Hinv1 & Hev1 & Hall); [|done].
        split; [done|]. split; [by eapply evolves_trans|].
        intros all_tools -> Hreg.
        destruct (Hall _ eq_refl) as [-> Hm1].
        { intros s Hs. destruct Hev2 as [Hr _]. apply (Hr s), Hreg.
          by apply elem_of_cons; right. }
        destruct Hev1 as (_ & Hstable & _).
        destruct (Hstable script Hmerged) as [Hmerged1 Hcache1].
        simpl in *. split.
        -- by rewrite Hcache1, Hcache, app_assoc.
        -- intros s [->|Hs]%elem_of_cons; [done|by apply Hm1].
      * apply fetch_and_tag_step in E as (Hinv2 & Hev2 & _); [|done..].
        intros ?; simplify_eq. done.
    + intros H. apply IH in H as (Hinv1 & Hev1 & Hall); [|done].
      split; [done|]. split; [done|].
      intros all_tools -> Hreg. exfalso.
      destruct (Hreg script) as [c Hc]; [by apply elem_of_cons; left|].
      congruence.
Qed.

(** Once the catalogs of the scripts are merged, the loops change nothing. *)
Lemma ensure_registered scripts (h : ResearchHost) (w : World) :
  (∀ s, s ∈ scripts → is_Some (clients_lookup s (mcp_clients h))) →
  _ensure_clients_connected scripts (h, w) = (Ok tt, (h, w)).
Proof.
  unfold _ensure_clients_connected.
  induction scripts as [|script scripts IH]; intros Hreg; [done|].
  rewrite for_each_cons. unfold bind, ensure_step at 1, bind, gets. simpl.
  destruct (Hreg script) as [c ->]; [by apply elem_of_cons; left|].
  unfold ret. apply IH. intros s Hs. apply Hreg. by apply elem_of_cons; right.
Qed.

Lemma merge_tools_merged scripts : ∀ acc (h : ResearchHost) (w : World),
  (∀ s, s ∈ scripts → merged s h w) →
  merge_tools scripts acc (h, w)
  = (Ok (acc ++ flat_map (cache_of h) scripts), (h, w)).
Proof.
  induction scripts as [|script scripts IH]; intros acc h w Hm.
  - simpl. unfold ret. by rewrite app_nil_r.
  - simpl. unfold bind at 1, gets. simpl.
    destruct (Hm script) as (c & ls & Hl & Hconn & Hc & Ht);
      [by apply elem_of_cons; left|].
    rewrite Hl. unfold bind. rewrite fetch_and_tag_unfold.
    rewrite get_tools_cached with (ls := ls) by done.
    rewrite clients_update_id, host_eta by done.
    rewrite tag_all_tagged_id by done.
    rewrite IH.
    + unfold cache_of at 2. rewrite Hl. unfold cache_locs. rewrite Hc.
      simpl. by rewrite app_assoc.
    + intros s Hs. apply Hm. by apply elem_of_cons; right.
Qed.

Lemma get_tools_from_clients_spec scripts
    (h h1 : ResearchHost) (w w1 : World) r :
  host_inv h w → _get_tools_from_clients scripts (h, w) = (r, (h1, w1)) →
  host_inv h1 w1 ∧ evolves (h, w) (h1, w1)
  ∧ ∀ all_tools, r = Ok all_tools →
      all_tools = flat_map (cache_of h1) scripts
      ∧ ∀ s, s ∈ scripts → merged s h1 w1.
Proof.
  intros Hinv. unfold _get_tools_from_clients, bind.
  destruct (_ensure_clients_connected scripts (h, w))
    as [[[]|e] [h2 w2]] eqn:E.
  - apply ensure_spec in E as (Hinv2 & Hev2 & Hreg); [|done].
    intros H. apply merge_tools_spec in H as (Hinv1 & Hev1 & Hall); [|done].
    split; [done|]. split; [by eapply evolves_trans|].
    intros all_tools ->. by apply Hall; [|apply Hreg].
  - apply ensure_spec in E as (Hinv2 & Hev2 & _); [|done].
    intros ?; simplify_eq. done.
Qed.

Lemma get_tools_from_clients_merged scripts (h : ResearchHost) (w : World) :
  (∀ s, s ∈ scripts → merged s h w) →
  _get_tools_from_clients scripts (h, w)
  = (Ok (flat_map (cache_of h) scripts), (h, w)).
Proof.
  intros Hm. unfold _get_tools_from_clients, bind.
  rewrite ensure_registered.
  - by rewrite merge_tools_merged.
  - intros s (c & _ & -> & _)%Hm. eauto.
Qed.

(** *** The invariant holds in every reachable state *)

Lemma clients_lookup_elem script c (cs : list (string * MCPClient)) :
  NoDup (cs.*1) → (script, c) ∈ cs → clients_lookup script cs = Some c.
Proof.
  induction cs as [|[k c0] cs IH]; simpl.
  - intros _ Hin. by apply elem_of_nil in Hin.
  - intros [Hk Hnd]%NoDup_cons [Heq|Hin]%elem_of_cons.
    + simplify_eq. by rewrite decide_True.
    + rewrite decide_False; [by apply IH|].
      intros ->. apply Hk. apply list_elem_of_fmap. by exists (script, c).
Qed.

(** One round of the teardown loop, on a client that is in the registry,
    keeps the invariant and touches no other entry. *)
Lemma cleanup_step_inv script c (h h1 : ResearchHost) (w w1 : World) r :
  host_inv h w → clients_lookup script (mcp_clients h) = Some c →
  cleanup_step (script, c) (h, w) = (r, (h1, w1)) →
  host_inv h1 w1
  ∧ (mcp_clients h1).*1 = (mcp_clients h).*1
  ∧ ∀ s, s ≠ script →
      clients_lookup s (mcp_clients h1) = clients_lookup s (mcp_clients h).
Proof.
  intros [Hkeys Hscr Hnd Hdescr] Hl.
  destruct (clients_lookup_Some _ _ _ Hl) as (pre & post & Hcs & Hpre & Hupd).
  unfold cleanup_step, try_except, on_registered, disconnect. simpl.
  destruct (_cleanup (c, w)) as [r0 [c' w']] eqn:Hc. rewrite Hupd.
  pose proof (cleanup_frame _ _ _ _ _ Hc) as (Hscript & Hheap & _).
  pose proof (cleanup_cache _ _ _ _ _ Hc) as Hcache.
  intros H.
  assert (h1 = {| mcp_clients := pre ++ (script, c') :: post |} ∧ w1 = w')
    as [-> ->].
  { destruct r0 as [[]|e]; [by simplify_eq|].
    destruct (isinstance_Exception e); unfold ret in H; by simplify_eq. }
  clear H. simpl. rewrite Hcs in *.
  rewrite Forall_app, Forall_cons in Hscr. destruct Hscr as (Hs1 & Hs2 & Hs3).
  rewrite owned_app, owned_cons in Hnd, Hdescr.
  split; [|split].
  - split; simpl.
    + by rewrite fmap_app, fmap_cons in *.
    + rewrite Forall_app, Forall_cons. simpl in *.
      split; [done|]. split; [congruence|done].
    + rewrite owned_app, owned_cons.
      destruct Hcache as [Hn|He].
      * unfold cache_locs at 1. rewrite Hn. simpl.
        apply NoDup_app in Hnd as (Hn1 & Hn2 & Hn3).
        apply NoDup_app in Hn3 as (_ & _ & Hn3).
        apply NoDup_app. split; [done|]. split; [|done].
        intros l Hin1 Hin2. eapply Hn2; [done|]. set_solver.
      * unfold cache_locs at 1. rewrite He. done.
    + rewrite owned_app, owned_cons, Hheap.
      destruct Hcache as [Hn|He].
      * unfold cache_locs at 1. rewrite Hn. simpl.
        rewrite !Forall_app in *. naive_solver.
      * unfold cache_locs at 1. rewrite He. done.
  - by rewrite !fmap_app, !fmap_cons.
  - intros s Hne. by apply clients_lookup_middle_ne.
Qed.

Lemma cleanup_loop_inv items : ∀ (h h1 : ResearchHost) (w w1 : World) r,
  host_inv h w → NoDup (items.*1) →
  (∀ s c, (s, c) ∈ items → clients_lookup s (mcp_clients h) = Some c) →
  for_each items cleanup_step (h, w) = (r, (h1, w1)) →
  host_inv h1 w1.
Proof.
  induction items as [|[script c] items IH]; intros h h1 w w1 r Hinv Hnd Hin.
  - simpl. unfold ret. by intros ?; simplify_eq.
  - rewrite for_each_cons. unfold bind.
    destruct (cleanup_step (script, c) (h, w)) as [r0 [h2 w2]] eqn:E.
    apply cleanup_step_inv in E as (Hinv2 & Hkeys2 & Hother);
      [|done|apply Hin, list_elem_of_here].
    simpl in Hnd. apply NoDup_cons in Hnd as [Hk Hnd].
    destruct r0 as [[]|e]; [|by intros ?; simplify_eq].
    apply IH; [done..|].
    intros s c0 Hin0. rewrite Hother.
    + by apply Hin, list_elem_of_further.
    + intros ->. apply Hk. apply list_elem_of_fmap. by exists (script, c0).
Qed.

Lemma cleanup_inv (h h1 : ResearchHost) (w w1 : World) r :
  host_inv h w → cleanup (h, w) = (r, (h1, w1)) → host_inv h1 w1.
Proof.
  intros Hinv. unfold cleanup, bind, gets, modify. simpl.
  destruct (for_each (mcp_clients h) cleanup_step (h, w))
    as [[[]|e] [h2 w2]] eqn:E; intros ?; simplify_eq.
  - split; simpl; constructor.
  - eapply cleanup_loop_inv; [done| |  |done].
    + by destruct Hinv.
    + intros s c Hin. apply clients_lookup_elem; [|done]. by destruct Hinv.
Qed.

Lemma host_inv_alloc (h : ResearchHost) (w : World) env log news :
  host_inv h w →
  host_inv h {| w_env := env; w_log := log; w_heap := w_heap w ++ news |}.
Proof.
  intros [Hkeys Hscr Hnd Hdescr]. split; simpl; try done.
  eapply Forall_impl; [done|]. intros l. apply is_descriptor_app.
Qed.

Lemma reachable_inv (s : hstate) : reachable s → host_inv s.1 s.2.
Proof.
  induction 1 as [w|scripts [h w] r [h1 w1] _ IH Hm
                  |[h w] r [h1 w1] _ IH Hc|h w env log news _ IH]; simpl in *.
  - apply host_inv_init.
  - by apply get_tools_from_clients_spec in Hm as [? _].
  - by eapply cleanup_inv.
  - by apply host_inv_alloc.
Qed.

(** *** Resolving a name *)

Lemma find_tool_server_app heap xs ys name :
  find_tool_server heap (xs ++ ys) name
  = if exports heap xs name then find_tool_server heap xs name
    else find_tool_server heap ys name.
Proof.
  induction xs as [|x xs IH]; simpl; [done|].
  by destruct (name_matches heap x name).
Qed.

Lemma find_tool_server_tagged heap ls name script :
  Forall (tagged heap script) ls → exports heap ls name = true →
  find_tool_server heap ls name = Some (PStr script).
Proof.
  induction ls as [|l ls IH]; simpl; [done|].
  intros [Hl Hls]%Forall_cons.
  destruct (name_matches heap l name); [done|]. by apply IH.
Qed.

Lemma find_tool_server_none heap ls name :
  exports heap ls name = false → find_tool_server heap ls name = None.
Proof.
  induction ls as [|l ls IH]; simpl; [done|].
  by destruct (name_matches heap l name).
Qed.

Lemma exports_flat_map heap (f : string → list loc) ss name :
  Forall (λ s, exports heap (f s) name = false) ss →
  exports heap (flat_map f ss) name = false.
Proof.
  induction ss as [|s ss IH]; simpl; [done|].
  intros [Hs Hss]%Forall_cons. unfold exports in *.
  rewrite existsb_app, Hs. by apply IH.
Qed.

(** ** The claims about the host *)

(** C8 (as amended).  When the releases of every registered client return or
    raise something the client's teardown swallows, [cleanup] disconnects
    every client of the registry, in registry order, each with its session
    release before its stdio release and whatever the earlier releases did;
    it returns without raising and leaves the registry empty.  An exception
    of another class raised by the session release of the first client is
    raised by [cleanup]: no other client is disconnected and the registry
    keeps its entries. *)
Theorem cleanup_disconnects_every_client (h : ResearchHost) (w : World) :
  (registry_releases_swallowed (mcp_clients h) (w_env w) = true →
   cleanup (h, w)
   = (Ok tt,
      (ResearchHost_init,
       after_calls w (registry_release_env (mcp_clients h) (w_env w))
         (registry_release_calls (mcp_clients h)))))
  ∧ (∀ script c rest sc e env',
       mcp_clients h = (script, c) :: rest →
       _session_context c = Some sc →
       session_aexit sc (w_env w) = (Raise e, env') →
       isinstance_cleanup_tuple e = false →
       cleanup (h, w)
       = (Raise e,
          ({| mcp_clients :=
                (script, set_session None (set_session_context None c))
                :: rest |},
           after_calls w env' [(server_script c, CallSessionExit)]))).
Proof.
  split.
  - intros Hsw. unfold cleanup, bind, gets, modify. simpl.
    by destruct (cleanup_loop_swallowed _ h w Hsw) as [h' ->].
  - intros script c rest sc e env' Hcs Hsc Hr He.
    assert (isinstance_Exception e = false) as He'.
    { unfold isinstance_cleanup_tuple, isinstance_Exception in *.
      by destruct (exn_cls e). }
    unfold cleanup, bind, gets. simpl. rewrite Hcs. rewrite for_each_cons.
    unfold bind, cleanup_step, try_except, on_registered, disconnect. simpl.
    unfold _cleanup. mstep. rewrite Hsc. simpl. rewrite Hr. simpl.
    rewrite He. simpl. rewrite He', Hcs. simpl. by rewrite decide_True.
Qed.

(** C9.  When the merge returns, the merged list is the concatenation of the
    caches of the requested scripts in the order of the request.  Every
    dictionary in it carries the key [_server] with the script of the one
    client whose cache holds it, and every tool offered to the model is the
    conversion of such a dictionary, position by position.  Resolving a name
    gives the script of the first requested endpoint whose catalog has a
    tool of that name, whatever later endpoints export, and nothing when no
    endpoint has one. *)
Theorem merged_catalog_resolves_first_match scripts
    (h h1 : ResearchHost) (w w1 : World) all_tools :
  host_inv h w →
  _get_tools_from_clients scripts (h, w) = (Ok all_tools, (h1, w1)) →
  all_tools = flat_map (cache_of h1) scripts
  ∧ (∀ s l, s ∈ scripts → l ∈ cache_of h1 s →
       tagged (w_heap w1) s l
       ∧ (∃ c, clients_lookup s (mcp_clients h1) = Some c
               ∧ server_script c = s)
       ∧ ∀ s', s' ∈ scripts → l ∈ cache_of h1 s' → s' = s)
  ∧ Forall2 (λ l t, ∃ d s, w_heap w1 !! l = Some d
                        ∧ t = _convert_mcp_tool_to_openai d
                        ∧ d !! "_server" = Some (PStr s) ∧ s ∈ scripts)
      all_tools (openai_tools (w_heap w1) all_tools)
  ∧ (∀ name pre s post, scripts = pre ++ s :: post →
       Forall (λ s', exports (w_heap w1) (cache_of h1 s') name = false) pre →
       exports (w_heap w1) (cache_of h1 s) name = true →
       find_tool_server (w_heap w1) all_tools name = Some (PStr s))
  ∧ (∀ name,
       Forall (λ s', exports (w_heap w1) (cache_of h1 s') name = false)
         scripts →
       find_tool_server (w_heap w1) all_tools name = None).
Proof.
  intros Hinv H.
  apply get_tools_from_clients_spec in H as (Hinv1 & _ & Hall); [|done].
  destruct (Hall _ eq_refl) as [-> Hm].
  assert (∀ s, s ∈ scripts →
            Forall (tagged (w_heap w1) s) (cache_of h1 s)) as Htag.
  { intros s (c & ls & Hl & _ & Hc & Ht)%Hm.
    unfold cache_of, cache_locs. by rewrite Hl, Hc. }
  split; [done|]. split; [|split; [|split]].
  - intros s l Hs Hin. pose proof (Htag s Hs) as Ht.
    rewrite Forall_forall in Ht. split; [by apply Ht|]. split.
    + destruct (Hm s Hs) as (c & ls & Hl & _). exists c. split; [done|].
      destruct Hinv1 as [_ Hscr _ _]. rewrite Forall_forall in Hscr.
      apply clients_lookup_Some in Hl as (pre & post & Hcs & _).
      apply (Hscr (s, c)). rewrite Hcs. set_solver.
    + intros s' Hs' Hin'.
      destruct (Hm s Hs) as (c & ls & Hl & _ & Hc & _).
      destruct (Hm s' Hs') as (c' & ls' & Hl' & _ & Hc' & _).
      unfold cache_of in Hin, Hin'. rewrite Hl in Hin. rewrite Hl' in Hin'.
      destruct Hinv1 as [_ _ Hnd _].
      by eapply (owned_unique _ s' s c' c l).
  - unfold openai_tools. apply Forall2_fmap_r, Forall_Forall2_diag.
    rewrite Forall_forall. intros l Hin.
    apply list_elem_of_In, in_flat_map in Hin as (s & Hs & Hin).
    apply list_elem_of_In in Hs, Hin.
    pose proof (Htag s Hs) as Ht. rewrite Forall_forall in Ht.
    specialize (Ht l Hin). unfold tagged, tool_get in Ht.
    destruct (w_heap w1 !! l) as [d|] eqn:Hd; [|done]. simpl in *.
    exists d, s. by rewrite Hd.
  - intros name pre s post -> Hpre Hexp.
    rewrite flat_map_app, find_tool_server_app.
    rewrite exports_flat_map by done. simpl.
    rewrite find_tool_server_app, Hexp.
    apply find_tool_server_tagged; [|done].
    apply Htag. set_solver.
  - intros name Hnone. apply find_tool_server_none.
    by apply exports_flat_map.
Qed.

(** C10.  The merged list is made of the addresses the caches hold, and the
    merge writes the key [_server] into the dictionaries at those addresses:
    when it returns, every cached descriptor of a requested script carries
    its script there, and is otherwise the descriptor [get_tools] built.  No
    other key of a dictionary that existed before is changed.  Repeating the
    merge returns the same list and changes neither the registry nor the
    store.  Whatever is merged later, the caches stay, the tags stay, and
    the other keys stay. *)
Theorem merge_tags_cached_descriptors_in_place scripts
    (h h1 : ResearchHost) (w w1 : World) all_tools :
  host_inv h w →
  _get_tools_from_clients scripts (h, w) = (Ok all_tools, (h1, w1)) →
  all_tools = flat_map (cache_of h1) scripts
  ∧ (∀ s l, s ∈ scripts → l ∈ cache_of h1 s →
       tagged (w_heap w1) s l ∧ is_descriptor (w_heap w1) l)
  ∧ (∀ l key, key ≠ "_server" → l < length (w_heap w) →
       tool_get (w_heap w1) l key = tool_get (w_heap w) l key)
  ∧ (∀ n, repeat_call n (_get_tools_from_clients scripts) (h1, w1)
          = (Ok (replicate n all_tools), (h1, w1)))
  ∧ (∀ scripts' r h2 w2,
       _get_tools_from_clients scripts' (h1, w1) = (r, (h2, w2)) →
       ∀ s l, s ∈ scripts → l ∈ cache_of h1 s →
         cache_of h2 s = cache_of h1 s ∧ tagged (w_heap w2) s l
         ∧ ∀ key, key ≠ "_server" →
             tool_get (w_heap w2) l key = tool_get (w_heap w1) l key).
Proof.
  intros Hinv H.
  apply get_tools_from_clients_spec in H as (Hinv1 & Hev & Hall); [|done].
  destruct (Hall _ eq_refl) as [-> Hm].
  split; [done|]. split; [|split; [|split]].
  - intros s l Hs Hin.
    destruct (Hm s Hs) as (c & ls & Hl & _ & Hc & Ht).
    unfold cache_of, cache_locs in Hin. rewrite Hl, Hc in Hin. simpl in Hin.
    rewrite Forall_forall in Ht. split; [by apply Ht|].
    destruct Hinv1 as [_ _ _ Hd]. rewrite Forall_forall in Hd. apply Hd.
    eapply cache_in_owned; [done|]. unfold cache_locs. by rewrite Hc.
  - by destruct Hev as (_ & _ & Hk & _).
  - intros n. apply repeat_call_fixed.
    by apply get_tools_from_clients_merged.
  - intros scripts' r h2 w2 H s l Hs Hin.
    apply get_tools_from_clients_spec in H as (_ & Hev2 & _); [|done].
    destruct Hev2 as (_ & Hstable & Hk & _).
    destruct (Hstable s (Hm s Hs)) as [Hm2 Hcache]. simpl in *.
    split; [done|].
    destruct (Hm2) as (c & ls & Hl & _ & Hc & Ht).
    assert (l ∈ ls) as Hin2.
    { rewrite <- Hcache in Hin. unfold cache_of, cache_locs in Hin.
      by rewrite Hl, Hc in Hin. }
    rewrite Forall_forall in Ht. split; [by apply Ht|].
    intros key Hkey. apply Hk; [done|].
    destruct (Hm s Hs) as (c1 & ls1 & Hl1 & _ & Hc1 & Ht1).
    unfold cache_of, cache_locs in Hin. rewrite Hl1, Hc1 in Hin.
    rewrite Forall_forall in Ht1.
    by apply lookup_lt_is_Some, (tagged_is_Some _ s), Ht1.
Qed.

End HostFacts.

(** * More of the code: the client *)

Section ClientCoverage.
Context `{sdk : SDK}.

Ltac mstep :=
  unfold self_get, self_set, sdk_do, alloc in *;
  unfold bind, ret, raise, gets, modify, try_except in *; simpl in *.

Ltac mcases :=
  repeat (simpl in *;
    match goal with
    | |- context [match ?x with _ => _ end] =>
        lazymatch x with
        | context [match _ with _ => _ end] => fail
        | _ => destruct x eqn:?
        end
    end); simpl in *.

(** A teardown that returns leaves nothing to release. *)
Lemma cleanup_ok_inv (c c' : MCPClient) (w w' : World) :
  _cleanup (c, w) = (Ok tt, (c', w')) →
  c' = torn_down c.
Proof.
  unfold _cleanup, torn_down.
  destruct c as [script sess stdio sctx cache init], w as [env log heap].
  mstep. mcases; intros; simplify_eq; done.
Qed.

Lemma torn_down_noop (c : MCPClient) (w : World) :
  _cleanup (torn_down c, w) = (Ok tt, (torn_down c, w)).
Proof. by rewrite cleanup_noop. Qed.

(** X1.  Calling [disconnect] twice in a row is calling it once: a second
    call right after a first one that returned makes no SDK call and changes
    nothing, whatever state the client was in before the first. *)
Theorem disconnect_twice_is_disconnect_once (c : MCPClient) (w : World) :
  (disconnect;;; disconnect) (c, w) = disconnect (c, w).
Proof.
  unfold disconnect, bind.
  destruct (_cleanup (c, w)) as [[[]|e] [c' w']] eqn:H; [|done].
  apply cleanup_ok_inv in H as ->. apply torn_down_noop.
Qed.

(** *** The steps of [connect] *)

(** The [try] block of [connect] makes its SDK calls in a fixed order and
    stops at the first that raises; the handles the client holds then are
    those of the contexts created so far. *)
Lemma connect_body_steps (c c1 : MCPClient) (w w1 : World) (r : res unit) :
  _session c = None → _session_context c = None → _stdio_context c = None →
  connect_body (c, w) = (r, (c1, w1)) →
  ∃ k, 1 ≤ k ≤ 5
    ∧ w_log w1 = w_log w ++ take k (connect_calls (server_script c))
    ∧ release_calls c1 = releases_after k (server_script c)
    ∧ match r with
      | Ok _ => k = 5 ∧ connected c1 = true
      | Raise _ => True
      end.
Proof.
  unfold connect_body, release_calls, releases_after, connect_calls, connected.
  destruct c as [script sess stdio sctx cache init], w as [env log heap].
  simpl. intros -> -> ->.
  mstep. mcases; intros; simplify_eq; simpl;
    repeat rewrite <- app_assoc; simpl;
    first [ by exists 1; repeat split; try lia
          | by exists 2; repeat split; try lia
          | by exists 3; repeat split; try lia
          | by exists 4; repeat split; try lia
          | by exists 5; repeat split; try lia ].
Qed.

(** The release calls of a teardown are made in order, up to the first
    release that raises something the teardown does not swallow. *)
Lemma cleanup_log (c c' : MCPClient) (w w' : World) (r : res unit) :
  _cleanup (c, w) = (r, (c', w')) →
  ∃ rel, w_log w' = w_log w ++ rel ∧ rel `prefix_of` release_calls c
    ∧ match r with
      | Ok _ => rel = release_calls c ∧ c' = torn_down c
      | Raise e => isinstance_cleanup_tuple e = false
      end.
Proof.
  unfold _cleanup, release_calls, torn_down.
  destruct c as [script sess stdio sctx cache init], w as [env log heap].
  mstep. mcases; intros; simplify_eq; simpl;
    repeat rewrite <- app_assoc; simpl;
    first [ by exists []; rewrite ?app_nil_r; repeat split;
               try apply prefix_nil
          | by eexists [_]; repeat split;
               try (by apply prefix_cons, prefix_nil)
          | by eexists [_; _]; repeat split ].
Qed.

Lemma isinstance_Exception_cleanup_tuple (e : exn) :
  isinstance_Exception e = true → isinstance_cleanup_tuple e = true.
Proof. destruct e as [[] ?]; done. Qed.

(** X2.  [connect] on a client that holds no handle makes the five SDK
    calls in the order [stdio_client], stdio [__aenter__], [ClientSession],
    session [__aenter__], [initialize], and stops at the first one that
    raises.  When all five return the client passes the guard and its cache
    is untouched.  When the [k]-th raises, the only calls that follow are
    release calls of the contexts created so far (the stdio context from the
    second call on, the session context from the fourth), session release
    first; when [connect] raises an instance of [Exception] all of them were
    made and the client is what a new client is. *)
Theorem connect_steps_in_order (c c' : MCPClient) (w w' : World)
    (r : res unit) :
  _session c = None → _session_context c = None → _stdio_context c = None →
  connect (c, w) = (r, (c', w')) →
  ∃ k rel, 1 ≤ k ≤ 5
    ∧ w_log w' = w_log w ++ take k (connect_calls (server_script c)) ++ rel
    ∧ match r with
      | Ok _ => k = 5 ∧ rel = [] ∧ connected c' = true
                ∧ _tools_cache c' = _tools_cache c
      | Raise e =>
          rel `prefix_of` releases_after k (server_script c)
          ∧ (isinstance_Exception e = true →
             rel = releases_after k (server_script c)
             ∧ c' = MCPClient_init (server_script c))
      end.
Proof.
  intros Hs Hsc Hst. unfold connect. unfold bind at 1, self_get, gets. simpl.
  rewrite Hs. unfold try_except.
  destruct (connect_body (c, w)) as [[[]|e0] [c1 w1]] eqn:Hb.
  - intros ?; simplify_eq.
    pose proof Hb as (_ & Hcache & _)%connect_body_inv.
    apply connect_body_steps in Hb as (k & Hk & Hlog & _ & -> & Hconn);
      [|done..].
    exists 5, []. rewrite app_nil_r. done.
  - pose proof Hb as (Hscr & _ & _ & _ & Hsess)%connect_body_inv.
    apply connect_body_steps in Hb as (k & Hk & Hlog & Hrel & _); [|done..].
    destruct (isinstance_Exception e0) eqn:He0.
    + unfold bind, raise.
      destruct (_cleanup (c1, w1)) as [[[]|e1] [c2 w2]] eqn:Hcl;
        intros ?; simplify_eq;
        apply cleanup_log in Hcl as (rel & Hlog' & Hpre & Hr).
      * destruct Hr as [-> ->]. exists k, (release_calls c1).
        rewrite Hlog', Hlog, <- app_assoc, Hrel.
        split; [done|]. split; [done|]. split; [done|].
        intros _. split; [done|].
        unfold torn_down, MCPClient_init. rewrite Hscr. f_equal.
        destruct (_session_context c1); [done|]. by rewrite Hsess, Hs.
      * exists k, rel. rewrite Hlog', Hlog, <- app_assoc, <- Hrel.
        split; [done|]. split; [done|]. split; [done|].
        intros He1%isinstance_Exception_cleanup_tuple. congruence.
    + intros ?; simplify_eq. exists k, []. rewrite app_nil_r.
      split; [done|]. split; [done|]. split; [apply prefix_nil|].
      congruence.
Qed.

(** *** What [get_tools] and [call_tool] leave alone *)

Lemma set_tools_cache_same (c : MCPClient) :
  set_tools_cache (_tools_cache c) c = c.
Proof. by destruct c. Qed.

Lemma get_tools_client (c c' : MCPClient) (w w' : World)
    (r : res (list loc)) :
  get_tools (c, w) = (r, (c', w')) →
  c' = set_tools_cache (_tools_cache c') c.
Proof.
  intros H.
  destruct (get_tools_cases c w) as
    [[_ E]|[(_ & ls & _ & E)|[(_ & _ & sess & r0 & env' & _ & _ & E)
     |(_ & _ & sess & e & env' & _ & _ & E)]]];
    rewrite E in H; injection H as _ <- _; simpl;
    by rewrite ?set_tools_cache_same.
Qed.

Lemma call_tool_client (name : string) (arguments : option mapping)
    (c c' : MCPClient) (w w' : World) (r : res result_dict) :
  call_tool name arguments (c, w) = (r, (c', w')) →
  c' = c ∧ w_heap w' = w_heap w.
Proof.
  intros H. destruct (connected c) eqn:Hconn.
  - apply connected_iff in Hconn as [Hi [sess Hs]].
    destruct (session_call_tool sess name (default [] arguments) (w_env w))
      as [[res|e] env'] eqn:Hl.
    + rewrite (call_tool_answered c w sess name arguments res env') in H
        by done.
      by simplify_eq.
    + rewrite (call_tool_raise c w sess name arguments e env') in H by done.
      by simplify_eq.
  - unfold call_tool in H. unfold bind at 1 in H.
    rewrite require_connected_fail in H by done. by simplify_eq.
Qed.

(** X3.  However it ends, [get_tools] changes nothing of the client but the
    cache, never writes to a dictionary that exists (the store only grows),
    and makes at most one SDK call, a [list_tools] of this client.  A cache
    that is set is never replaced: the call then changes nothing at all.  A
    call that finds the cache unset either leaves it unset and the store as
    it was, and then it raises (the guard or the remote call failed), or has
    asked the remote and leaves in the cache exactly the dictionaries it
    added to the store, whether it returns them or raises because a tool
    could not be converted. *)
Theorem get_tools_changes_only_the_cache (c c' : MCPClient) (w w' : World)
    (r : res (list loc)) :
  get_tools (c, w) = (r, (c', w')) →
  c' = set_tools_cache (_tools_cache c') c
  ∧ w_heap w `prefix_of` w_heap w'
  ∧ (w_log w' = w_log w
     ∨ w_log w' = w_log w ++ [(server_script c, CallListTools)])
  ∧ (is_Some (_tools_cache c) → c' = c ∧ w' = w)
  ∧ (_tools_cache c = None →
     (c' = c ∧ w_heap w' = w_heap w ∧ ∃ e, r = Raise e)
     ∨ (∃ n, _tools_cache c' = Some (fresh_locs w n)
             ∧ length (w_heap w') = length (w_heap w) + n
             ∧ w_log w' = w_log w ++ [(server_script c, CallListTools)]))
  ∧ (∀ tools, r = Ok tools → _tools_cache c' = Some tools).
Proof.
  intros H.
  destruct (get_tools_cases c w) as
    [[_ E]|[(_ & ls & Hc & E)|[(_ & Hc & sess & r0 & env' & _ & _ & E)
     |(_ & Hc & sess & e & env' & _ & _ & E)]]];
    rewrite E in H; injection H as <- <- <-; simpl.
  - rewrite set_tools_cache_same. split; [done|]. split; [done|].
    split; [by left|]. split; [done|]. split; [|done].
    intros _. left. eauto.
  - rewrite set_tools_cache_same. split; [done|]. split; [done|].
    split; [by left|]. split; [done|]. rewrite Hc. split; [done|].
    by intros ? [= <-].
  - split; [done|]. split; [by eexists|]. split; [by right|].
    rewrite Hc. split; [by intros [? ?]|]. split.
    + intros _. right. exists (length (built (default [] r0))).
      split; [done|]. by rewrite length_app.
    + intros tools.
      destruct ((convert_tools (default [] r0)).2); [done|by intros [= <-]].
  - rewrite set_tools_cache_same. split; [done|]. split; [done|].
    split; [by right|]. rewrite Hc. split; [by intros [? ?]|].
    split; [|done]. intros _. left. eauto.
Qed.

Lemma fetches_call_tool (log : list event) script name :
  fetches (log ++ [(script, CallCallTool name)]) = fetches log.
Proof.
  unfold fetches. rewrite filter_app, length_app.
  rewrite (filter_cons_False _ (script, CallCallTool name)) by done.
  rewrite filter_nil. simpl. apply Nat.add_0_r.
Qed.

(** X4.  However it ends, [call_tool] changes neither the client (cache
    included) nor the store; it makes exactly one SDK call, the invocation,
    when the client passes the guard, and none otherwise, so it never
    fetches the catalog.  A missing argument dictionary is sent as the
    empty dictionary. *)
Theorem call_tool_is_one_remote_call (name : string)
    (arguments : option mapping) (c c' : MCPClient) (w w' : World)
    (r : res result_dict) :
  call_tool name arguments (c, w) = (r, (c', w')) →
  c' = c ∧ w_heap w' = w_heap w
  ∧ w_log w'
    = w_log w
      ++ (if connected c then [(server_script c, CallCallTool name)] else [])
  ∧ fetches (w_log w') = fetches (w_log w)
  ∧ call_tool name None (c, w) = call_tool name (Some []) (c, w).
Proof.
  intros H. destruct (connected c) eqn:Hconn.
  - apply connected_iff in Hconn as [Hi [sess Hs]].
    destruct (session_call_tool sess name (default [] arguments) (w_env w))
      as [[res|e] env'] eqn:Hl.
    + rewrite (call_tool_answered c w sess name arguments res env') in H
        by done.
      simplify_eq. simpl. repeat split; try done.
      apply fetches_call_tool.
    + rewrite (call_tool_raise c w sess name arguments e env') in H by done.
      simplify_eq. simpl. repeat split; try done.
      apply fetches_call_tool.
  - unfold call_tool in H. unfold bind at 1 in H.
    rewrite require_connected_fail in H by done. simplify_eq.
    rewrite app_nil_r. done.
Qed.

(** *** The result of an invocation *)

Lemma image_read_raises_text (item : ContentItem) (cause : exn) text :
  item_text item = Some text → ¬ image_read_raises item cause.
Proof. intros Ht [Hn _]. congruence. Qed.

Lemma convert_item_spec (item : ContentItem) :
  match convert_item item with
  | Ok (Some part) => has_part item ∧ part_of item part
                      ∧ ∀ cause, ¬ image_read_raises item cause
  | Ok None => ¬ has_part item ∧ ∀ cause, ¬ image_read_raises item cause
  | Raise cause => image_read_raises item cause
  end.
Proof.
  destruct item as [[text|] [[[data|e1] [mime|e2]]|]];
    unfold convert_item, has_part, image_read_raises; simpl.
  all: try (split; [left; eauto|split; [done|]]; by intros cause [? _]).
  - split; [right; eauto|]. split; [eauto 6|].
    intros cause (_ & image & [= <-] & [?|[_ ?]]); done.
  - split; [done|]. eexists. split; [done|]. right. split; [eauto|done].
  - split; [done|]. eexists. split; [done|]. by left.
  - split; [done|]. eexists. split; [done|]. by left.
  - split; [by intros [[? ?]|[? ?]]|].
    by intros cause (_ & image & ? & _).
Qed.

(** The loop over the content items: the parts it builds, or the first
    item whose image cannot be read. *)
Lemma convert_items_spec (items : list ContentItem) :
  match convert_items items with
  | Ok parts =>
      Forall2 part_of (filter has_part items) parts
      ∧ texts parts = omap item_text items
      ∧ ∀ item cause, item ∈ items → ¬ image_read_raises item cause
  | Raise cause =>
      ∃ pre item post,
        items = pre ++ item :: post
        ∧ (∀ i e, i ∈ pre → ¬ image_read_raises i e)
        ∧ image_read_raises item cause
  end.
Proof.
  induction items as [|item items IH].
  { simpl. split; [constructor|]. split; [done|].
    intros item cause H. by apply elem_of_nil in H. }
  cbn [convert_items].
  pose proof (convert_item_spec item) as Hi.
  destruct (convert_item item) as [part|cause]; simpl.
  2:{ exists [], item, items. split; [done|]. split; [|done].
      intros i e H. by apply elem_of_nil in H. }
  destruct (convert_items items) as [parts|cause]; simpl.
  - destruct IH as (Hf & Ht & Hr).
    assert (∀ i e, i ∈ item :: items → ¬ image_read_raises i e) as Hall.
    { intros i e [->|Hin]%elem_of_cons; [|by apply Hr].
      destruct part; [apply Hi|apply Hi]. }
    destruct part as [part|].
    + destruct Hi as (Hh & Hp & _). rewrite filter_cons_True by done.
      split; [by constructor|]. split; [|done].
      change (texts (part :: parts) = omap item_text (item :: items)).
      unfold texts in *. cbn [omap list_omap].
      destruct part as [text|data mime]; simpl in Hp.
      * rewrite Hp. by rewrite Ht.
      * destruct Hp as [-> _]. by rewrite Ht.
    + destruct Hi as (Hh & _). rewrite filter_cons_False by done.
      split; [done|]. split; [|done].
      change (texts parts = omap item_text (item :: items)).
      cbn [omap list_omap].
      destruct (item_text item) as [text|] eqn:E; [|done].
      exfalso. apply Hh. left. eauto.
  - destruct IH as (pre & it & post & -> & Hpre & Hit).
    exists (item :: pre), it, post. split; [done|]. split; [|done].
    intros i e [->|Hin]%elem_of_cons; [|by apply Hpre].
    destruct part; apply Hi.
Qed.

(** X5.  When the remote answers an invocation, [call_tool] returns unless
    an image cannot be read: it raises exactly when some content item has no
    text and an image whose [data] or [mimeType] raises, and then with what
    the first such item raised (wrapped, when that is an [Exception]).
    When it returns, the content of the result holds one part for every
    content item that has a text or an image, in the order of the items, and
    nothing else: the text for an item that has a text (also when it has an
    image too), the data and the MIME type of the image for an item that has
    an image only; an item with neither is dropped, and an absent content
    gives the empty list.  The key [isError] is set only to [True], exactly
    when the remote set it to [True]. *)
Theorem call_tool_keeps_texts_in_order (c : MCPClient) (w : World) sess
    (name : string) (arguments : option mapping) (result : CallToolResult)
    env' :
  _initialized c = true → _session c = Some sess →
  session_call_tool sess name (default [] arguments) (w_env w)
  = (Ok result, env') →
  let items := default [] (ctr_content result) in
  ∃ r s', call_tool name arguments (c, w) = (r, s')
    ∧ ((∃ d, r = Ok d)
       ↔ ∀ item cause, item ∈ items → ¬ image_read_raises item cause)
    ∧ match r with
      | Ok d =>
          Forall2 part_of (filter has_part items) (rd_content d)
          ∧ texts (rd_content d) = omap item_text items
          ∧ rd_isError d ≠ Some false
          ∧ (rd_isError d = Some true ↔ ctr_isError result = Some true)
      | Raise e =>
          ∃ pre item post cause,
            items = pre ++ item :: post
            ∧ (∀ i e', i ∈ pre → ¬ image_read_raises i e')
            ∧ image_read_raises item cause
            ∧ e = (if isinstance_Exception cause
                   then call_tool_error name cause else cause)
      end.
Proof.
  intros Hi Hs Hl items. eexists _, _.
  split; [exact (call_tool_answered c w sess name arguments result env'
                   Hi Hs Hl)|].
  assert (match convert_items items with
          | Ok parts =>
              Forall2 part_of (filter has_part items) parts
              ∧ texts parts = omap item_text items
              ∧ ∀ item cause, item ∈ items → ¬ image_read_raises item cause
          | Raise cause =>
              ∃ pre item post,
                items = pre ++ item :: post
                ∧ (∀ i e, i ∈ pre → ¬ image_read_raises i e)
                ∧ image_read_raises item cause
          end) as Hspec by apply convert_items_spec.
  assert (match ctr_content result with
          | Some items => convert_items items
          | None => Ok []
          end = convert_items items) as Hc.
  { subst items. by destruct (ctr_content result). }
  unfold convert_result. rewrite Hc. clear Hc.
  destruct (convert_items items) as [parts|cause]; simpl.
  - destruct Hspec as (Hf & Ht & Hr). split; [split; [done|eauto]|].
    split; [done|]. split; [done|].
    destruct (ctr_isError result) as [[|]|]; done.
  - destruct Hspec as (pre & item & post & Hit & Hpre & Hraise). split.
    + split; [by intros [d ?]|]. intros Hall. exfalso.
      apply (Hall item cause); [|done]. rewrite Hit.
      apply elem_of_app. right. apply elem_of_cons. by left.
    + exists pre, item, post, cause. done.
Qed.

(** *** The cache across connections *)

(** X6.  [disconnect] drops the cache: on every client, after a
    [disconnect] and a [connect] that returned, a [get_tools] that returns
    has fetched the catalog again, and the dictionaries it returns are new
    ones, none of those that existed before. *)
Theorem reconnect_fetches_again (c c1 c2 c3 : MCPClient)
    (w w1 w2 w3 : World) (tools : list loc) :
  disconnect (c, w) = (Ok tt, (c1, w1)) →
  connect (c1, w1) = (Ok tt, (c2, w2)) →
  get_tools (c2, w2) = (Ok tools, (c3, w3)) →
  fetches (w_log w3) = fetches (w_log w2) + 1
  ∧ tools = seq (length (w_heap w)) (length tools)
  ∧ length (w_heap w3) = length (w_heap w) + length tools.
Proof.
  unfold disconnect. intros Hd Hc Hg.
  pose proof Hd as (_ & Hh1 & _)%cleanup_frame.
  apply cleanup_ok_inv in Hd as ->.
  apply connect_ok_inv in Hc as (_ & _ & Hcache & Hh2).
  unfold torn_down in Hcache. simpl in Hcache.
  destruct (get_tools_cases c2 w2) as
    [[_ E]|[(_ & ls & Hc2 & E)|[(_ & Hc2 & sess & r0 & env' & _ & _ & E)
     |(_ & _ & sess & e & env' & _ & _ & E)]]];
    rewrite E in Hg; try (by simplify_eq).
  destruct ((convert_tools (default [] r0)).2); simplify_eq.
  unfold fresh_locs. simpl. rewrite length_seq, Hh2, Hh1.
  split; [|split; [done|]].
  - unfold fetches. rewrite filter_app, length_app. done.
  - by rewrite length_app.
Qed.

(** X7.  A catalog the remote reports as absent ([None]) or empty is cached
    as the empty list, which is not the unset cache: [get_tools] returns
    the empty list, and from then on it answers with the empty list without
    any SDK call, in whatever state the world is. *)
Theorem empty_catalog_is_cached (c : MCPClient) (w : World) sess r env' :
  _initialized c = true → _session c = Some sess → _tools_cache c = None →
  session_list_tools sess (w_env w) = (Ok r, env') →
  default [] r = [] →
  get_tools (c, w)
  = (Ok [], (set_tools_cache (Some []) c,
             after_calls w env' [(server_script c, CallListTools)]))
  ∧ ∀ w1, get_tools (set_tools_cache (Some []) c, w1)
          = (Ok [], (set_tools_cache (Some []) c, w1)).
Proof.
  intros Hi Hs Hc Hl Hr. split.
  - rewrite (get_tools_fetch_ok c w sess r env' Hi Hs Hc Hl).
    rewrite Hr. simpl. unfold fresh_locs, set_heap, after_calls. simpl.
    by rewrite app_nil_r.
  - intros w1. apply get_tools_cached; [|done].
    apply connected_iff. simpl. eauto.
Qed.

(** *** The handles a client holds *)

Lemma cleanup_client_inv (c c' : MCPClient) (w w' : World) (r : res unit) :
  client_inv c → _cleanup (c, w) = (r, (c', w')) → client_inv c'.
Proof.
  unfold _cleanup, client_inv.
  destruct c as [script sess stdio sctx cache init], w as [env log heap].
  simpl. intros [H1 H2].
  mstep. mcases; intros; simplify_eq; simpl; split; intros [? ?]; eauto; done.
Qed.

Lemma connect_body_client_inv (c c' : MCPClient) (w w' : World)
    (r : res unit) :
  client_inv c → _session c = None →
  connect_body (c, w) = (r, (c', w')) → client_inv c'.
Proof.
  unfold connect_body, client_inv.
  destruct c as [script sess stdio sctx cache init], w as [env log heap].
  simpl. intros [H1 H2] ->.
  mstep. mcases; intros; simplify_eq; simpl; split; intros [? ?]; eauto; done.
Qed.

Lemma connect_client_inv (c c' : MCPClient) (w w' : World) (r : res unit) :
  client_inv c → connect (c, w) = (r, (c', w')) → client_inv c'.
Proof.
  intros Hinv. unfold connect. unfold bind at 1, self_get, gets. simpl.
  destruct (_session c) eqn:Hs.
  - unfold ret. intros ?; simplify_eq. done.
  - unfold try_except.
    destruct (connect_body (c, w)) as [[[]|e0] [c1 w1]] eqn:Hb;
      apply connect_body_client_inv in Hb; try done.
    + intros ?; simplify_eq. done.
    + destruct (isinstance_Exception e0); [|intros ?; simplify_eq; done].
      unfold bind, raise.
      destruct (_cleanup (c1, w1)) as [[[]|e1] [c2 w2]] eqn:Hcl;
        apply cleanup_client_inv in Hcl; try done;
        intros ?; simplify_eq; done.
Qed.

Lemma client_reachable_inv (s : cstate) : client_reachable s → client_inv s.1.
Proof.
  induction 1 as [script w|[c w] r [c' w'] _ IH H|[c w] r [c' w'] _ IH H
                  |[c w] r [c' w'] _ IH H|name arguments [c w] r [c' w'] _ IH H
                  |c w w' _ IH]; simpl in *.
  - split; intros [? ?]; done.
  - by eapply connect_client_inv.
  - by eapply cleanup_client_inv.
  - apply get_tools_client in H as ->. exact IH.
  - apply call_tool_client in H as (-> & _). exact IH.
  - exact IH.
Qed.

(** X8.  In every state a client can reach, whatever its methods returned
    or raised before, a session is held only together with its session
    context, and a session context only together with the stdio context: what
    is held can be released.  So a [disconnect] that returns always leaves
    exactly the client [MCPClient(server_script)] creates, on which
    [connect] starts from the first step. *)
Theorem disconnect_returns_a_new_client (c : MCPClient) (w : World) :
  client_reachable (c, w) →
  client_inv c
  ∧ ∀ c' w', disconnect (c, w) = (Ok tt, (c', w')) →
      c' = MCPClient_init (server_script c).
Proof.
  intros [H1 H2]%client_reachable_inv. simpl in *. split; [done|].
  intros c' w' ->%cleanup_ok_inv.
  unfold torn_down, MCPClient_init. f_equal.
  destruct (_session_context c) eqn:Hc; [done|].
  destruct (_session c) eqn:Hs; [|done].
  destruct H1 as [? ?]; [eauto|done].
Qed.

End ClientCoverage.

(** * More of the code: the registry *)

Section HostCoverage.
Context `{sdk : SDK}.

Ltac mstep :=
  unfold self_get, self_set, sdk_do, alloc in *;
  unfold bind, ret, raise, gets, modify, try_except in *; simpl in *.

Ltac mcases :=
  repeat (simpl in *;
    match goal with
    | |- context [match ?x with _ => _ end] =>
        lazymatch x with
        | context [match _ with _ => _ end] => fail
        | _ => destruct x eqn:?
        end
    end); simpl in *.

(** *** The SDK calls the host's methods make *)

Lemma fetches_app (log evs : list event) :
  fetches (log ++ evs) = fetches log + fetches evs.
Proof. unfold fetches. by rewrite filter_app, length_app. Qed.

Lemma fetches_lifecycle (evs : list event) :
  Forall (λ ev, is_lifecycle ev = true) evs → fetches evs = 0.
Proof.
  unfold fetches. induction 1 as [|[s call] evs H _ IH]; [done|].
  rewrite filter_cons_False; [done|].
  simpl. intros ->. done.
Qed.

Lemma tool_invocations_app (log evs : list event) :
  tool_invocations (log ++ evs) = tool_invocations log ++ tool_invocations evs.
Proof. unfold tool_invocations. by rewrite filter_app. Qed.

Lemma tool_invocations_none (evs : list event) :
  Forall (λ ev, is_tool_call ev = false) evs → tool_invocations evs = [].
Proof.
  unfold tool_invocations. induction 1 as [|ev evs H _ IH]; [done|].
  rewrite filter_cons_False; [done|]. by rewrite H.
Qed.

Lemma lifecycle_no_tool_call (evs : list event) :
  Forall (λ ev, is_lifecycle ev = true) evs →
  Forall (λ ev, is_tool_call ev = false) evs.
Proof.
  intros H. eapply Forall_impl; [exact H|]. intros [s []]; done.
Qed.

Lemma cleanup_lifecycle (c c' : MCPClient) (w w' : World) (r : res unit) :
  _cleanup (c, w) = (r, (c', w')) →
  ∃ evs, w_log w' = w_log w ++ evs ∧ Forall (λ ev, is_lifecycle ev = true) evs.
Proof.
  unfold _cleanup.
  destruct c as [script sess stdio sctx cache init], w as [env log heap].
  mstep. mcases; intros; simplify_eq; simpl;
    repeat rewrite <- app_assoc; simpl;
    first [ by exists []; rewrite ?app_nil_r
          | by eexists; split; [reflexivity|]; repeat constructor ].
Qed.

Lemma connect_body_lifecycle (c c' : MCPClient) (w w' : World)
    (r : res unit) :
  connect_body (c, w) = (r, (c', w')) →
  ∃ evs, w_log w' = w_log w ++ evs ∧ Forall (λ ev, is_lifecycle ev = true) evs.
Proof.
  unfold connect_body.
  destruct c as [script sess stdio sctx cache init], w as [env log heap].
  mstep. mcases; intros; simplify_eq; simpl;
    repeat rewrite <- app_assoc; simpl;
    by eexists; split; [reflexivity|]; repeat constructor.
Qed.

Lemma connect_lifecycle (c c' : MCPClient) (w w' : World) (r : res unit) :
  connect (c, w) = (r, (c', w')) →
  ∃ evs, w_log w' = w_log w ++ evs ∧ Forall (λ ev, is_lifecycle ev = true) evs.
Proof.
  unfold connect. unfold bind at 1, self_get, gets. simpl.
  destruct (_session c).
  { unfold ret. intros ?; simplify_eq. exists []. by rewrite app_nil_r. }
  unfold try_except.
  destruct (connect_body (c, w)) as [[[]|e0] [c1 w1]] eqn:Hb;
    apply connect_body_lifecycle in Hb as (evs & Hlog & Hevs).
  - intros ?; simplify_eq. eauto.
  - destruct (isinstance_Exception e0); [|intros ?; simplify_eq; eauto].
    unfold bind, raise.
    destruct (_cleanup (c1, w1)) as [[[]|e1] [c2 w2]] eqn:Hcl;
      apply cleanup_lifecycle in Hcl as (evs' & Hlog' & Hevs');
      intros ?; simplify_eq;
      exists (evs ++ evs'); rewrite app_assoc, <- Hlog, <- Hlog';
      (split; [done|]); by apply Forall_app.
Qed.

(** A [connect] on a new client that returns leaves a client that passes the
    guard, with no cache. *)
Lemma connect_new_ok script (c' : MCPClient) (w w' : World) :
  connect (MCPClient_init script, w) = (Ok tt, (c', w')) →
  connected c' = true ∧ _tools_cache c' = None ∧ server_script c' = script.
Proof.
  unfold connect. unfold bind at 1, self_get, gets. simpl. unfold try_except.
  destruct (connect_body (MCPClient_init script, w))
    as [[[]|e0] [c1 w1]] eqn:Hb.
  - intros ?; simplify_eq.
    apply connect_body_inv in Hb as (? & ? & _ & ? & ? & _).
    split; [by apply connected_iff|]. done.
  - destruct (isinstance_Exception e0); [|done].
    unfold bind, raise. by destruct (_cleanup (c1, w1)) as [[[]|e1] [c2 w2]].
Qed.

(** *** [_ensure_clients_connected] *)

Lemma ensure_step_log script (h h1 : ResearchHost) (w w1 : World)
    (r : res unit) :
  ensure_step script (h, w) = (r, (h1, w1)) →
  w_heap w1 = w_heap w
  ∧ (∃ evs, w_log w1 = w_log w ++ evs
            ∧ Forall (λ ev, is_lifecycle ev = true) evs)
  ∧ match r with
    | Ok _ =>
        ((script ∈ (mcp_clients h).*1) ∧ h1 = h ∧ w1 = w)
        ∨ ((script ∉ (mcp_clients h).*1)
           ∧ ∃ c, mcp_clients h1 = mcp_clients h ++ [(script, c)]
                  ∧ just_connected (script, c))
    | Raise _ => h1 = h ∧ (script ∉ (mcp_clients h).*1)
    end.
Proof.
  unfold ensure_step. unfold bind at 1, gets. simpl.
  destruct (clients_lookup script (mcp_clients h)) as [c0|] eqn:Hl.
  - unfold ret. intros [= <- <- <-]. split; [done|].
    split; [exists []; by rewrite app_nil_r|]. left. split; [|done].
    destruct (decide (script ∈ (mcp_clients h).*1)) as [|Hn]; [done|].
    apply clients_lookup_None in Hn. congruence.
  - apply clients_lookup_None in Hl.
    unfold bind, on_client, modify. simpl.
    destruct (connect (MCPClient_init script, w)) as [[[]|e] [c' w']] eqn:Hc;
      intros ?; simplify_eq.
    + pose proof Hc as (_ & _ & _ & Hh)%connect_ok_inv.
      pose proof Hc as Hlog%connect_lifecycle.
      apply connect_new_ok in Hc. split; [done|]. split; [done|].
      right. split; [done|]. by exists c'.
    + pose proof Hc as (_ & Hh & _)%connect_raise_inv.
      apply connect_lifecycle in Hc. done.
Qed.

Lemma first_seen_cons keys s scripts :
  first_seen keys (s :: scripts)
  = first_seen (if decide (s ∈ keys) then keys else keys ++ [s]) scripts.
Proof. done. Qed.

Lemma first_seen_snoc keys pre s :
  first_seen keys (pre ++ [s])
  = (if decide (s ∈ first_seen keys pre) then first_seen keys pre
     else first_seen keys pre ++ [s]).
Proof. unfold first_seen. by rewrite foldl_app. Qed.

Lemma first_seen_registered keys scripts :
  (∀ s, s ∈ scripts → s ∈ keys) → first_seen keys scripts = keys.
Proof.
  induction scripts as [|s scripts IH]; intros H; [done|].
  rewrite first_seen_cons, decide_True by (apply H; left).
  apply IH. intros s' ?. apply H. by right.
Qed.

(** The loop of [_ensure_clients_connected], however it ends. *)
Lemma ensure_loop_log scripts : ∀ (h h1 : ResearchHost) (w w1 : World) r,
  _ensure_clients_connected scripts (h, w) = (r, (h1, w1)) →
  w_heap w1 = w_heap w
  ∧ (∃ evs, w_log w1 = w_log w ++ evs
            ∧ Forall (λ ev, is_lifecycle ev = true) evs)
  ∧ (∃ news, mcp_clients h1 = mcp_clients h ++ news
             ∧ Forall just_connected news)
  ∧ match r with
    | Ok _ => (mcp_clients h1).*1 = first_seen ((mcp_clients h).*1) scripts
    | Raise _ =>
        ∃ pre s post, scripts = pre ++ s :: post
          ∧ (mcp_clients h1).*1 = first_seen ((mcp_clients h).*1) pre
          ∧ (s ∉ (mcp_clients h1).*1)
    end.
Proof.
  unfold _ensure_clients_connected.
  induction scripts as [|s scripts IH]; intros h h1 w w1 r.
  - simpl. unfold ret. intros ?; simplify_eq. split; [done|].
    split; [exists []; by rewrite app_nil_r|].
    split; [exists []; by rewrite app_nil_r|]. done.
  - rewrite for_each_cons. unfold bind.
    destruct (ensure_step s (h, w)) as [[[]|e] [h2 w2]] eqn:Hstep;
      apply ensure_step_log in Hstep as (Hh & (evs & Hlog & Hevs) & Hr).
    + intros H. apply IH in H as (Hh' & (evs' & Hlog' & Hevs') & Hnews & Hr').
      split; [congruence|]. split.
      { exists (evs ++ evs'). rewrite app_assoc, <- Hlog. split; [done|].
        by apply Forall_app. }
      destruct Hnews as (news & Hnews & Hjc).
      destruct Hr as [(Hin & -> & ->)|(Hnin & c & Hc & Hjc1)].
      * split; [by exists news|]. rewrite first_seen_cons.
        rewrite decide_True by done. destruct r as [[]|e'].
        -- done.
        -- destruct Hr' as (pre & s' & post & -> & Hk & Hs').
           exists (s :: pre), s', post. split; [done|].
           rewrite first_seen_cons, decide_True by done. done.
      * split.
        { exists ((s, c) :: news). rewrite Hnews, Hc, <- app_assoc.
          split; [done|]. by constructor. }
        rewrite first_seen_cons, decide_False by done.
        rewrite Hc, fmap_app in Hr'. simpl in Hr'. destruct r as [[]|e'].
        -- done.
        -- destruct Hr' as (pre & s' & post & -> & Hk & Hs').
           exists (s :: pre), s', post. split; [done|].
           rewrite first_seen_cons, decide_False by done. done.
    + intros ?; simplify_eq. destruct Hr as [-> Hnin].
      split; [done|]. split; [by exists evs|].
      split; [exists []; by rewrite app_nil_r|].
      exists [], s, scripts. done.
Qed.

(** X9.  [_ensure_clients_connected], however it ends, leaves every client
    that was registered where and as it was, appends the clients it
    connects, each passing the guard and without cache, never fetches a
    catalog and never touches the store.  When it returns, the registry
    holds one client for each requested script, in the order in which the
    scripts were first seen; a script that is requested twice, or that was
    registered before, is not connected again; and when every requested
    script is registered already it makes no SDK call at all. *)
Theorem ensure_registers_each_script_once scripts
    (h h1 : ResearchHost) (w w1 : World) (r : res unit) :
  _ensure_clients_connected scripts (h, w) = (r, (h1, w1)) →
  (∃ news, mcp_clients h1 = mcp_clients h ++ news
           ∧ Forall (λ p, connected p.2 = true ∧ _tools_cache p.2 = None
                          ∧ server_script p.2 = p.1) news)
  ∧ w_heap w1 = w_heap w
  ∧ fetches (w_log w1) = fetches (w_log w)
  ∧ (r = Ok tt →
     (mcp_clients h1).*1 = first_seen ((mcp_clients h).*1) scripts
     ∧ ∀ s, s ∈ scripts → (s ∈ (mcp_clients h1).*1))
  ∧ ((∀ s, s ∈ scripts → (s ∈ (mcp_clients h).*1)) →
     r = Ok tt ∧ h1 = h ∧ w1 = w).
Proof.
  intros H.
  pose proof H as (Hh & (evs & Hlog & Hevs) & Hnews & Hr)%ensure_loop_log.
  split; [exact Hnews|]. split; [done|]. split.
  { rewrite Hlog, fetches_app, (fetches_lifecycle evs) by done. lia. }
  split.
  - intros ->. split; [done|]. intros s Hs.
    assert (is_Some (clients_lookup s (mcp_clients h1))) as [c Hc].
    { destruct (clients_lookup s (mcp_clients h1)) eqn:E; [eauto|].
      exfalso. revert s Hs E. clear -H.
      revert h h1 w w1 H. unfold _ensure_clients_connected.
      induction scripts as [|s0 scripts IH]; intros h h1 w w1 H s Hs E;
        [by apply elem_of_nil in Hs|].
      rewrite for_each_cons in H. unfold bind in H.
      destruct (ensure_step s0 (h, w)) as [[[]|e] [h2 w2]] eqn:Hstep; [|done].
      pose proof H as (_ & _ & (news & Hnews & _) & _)%ensure_loop_log.
      apply elem_of_cons in Hs as [->|Hs]; [|by eapply IH].
      apply ensure_step_log in Hstep as (_ & _ & Hr).
      apply clients_lookup_None in E. apply E. rewrite Hnews, fmap_app.
      apply elem_of_app. left.
      destruct Hr as [(? & -> & _)|(_ & c & -> & _)]; [done|].
      rewrite fmap_app. apply elem_of_app. right. simpl. by left. }
    destruct (decide (s ∈ (mcp_clients h1).*1)) as [|Hn]; [done|].
    apply clients_lookup_None in Hn. congruence.
  - intros Hreg. rewrite ensure_registered in H; [by simplify_eq|].
    intros s Hs. apply Hreg in Hs.
    destruct (clients_lookup s (mcp_clients h)) eqn:E; [eauto|].
    by apply clients_lookup_None in E.
Qed.

(** X10.  When a [connect] fails in [_ensure_clients_connected], the
    whole of [_get_tools_from_clients] fails with that error, as [connect]
    raised it: no catalog is fetched, not even from the endpoints that did
    connect, and no dictionary is created or tagged.  The script whose
    [connect] failed is not registered (a later request connects it anew);
    the scripts requested before it are, and those after it were not
    tried. *)
Theorem failed_connect_aborts_the_merge scripts
    (h h1 : ResearchHost) (w w1 : World) (e : exn) :
  _ensure_clients_connected scripts (h, w) = (Raise e, (h1, w1)) →
  _get_tools_from_clients scripts (h, w) = (Raise e, (h1, w1))
  ∧ fetches (w_log w1) = fetches (w_log w)
  ∧ w_heap w1 = w_heap w
  ∧ ∃ pre s post, scripts = pre ++ s :: post
      ∧ (mcp_clients h1).*1 = first_seen ((mcp_clients h).*1) pre
      ∧ (s ∉ (mcp_clients h1).*1).
Proof.
  intros H. split.
  { unfold _get_tools_from_clients, bind. by rewrite H. }
  apply ensure_loop_log in H as (Hh & (evs & Hlog & Hevs) & _ & Hr).
  split; [|done].
  rewrite Hlog, fetches_app, (fetches_lifecycle evs) by done. lia.
Qed.

(** *** The host never invokes a tool *)

Lemma get_tools_no_tool_call (c c' : MCPClient) (w w' : World)
    (r : res (list loc)) :
  get_tools (c, w) = (r, (c', w')) →
  ∃ evs, w_log w' = w_log w ++ evs
         ∧ Forall (λ ev, is_tool_call ev = false) evs.
Proof.
  intros H.
  destruct (get_tools_cases c w) as
    [[_ E]|[(_ & ls & _ & E)|[(_ & _ & sess & r0 & env' & _ & _ & E)
     |(_ & _ & sess & e & env' & _ & _ & E)]]];
    rewrite E in H; simplify_eq; simpl;
    first [ by exists []; rewrite app_nil_r
          | by eexists; split; [reflexivity|]; repeat constructor ].
Qed.

Lemma merge_tools_no_tool_call scripts :
  ∀ acc (h h1 : ResearchHost) (w w1 : World) r,
  merge_tools scripts acc (h, w) = (r, (h1, w1)) →
  ∃ evs, w_log w1 = w_log w ++ evs
         ∧ Forall (λ ev, is_tool_call ev = false) evs.
Proof.
  induction scripts as [|s scripts IH]; intros acc h h1 w w1 r.
  - simpl. unfold ret. intros ?; simplify_eq. exists []. by rewrite app_nil_r.
  - simpl. unfold bind at 1, gets. simpl.
    destruct (clients_lookup s (mcp_clients h)) as [c|]; [|apply IH].
    unfold bind. rewrite fetch_and_tag_unfold.
    destruct (get_tools (c, w)) as [[tools|e] [c' w']] eqn:Hg;
      apply get_tools_no_tool_call in Hg as (evs & Hlog & Hevs).
    + intros (evs' & Hlog' & Hevs')%IH. simpl in Hlog'.
      exists (evs ++ evs'). rewrite app_assoc, <- Hlog.
      split; [done|]. by apply Forall_app.
    + intros ?; simplify_eq. eauto.
Qed.

Lemma get_tools_from_clients_no_tool_call scripts
    (h h1 : ResearchHost) (w w1 : World) r :
  _get_tools_from_clients scripts (h, w) = (r, (h1, w1)) →
  tool_invocations (w_log w1) = tool_invocations (w_log w).
Proof.
  unfold _get_tools_from_clients, bind.
  destruct (_ensure_clients_connected scripts (h, w))
    as [[[]|e] [h2 w2]] eqn:He;
    apply ensure_loop_log in He as (_ & (evs & Hlog & Hevs) & _).
  - intros (evs' & Hlog' & Hevs')%merge_tools_no_tool_call.
    rewrite Hlog', Hlog, !tool_invocations_app.
    rewrite (tool_invocations_none evs)
      by by apply lifecycle_no_tool_call.
    rewrite (tool_invocations_none evs') by done.
    by rewrite !app_nil_r.
  - intros ?; simplify_eq. rewrite Hlog, tool_invocations_app.
    rewrite (tool_invocations_none evs)
      by by apply lifecycle_no_tool_call.
    by rewrite app_nil_r.
Qed.

Lemma cleanup_step_lifecycle script c (h h1 : ResearchHost) (w w1 : World) r :
  cleanup_step (script, c) (h, w) = (r, (h1, w1)) →
  ∃ evs, w_log w1 = w_log w ++ evs
         ∧ Forall (λ ev, is_lifecycle ev = true) evs.
Proof.
  unfold cleanup_step, try_except, on_registered, disconnect. simpl.
  destruct (_cleanup (c, w)) as [[[]|e] [c' w']] eqn:Hc;
    apply cleanup_lifecycle in Hc.
  - intros ?; simplify_eq. done.
  - destruct (isinstance_Exception e); unfold ret; intros ?; simplify_eq; done.
Qed.

Lemma cleanup_loop_lifecycle items : ∀ (h h1 : ResearchHost) (w w1 : World) r,
  for_each items cleanup_step (h, w) = (r, (h1, w1)) →
  ∃ evs, w_log w1 = w_log w ++ evs
         ∧ Forall (λ ev, is_lifecycle ev = true) evs.
Proof.
  induction items as [|[script c] items IH]; intros h h1 w w1 r.
  - simpl. unfold ret. intros ?; simplify_eq. exists []. by rewrite app_nil_r.
  - rewrite for_each_cons. unfold bind.
    destruct (cleanup_step (script, c) (h, w)) as [[[]|e] [h2 w2]] eqn:Hs;
      apply cleanup_step_lifecycle in Hs as (evs & Hlog & Hevs).
    + intros (evs' & Hlog' & Hevs')%IH.
      exists (evs ++ evs'). rewrite app_assoc, <- Hlog.
      split; [done|]. by apply Forall_app.
    + intros ?; simplify_eq. eauto.
Qed.

Lemma host_cleanup_lifecycle (h h1 : ResearchHost) (w w1 : World) r :
  cleanup (h, w) = (r, (h1, w1)) →
  ∃ evs, w_log w1 = w_log w ++ evs
         ∧ Forall (λ ev, is_lifecycle ev = true) evs.
Proof.
  unfold cleanup. unfold bind at 1, gets. simpl. unfold bind, modify.
  destruct (for_each (mcp_clients h) cleanup_step (h, w))
    as [[[]|e] [h2 w2]] eqn:Hl;
    apply cleanup_loop_lifecycle in Hl; intros ?; simplify_eq; done.
Qed.

(** *** What the model is offered *)

Lemma openai_tools_tag_server script l heap mcp_tools :
  openai_tools (tag_server script l heap) mcp_tools
  = openai_tools heap mcp_tools.
Proof.
  unfold openai_tools, tag_server. apply map_ext. intros tool.
  destruct (decide (tool = l)) as [->|Hne].
  - rewrite list_lookup_alter_eq.
    destruct (heap !! l) as [d|]; simpl; [|done].
    unfold _convert_mcp_tool_to_openai.
    by rewrite !lookup_insert_ne by done.
  - by rewrite list_lookup_alter_ne by done.
Qed.

(** X11.  The origin tag is not part of what the model is offered: writing
    the key [_server] does not change the conversion of a dictionary, so the
    list offered for a merged catalog is the same before and after the
    tagging loop; and the conversion of a descriptor as [get_tools] built it
    carries the tool's name, its description (the empty string when the
    tool has none) and the normalized schema. *)
Theorem openai_conversion_hides_the_origin :
  (∀ d v, _convert_mcp_tool_to_openai (<["_server" := v]> d)
          = _convert_mcp_tool_to_openai d)
  ∧ (∀ script tools heap mcp_tools,
       openai_tools (tag_all script tools heap) mcp_tools
       = openai_tools heap mcp_tools)
  ∧ (∀ tool d, convert_tool tool = Ok d →
       ∃ name description schema,
         tool_name tool = Ok name
         ∧ tool_description tool = Ok description
         ∧ tool_inputSchema tool = Ok schema
         ∧ _convert_mcp_tool_to_openai d
           = {| ot_type := "function";
                ot_name := PStr name;
                ot_description := PStr (description_or_empty description);
                ot_parameters := PMap (schema_mapping schema) |}).
Proof.
  split; [|split].
  - intros d v. unfold _convert_mcp_tool_to_openai.
    by rewrite !lookup_insert_ne by done.
  - intros script tools. unfold tag_all.
    induction tools as [|l tools IH]; intros heap mcp_tools; [done|].
    simpl. by rewrite IH, openai_tools_tag_server.
  - intros tool d (n & de & sc & ? & ? & ? & _ & ->)%convert_tool_ok.
    by exists n, de, sc.
Qed.

(** *** The invariant, for a user of the host *)

(** X12.  In every state a host can reach from a new host through merges
    and bulk teardowns, whatever they returned or raised: no script has two
    clients, every client is registered under its own script, no tool
    dictionary is held by two caches or twice by one, and every cached
    dictionary is in the store and is a descriptor as [get_tools] built it,
    with at most the key [_server] added. *)
Theorem registry_invariant_always_holds (h : ResearchHost) (w : World) :
  reachable (h, w) →
  NoDup ((mcp_clients h).*1)
  ∧ Forall (λ p, server_script p.2 = p.1) (mcp_clients h)
  ∧ NoDup (owned (mcp_clients h))
  ∧ Forall (λ l, ∃ d name description input_schema,
                w_heap w !! l = Some d
                ∧ delete "_server" d
                  = tool_dict name description input_schema)
      (owned (mcp_clients h)).
Proof. intros [? ? ? ?]%reachable_inv. done. Qed.

End HostCoverage.

(** * More of the code: running an experiment *)

Section ExperimentFacts.
Context `{sdk : SDK} `{platform : Platform}.

(** *** The print flags *)

Lemma sorted_Permutation (l : list string) : sorted l ≡ₚ l.
Proof. apply merge_sort_Permutation. Qed.

(** Two lists have the same sorted tuple exactly when they hold the same
    scripts the same number of times. *)
Lemma sorted_eq_iff (l1 l2 : list string) : sorted l1 = sorted l2 ↔ l1 ≡ₚ l2.
Proof.
  split.
  - intros E. by rewrite <- (sorted_Permutation l1), E, sorted_Permutation.
  - intros E. apply (Sorted_unique String.le).
    + apply (Sorted_merge_sort String.le).
    + apply (Sorted_merge_sort String.le).
    + by rewrite !sorted_Permutation.
Qed.

Lemma check_flags_same (scripts : list string) (s : rstate) :
  _last_server_script (r_attrs s) = Some (sorted scripts) →
  _check_and_reset_print_flags scripts s = (Ok tt, s).
Proof.
  intros E. unfold _check_and_reset_print_flags, bind, attr_get, gets. simpl.
  rewrite E. by rewrite bool_decide_false by (by intros []).
Qed.

Lemma check_flags_changed (scripts : list string) (s : rstate) :
  _last_server_script (r_attrs s) ≠ Some (sorted scripts) →
  _check_and_reset_print_flags scripts s
  = (Ok tt,
     set_attrs
       {| llm_client := llm_client (r_attrs s);
          model := model (r_attrs s);
          system_prompt := system_prompt (r_attrs s);
          _last_server_script := Some (sorted scripts);
          _has_printed_server_info := false;
          _has_printed_separator := false |} s).
Proof.
  intros E. unfold _check_and_reset_print_flags, bind, attr_get, gets. simpl.
  by rewrite bool_decide_true by done.
Qed.

(** What [_check_and_reset_print_flags] leaves alone. *)
Lemma check_flags_frame (scripts : list string) (s : rstate) :
  ∃ s', _check_and_reset_print_flags scripts s = (Ok tt, s')
    ∧ _last_server_script (r_attrs s') = Some (sorted scripts)
    ∧ llm_client (r_attrs s') = llm_client (r_attrs s)
    ∧ model (r_attrs s') = model (r_attrs s)
    ∧ system_prompt (r_attrs s') = system_prompt (r_attrs s)
    ∧ r_host s' = r_host s ∧ r_world s' = r_world s ∧ r_llm s' = r_llm s
    ∧ r_requests s' = r_requests s ∧ r_stdout s' = r_stdout s.
Proof.
  destruct (decide (_last_server_script (r_attrs s) = Some (sorted scripts)))
    as [E|E].
  - exists s. by rewrite check_flags_same.
  - eexists. by rewrite check_flags_changed.
Qed.

(** X13.  [_check_and_reset_print_flags] compares the requested scripts
    with those of the previous request without regard to their order: when
    the request holds the same scripts the same number of times, nothing
    changes; otherwise (and on the first request) both print flags are
    switched off.  Either way the request is remembered, and nothing but
    the two flags and the remembered request is written. *)
Theorem print_flags_reset_iff_scripts_change (scripts : list string)
    (s : rstate) :
  ∃ s', _check_and_reset_print_flags scripts s = (Ok tt, s')
    ∧ _last_server_script (r_attrs s') = Some (sorted scripts)
    ∧ (∀ prev, _last_server_script (r_attrs s) = Some (sorted prev) →
         scripts ≡ₚ prev → s' = s)
    ∧ ((∀ prev, _last_server_script (r_attrs s) = Some (sorted prev) →
          ¬ scripts ≡ₚ prev) →
       _has_printed_server_info (r_attrs s') = false
       ∧ _has_printed_separator (r_attrs s') = false)
    ∧ llm_client (r_attrs s') = llm_client (r_attrs s)
    ∧ model (r_attrs s') = model (r_attrs s)
    ∧ system_prompt (r_attrs s') = system_prompt (r_attrs s)
    ∧ r_host s' = r_host s ∧ r_world s' = r_world s ∧ r_llm s' = r_llm s
    ∧ r_requests s' = r_requests s ∧ r_stdout s' = r_stdout s.
Proof.
  destruct (decide (_last_server_script (r_attrs s) = Some (sorted scripts)))
    as [E|E].
  - exists s. rewrite check_flags_same by done.
    split; [done|]. split; [done|]. split; [done|]. split; [|done].
    intros H. destruct (H scripts E). done.
  - eexists. rewrite check_flags_changed by done.
    split; [done|]. split; [done|]. split; [|done].
    intros prev Hp Hperm. destruct E. rewrite Hp. f_equal.
    symmetry. by apply sorted_eq_iff.
Qed.

(** *** The display server *)

Lemma first_non_str_strs i (l : list string) :
  first_non_str i (PStr <$> l) = None.
Proof. revert i. induction l as [|s l IH]; intros i; simpl; [done|apply IH]. Qed.

Lemma pyval_strs_strs (l : list string) : pyval_strs (PStr <$> l) = l.
Proof.
  unfold pyval_strs. induction l as [|s l IH]; [done|].
  simpl. f_equal. exact IH.
Qed.

(** The tags [_get_display_server] reads, when all are strings. *)
Lemma display_server_strs heap mcp_tools (tags : list string) :
  map (λ tool, tool_get_default heap tool "_server" (PStr "unknown"))
    mcp_tools = PStr <$> tags →
  _get_display_server heap mcp_tools
  = Ok (match list_of_set tags with
        | [] => "unknown"
        | _ => str_join ", " (list_of_set tags)
        end).
Proof.
  intros E. unfold _get_display_server. rewrite E.
  by rewrite first_non_str_strs, pyval_strs_strs.
Qed.

Lemma list_of_set_elem_of (xs : list string) x : x ∈ list_of_set xs ↔ x ∈ xs.
Proof. by rewrite list_of_set_perm, elem_of_remove_dups. Qed.

Lemma list_of_set_NoDup (xs : list string) : NoDup (list_of_set xs).
Proof. rewrite list_of_set_perm. apply NoDup_remove_dups. Qed.

Lemma list_of_set_nil : list_of_set [] = [].
Proof. apply Permutation_nil_r. by rewrite list_of_set_perm. Qed.

Lemma list_of_set_all_same (x : string) (xs : list string) :
  xs ≠ [] → Forall (λ y, y = x) xs → list_of_set xs = [x].
Proof.
  intros Hne Hall.
  assert (∀ y, y ∈ list_of_set xs ↔ y = x) as Hel.
  { intros y. rewrite list_of_set_elem_of. split.
    - intros Hy. by eapply Forall_forall in Hall.
    - intros ->. destruct xs as [|z xs]; [done|].
      apply Forall_cons in Hall as [-> _]. by left. }
  pose proof (list_of_set_NoDup xs) as Hnd.
  destruct (list_of_set xs) as [|a [|b l]].
  - exfalso. by apply (elem_of_nil x), Hel.
  - f_equal. apply Hel. by left.
  - exfalso. assert (a = x) as -> by (apply Hel; by left).
    assert (b = x) as -> by (apply Hel; right; by left).
    apply NoDup_cons in Hnd as [Hn _]. apply Hn. by left.
Qed.

(** X14.  [_get_display_server] names each origin once: for no tool at all
    it gives the word "unknown"; when every tool carries the same origin it
    gives that origin, however many tools there are; and in general, when
    every origin is a string, it gives the origins joined by a comma and a
    space, each once, in some order, a tool without the key [_server]
    counting as of origin "unknown". *)
Theorem display_server_names_each_origin_once (heap : list ToolDict) :
  _get_display_server heap [] = Ok "unknown"
  ∧ (∀ script mcp_tools, mcp_tools ≠ [] →
       Forall (tagged heap script) mcp_tools →
       _get_display_server heap mcp_tools = Ok script)
  ∧ (∀ mcp_tools (tags : list string), mcp_tools ≠ [] →
       map (λ tool, tool_get_default heap tool "_server" (PStr "unknown"))
         mcp_tools = PStr <$> tags →
       ∃ used_servers,
         _get_display_server heap mcp_tools = Ok (str_join ", " used_servers)
         ∧ NoDup used_servers ∧ ∀ x, x ∈ used_servers ↔ x ∈ tags).
Proof.
  split; [|split].
  - rewrite (display_server_strs heap [] []) by done. by rewrite list_of_set_nil.
  - intros script mcp_tools Hne Hall.
    rewrite (display_server_strs heap mcp_tools
               (replicate (length mcp_tools) script)).
    + rewrite (list_of_set_all_same script).
      * done.
      * destruct mcp_tools; [done|]. done.
      * apply Forall_forall. by intros y ->%elem_of_replicate_inv.
    + clear Hne. induction Hall as [|l ls Hl _ IH]; [done|].
      simpl. rewrite IH. f_equal. unfold tool_get_default.
      unfold tagged in Hl. by rewrite Hl.
  - intros mcp_tools tags Hne E.
    rewrite (display_server_strs heap mcp_tools tags) by done.
    exists (list_of_set tags). split.
    + destruct (list_of_set tags) eqn:El; [|done].
      exfalso. destruct mcp_tools as [|l ls]; [done|].
      destruct tags as [|t tags]; [done|].
      apply (elem_of_nil t). rewrite <- El. apply list_of_set_elem_of. by left.
    + split; [apply list_of_set_NoDup|]. apply list_of_set_elem_of.
Qed.

(** *** [ResearchHost.__init__] *)

(** X15.  [__init__] reads the environment variable only when no token is
    given, and then a missing or empty variable makes it raise the
    [ValueError], before the OpenAI client is constructed.  With a token that
    is not empty, given or read, the host is created with that token.  With
    the empty string given as token it is the constructor of the OpenAI
    client that decides: what it raises for an empty key is raised by
    [__init__].  A new host has no client, has printed nothing and
    remembers no request. *)
Theorem host_init_needs_a_token (hf_token : option string) (m : string)
    (prompt : option string) :
  (∀ e, ResearchHost_new hf_token m prompt = Raise e ↔
        (e = HF_TOKEN_not_found ∧ hf_token = None
         ∧ (environ_HF_TOKEN = None ∨ environ_HF_TOKEN = Some ""))
        ∨ (hf_token = Some "" ∧ OpenAI_new HF_BASE_URL "" = Raise e))
  ∧ (∀ t, t ≠ "" →
       hf_token = Some t ∨ hf_token = None ∧ environ_HF_TOKEN = Some t →
       ∃ a, ResearchHost_new hf_token m prompt = Ok (a, ResearchHost_init)
            ∧ llm_client a = t)
  ∧ (∀ a h, ResearchHost_new hf_token m prompt = Ok (a, h) →
       llm_client a
       = match hf_token with
         | Some t => t
         | None => default "" environ_HF_TOKEN
         end
       ∧ model a = m ∧ system_prompt a = prompt
       ∧ _last_server_script a = None
       ∧ _has_printed_server_info a = false
       ∧ _has_printed_separator a = false
       ∧ h = ResearchHost_init).
Proof.
  unfold ResearchHost_new. split; [|split].
  - intros e. destruct hf_token as [t|]; simpl.
    + destruct (decide (t = "")) as [->|Hne].
      * destruct (OpenAI_new HF_BASE_URL "") as [[]|e0] eqn:Ho; simpl.
        -- split; [done|]. intros [(_ & ? & _)|[_ ?]]; done.
        -- split; [intros [= <-]; by right|].
           intros [(_ & ? & _)|[_ [= <-]]]; done.
      * rewrite OpenAI_new_key by done. simpl.
        split; [done|]. intros [(_ & ? & _)|[[= ?] _]]; done.
    + destruct environ_HF_TOKEN as [[|a t]|]; simpl.
      * split; [intros [= <-]; left; eauto|].
        intros [(-> & _)|[? _]]; done.
      * rewrite OpenAI_new_key by done. simpl.
        split; [done|]. intros [(_ & _ & [?|?])|[? _]]; done.
      * split; [intros [= <-]; left; eauto|].
        intros [(-> & _)|[? _]]; done.
  - intros t Hne [->|[-> ->]]; simpl.
    + rewrite OpenAI_new_key by done. simpl. eauto.
    + destruct t; [done|]. simpl. rewrite OpenAI_new_key by done.
      simpl. eauto.
  - intros a h. destruct hf_token as [t|]; simpl.
    + destruct (OpenAI_new HF_BASE_URL t) as [[]|?]; simpl; [|done].
      by intros [= <- <-].
    + destruct environ_HF_TOKEN as [[|c t]|]; simpl; [done| |done].
      destruct (OpenAI_new HF_BASE_URL (String c t)) as [[]|?]; simpl;
        [|done].
      by intros [= <- <-].
Qed.

(** *** The steps of [run_experiment] *)

Lemma set_stdout_same (s : rstate) : set_stdout (r_stdout s) s = s.
Proof. by destruct s. Qed.

Lemma print_mapping_loop scripts : ∀ s : rstate,
  _print_client_server_mapping scripts s
  = (Ok tt,
     set_stdout
       (r_stdout s ++ mapping_block (mcp_clients (r_host s)) scripts) s).
Proof.
  unfold _print_client_server_mapping.
  induction scripts as [|script scripts IH]; intros s.
  - simpl. unfold ret. by rewrite app_nil_r, set_stdout_same.
  - rewrite for_each_cons. unfold bind at 1.
    unfold print_mapping_step at 1. unfold bind at 1, gets. simpl.
    destruct (clients_lookup script (mcp_clients (r_host s))) as [c|] eqn:Hl.
    + unfold bind, print, modify. simpl. rewrite IH. simpl.
      unfold set_stdout. simpl. by rewrite <- !app_assoc.
    + unfold ret. by rewrite IH.
Qed.

Lemma print_server_info_once_spec scripts tools (s : rstate) :
  print_server_info_once scripts tools s
  = if _has_printed_server_info (r_attrs s) then (Ok tt, s)
    else
      let s1 :=
        set_stdout
          (r_stdout s ++ mapping_block (mcp_clients (r_host s)) scripts) s in
      match join_values ", " (tool_names (w_heap (r_world s)) tools) with
      | Ok names =>
          (Ok tt,
           set_attrs (set_has_printed_server_info true (r_attrs s))
             (set_stdout (r_stdout s1 ++ [OutToolAvailable names]) s1))
      | Raise e => (Raise e, s1)
      end.
Proof.
  unfold print_server_info_once. unfold bind at 1, attr_get, gets. simpl.
  destruct (_has_printed_server_info (r_attrs s)); simpl; [done|].
  unfold bind at 1. rewrite print_mapping_loop.
  unfold bind at 1, _print_server_info. unfold bind at 1, gets. simpl.
  unfold bind at 1, lift_res.
  destruct (join_values _ _) as [names|e]; [|done].
  unfold print, attr_set, modify. done.
Qed.

Lemma run_experiment_unfold q arg (s s0 : rstate) :
  let scripts := server_scripts_of arg in
  _check_and_reset_print_flags scripts s = (Ok tt, s0) →
  r_host s0 = r_host s → r_world s0 = r_world s →
  run_experiment q arg s
  = match _get_tools_from_clients scripts (r_host s, r_world s) with
    | (Raise e, (h, w)) => (Raise e, set_registry h w s0)
    | (Ok tools, (h, w)) =>
        match print_server_info_once scripts tools (set_registry h w s0) with
        | (Raise e, s2) => (Raise e, s2)
        | (Ok _, s2) =>
            let req :=
              completion_request_of (r_attrs s2) (w_heap (r_world s2))
                tools q in
            match chat_completions_create req (r_llm s2) with
            | (Raise e, llm') =>
                (Raise e, set_llm llm' (r_requests s2 ++ [req]) s2)
            | (Ok completion, llm') =>
                (analyse_completion q (w_heap (r_world s2)) tools completion,
                 set_llm llm' (r_requests s2 ++ [req]) s2)
            end
        end
    end.
Proof.
  intros scripts Hc Hh Hw. unfold run_experiment. fold scripts.
  unfold bind at 1. rewrite Hc.
  unfold bind at 1, on_host. rewrite Hh, Hw.
  destruct (_get_tools_from_clients scripts (r_host s, r_world s))
    as [[tools|e] [h w]]; [|done].
  unfold bind at 1.
  destruct (print_server_info_once scripts tools (set_registry h w s0))
    as [[[]|e] s2]; [|done].
  unfold bind at 1, gets. simpl. unfold bind at 1. simpl.
  unfold bind, llm_do, lift_res.
  destruct (chat_completions_create _ _) as [[completion|e] llm']; done.
Qed.

(** The loop over the tool calls of the model. *)
Lemma record_tool_calls_ok heap tools calls :
  ∀ result0 result,
  record_tool_calls heap tools calls result0 = Ok result →
  ∃ infos, tool_calls result = tool_calls result0 ++ infos
    ∧ Forall2 (λ call info,
         _extract_tool_call_info call
         = Ok (tci_tool_name info, tci_arguments info)) calls infos
    ∧ Forall (λ info, tci_server info
                      = find_tool_server heap tools (tci_tool_name info))
        infos
    ∧ selected_tool result
      = match last infos with
        | Some info => Some (tci_tool_name info)
        | None => selected_tool result0
        end
    ∧ tool_arguments result
      = match last infos with
        | Some info => tci_arguments info
        | None => tool_arguments result0
        end
    ∧ user_query result = user_query result0
    ∧ available_tools result = available_tools result0
    ∧ selected_server result = selected_server result0
    ∧ llm_response result = llm_response result0.
Proof.
  induction calls as [|call calls IH]; intros result0 result.
  - simpl. intros [= <-]. exists []. rewrite app_nil_r.
    repeat split; done.
  - simpl. destruct (_extract_tool_call_info call) as [[name arguments]|e]
      eqn:He; [|done].
    intros (infos & Htc & Hex & Hsrv & Hsel & Harg & ? & ? & ? & ?)%IH.
    simpl in *.
    exists ({| tci_tool_name := name; tci_arguments := arguments;
               tci_server := find_tool_server heap tools name |} :: infos).
    rewrite Htc, <- app_assoc. split; [done|].
    split; [by constructor|]. split; [by constructor|].
    rewrite Hsel, Harg.
    destruct infos as [|i infos]; [done|].
    rewrite !last_cons_cons.
    assert (is_Some (last (i :: infos))) as [li ->]
      by (by apply last_is_Some).
    done.
Qed.

Lemma record_tool_calls_raise heap tools calls :
  ∀ result0 e,
  record_tool_calls heap tools calls result0 = Raise e →
  ∃ call, call ∈ calls ∧ _extract_tool_call_info call = Raise e.
Proof.
  induction calls as [|call calls IH]; intros result0 e; [done|].
  simpl. destruct (_extract_tool_call_info call) as [[name arguments]|e']
    eqn:He.
  - intros (c & ? & ?)%IH. exists c. split; [by right|done].
  - intros [= <-]. exists call. split; [by left|done].
Qed.

(** The analysis of a completion that gives a result. *)
Lemma analyse_completion_ok q heap tools completion result :
  analyse_completion q heap tools completion = Ok result →
  ∃ message rest display_server,
    choices completion = message :: rest
    ∧ _get_display_server heap tools = Ok display_server
    ∧ user_query result = q
    ∧ available_tools result = tool_names heap tools
    ∧ selected_server result = display_server
    ∧ llm_response result = msg_content message
    ∧ Forall2 (λ call info,
         _extract_tool_call_info call
         = Ok (tci_tool_name info, tci_arguments info))
        (default [] (msg_tool_calls message)) (tool_calls result)
    ∧ Forall (λ info, tci_server info
                      = find_tool_server heap tools (tci_tool_name info))
        (tool_calls result)
    ∧ selected_tool result = last (tci_tool_name <$> tool_calls result)
    ∧ tool_arguments result
      = default JNull (last (tci_arguments <$> tool_calls result)).
Proof.
  unfold analyse_completion.
  destruct (choices completion) as [|message rest]; [done|].
  destruct (_get_display_server heap tools) as [display_server|e]; [|done].
  intros H. exists message, rest, display_server.
  split; [done|]. split; [done|].
  destruct (msg_tool_calls message) as [[|call calls]|].
  - simplify_eq. simpl. repeat split; done.
  - apply record_tool_calls_ok in H
      as (infos & Htc & Hex & Hsrv & Hsel & Harg & ? & ? & ? & ?).
    simpl in *. subst infos.
    split; [done|]. split; [done|]. split; [done|]. split; [done|].
    split; [done|]. split; [done|].
    rewrite Hsel, Harg, !fmap_last.
    destruct (last (tool_calls result)); done.
  - simplify_eq. simpl. repeat split; done.
Qed.

(** What the print block leaves alone. *)
Lemma print_server_info_once_frame scripts tools (s s2 : rstate) rp :
  print_server_info_once scripts tools s = (rp, s2) →
  r_host s2 = r_host s ∧ r_world s2 = r_world s ∧ r_llm s2 = r_llm s
  ∧ r_requests s2 = r_requests s
  ∧ llm_client (r_attrs s2) = llm_client (r_attrs s)
  ∧ model (r_attrs s2) = model (r_attrs s)
  ∧ system_prompt (r_attrs s2) = system_prompt (r_attrs s)
  ∧ _last_server_script (r_attrs s2) = _last_server_script (r_attrs s)
  ∧ _has_printed_separator (r_attrs s2) = _has_printed_separator (r_attrs s)
  ∧ (rp = Ok tt → _has_printed_server_info (r_attrs s2) = true)
  ∧ (_has_printed_server_info (r_attrs s) = true → s2 = s).
Proof.
  rewrite print_server_info_once_spec.
  destruct (_has_printed_server_info (r_attrs s)) eqn:Hf.
  - intros ?; simplify_eq. repeat split; done.
  - simpl. destruct (join_values _ _) as [names|e];
      intros ?; simplify_eq; simpl; repeat split; done.
Qed.

Lemma completion_request_of_ext (a b : HostAttrs) heap tools q :
  llm_client a = llm_client b → model a = model b →
  system_prompt a = system_prompt b →
  completion_request_of a heap tools q = completion_request_of b heap tools q.
Proof. unfold completion_request_of. by intros -> -> ->. Qed.

(** Every way a call of [run_experiment] can go. *)
Lemma run_experiment_cases q arg (s s' : rstate) r :
  let scripts := server_scripts_of arg in
  run_experiment q arg s = (r, s') →
  ∃ s0 rm h w,
    _check_and_reset_print_flags scripts s = (Ok tt, s0)
    ∧ _get_tools_from_clients scripts (r_host s, r_world s) = (rm, (h, w))
    ∧ r_host s' = h ∧ r_world s' = w
    ∧ match rm with
      | Raise e => r = Raise e ∧ s' = set_registry h w s0
      | Ok tools =>
          ∃ rp s2,
            print_server_info_once scripts tools (set_registry h w s0)
            = (rp, s2)
            ∧ match rp with
              | Raise e => r = Raise e ∧ s' = s2
              | Ok _ =>
                  let req :=
                    completion_request_of (r_attrs s) (w_heap w) tools q in
                  ∃ ra llm',
                    chat_completions_create req (r_llm s) = (ra, llm')
                    ∧ s' = set_llm llm' (r_requests s ++ [req]) s2
                    ∧ match ra with
                      | Raise e => r = Raise e
                      | Ok completion =>
                          r = analyse_completion q (w_heap w) tools completion
                      end
              end
      end.
Proof.
  intros scripts H.
  destruct (check_flags_frame scripts s)
    as (s0 & Hc & _ & Hk & Hm & Hp & Hh & Hw & Hl & Hr & _).
  rewrite (run_experiment_unfold q arg s s0 Hc Hh Hw) in H. fold scripts in H.
  exists s0.
  destruct (_get_tools_from_clients scripts (r_host s, r_world s))
    as [[tools|e] [h w]] eqn:Hmerge.
  - exists (Ok tools), h, w. split; [done|]. split; [done|].
    destruct (print_server_info_once scripts tools (set_registry h w s0))
      as [[[]|e] s2] eqn:Hprint.
    + pose proof Hprint
        as (Hh2 & Hw2 & Hl2 & Hr2 & Hk2 & Hm2 & Hp2 & _)
             %print_server_info_once_frame.
      simpl in *. rewrite Hw2, Hl2, Hr2, Hl, Hr in H.
      rewrite (completion_request_of_ext _ (r_attrs s)) in H by congruence.
      destruct (chat_completions_create _ _) as [[completion|e] llm'] eqn:Hllm;
        simplify_eq; simpl; (split; [done|]); (split; [done|]);
        exists (Ok tt); eexists; (split; [done|]); eexists _, _;
        (split; [reflexivity|]); done.
    + pose proof Hprint as (Hh2 & Hw2 & _)%print_server_info_once_frame.
      simplify_eq. simpl in *. split; [done|]. split; [done|].
      exists (Raise e), s'. done.
  - exists (Raise e), h, w. simplify_eq. done.
Qed.

(** *** The result of an experiment *)

(** X16.  A [run_experiment] that returns has asked the model once and read
    the first choice only.  The result keeps the model's comment and one
    entry per tool call of that choice, in the model's order, with the name
    and the parsed arguments of the call; [selected_tool] and
    [tool_arguments] are those of the last call (of no call when the model
    called no tool): earlier calls are in [tool_calls] only. *)
Theorem run_experiment_selects_the_last_call q arg (s s' : rstate) result :
  run_experiment q arg s = (Ok result, s') →
  ∃ req completion message rest,
    r_requests s' = r_requests s ++ [req]
    ∧ chat_completions_create req (r_llm s) = (Ok completion, r_llm s')
    ∧ choices completion = message :: rest
    ∧ user_query result = q
    ∧ llm_response result = msg_content message
    ∧ Forall2 (λ call info,
         _extract_tool_call_info call
         = Ok (tci_tool_name info, tci_arguments info))
        (default [] (msg_tool_calls message)) (tool_calls result)
    ∧ selected_tool result = last (tci_tool_name <$> tool_calls result)
    ∧ tool_arguments result
      = default JNull (last (tci_arguments <$> tool_calls result)).
Proof.
  intros (s0 & rm & h & w & _ & _ & _ & _ & Hrm)%run_experiment_cases.
  destruct rm as [tools|e]; [|by destruct Hrm].
  destruct Hrm as ([[]|e] & s2 & _ & Hrp); [|by destruct Hrp].
  destruct Hrp as ([completion|e] & llm' & Hllm & -> & Hr); [|done].
  symmetry in Hr.
  apply analyse_completion_ok in Hr
    as (message & rest & ds & ? & _ & ? & _ & _ & ? & ? & _ & ? & ?).
  eexists _, completion, message, rest. simpl.
  split; [done|]. split; [exact Hllm|]. done.
Qed.

(** *** Where a chosen tool comes from *)


Lemma merged_cache_tagged script (h : ResearchHost) (w : World) :
  merged script h w → Forall (tagged (w_heap w) script) (cache_of h script).
Proof.
  intros (c & ls & Hl & _ & Hc & Ht). unfold cache_of, cache_locs.
  by rewrite Hl, Hc.
Qed.

Lemma merged_cache_descriptors scripts (h : ResearchHost) (w : World) :
  host_inv h w →
  Forall (is_descriptor (w_heap w)) (flat_map (cache_of h) scripts).
Proof.
  intros [_ _ _ Hd]. apply Forall_forall. intros l Hl.
  apply list_elem_of_In, in_flat_map in Hl as (sc & _ & Hl).
  apply list_elem_of_In in Hl. unfold cache_of in Hl.
  destruct (clients_lookup sc (mcp_clients h)) as [c|] eqn:Hc;
    [|by apply elem_of_nil in Hl].
  eapply Forall_forall in Hd; [exact Hd|]. by eapply cache_in_owned.
Qed.

(** What a [run_experiment] that returns rests on, when the host was in a
    state it can reach. *)
Lemma run_experiment_ok_merged q arg (s s' : rstate) result :
  let scripts := server_scripts_of arg in
  host_inv (r_host s) (r_world s) →
  run_experiment q arg s = (Ok result, s') →
  ∃ completion,
    host_inv (r_host s') (r_world s')
    ∧ (∀ sc, sc ∈ scripts → merged sc (r_host s') (r_world s'))
    ∧ analyse_completion q (w_heap (r_world s'))
        (flat_map (cache_of (r_host s')) scripts) completion = Ok result
    ∧ _has_printed_server_info (r_attrs s') = true
    ∧ _last_server_script (r_attrs s') = Some (sorted scripts).
Proof.
  intros scripts Hinv
    (s0 & rm & h & w & Hc & Hm & Hh & Hw & Hrm)%run_experiment_cases.
  fold scripts in Hm, Hc.
  destruct rm as [tools|e]; [|by destruct Hrm].
  apply get_tools_from_clients_spec in Hm as (Hinv' & _ & Hall); [|done].
  destruct (Hall tools eq_refl) as [-> Hmerged].
  destruct Hrm as ([[]|e] & s2 & Hp & Hrp); [|by destruct Hrp].
  destruct Hrp as ([completion|e] & llm' & Hllm & Hs' & Hr); [|done].
  apply print_server_info_once_frame in Hp
    as (_ & _ & _ & _ & _ & _ & _ & Hlast & _ & Hflag & _).
  exists completion. rewrite Hh, Hw.
  split; [done|]. split; [done|]. split; [done|].
  rewrite Hs'. simpl.
  split; [by apply Hflag|].
  rewrite Hlast.
  destruct (check_flags_frame scripts s) as (s0' & Hc' & Hl & _).
  rewrite Hc in Hc'. by simplify_eq.
Qed.


(** *** What the result says about the catalog *)

Lemma descriptor_name heap l :
  is_descriptor heap l →
  ∃ d name description input_schema,
    heap !! l = Some d
    ∧ delete "_server" d = tool_dict name description input_schema
    ∧ tool_get_default heap l "name" (PStr "N/A") = PStr name.
Proof.
  intros (d & n & de & m & Hd & Ht). exists d, n, de, m.
  split; [done|]. split; [done|].
  unfold tool_get_default, tool_get. rewrite Hd. simpl.
  assert (d !! "name" = tool_dict n de m !! "name") as ->.
  { rewrite <- Ht. by rewrite lookup_delete_ne. }
  done.
Qed.

Lemma tool_names_descriptors heap ls :
  Forall (is_descriptor heap) ls →
  ∃ names, tool_names heap ls = PStr <$> names.
Proof.
  induction 1 as [|l ls Hl _ (names & IH)]; [by exists []|].
  apply descriptor_name in Hl as (d & n & _ & _ & _ & _ & Hn).
  exists (n :: names). unfold tool_names in *. simpl.
  by rewrite Hn, IH.
Qed.


Lemma merged_tags scripts (h : ResearchHost) (w : World) :
  (∀ sc, sc ∈ scripts → merged sc h w) →
  map (λ tool, tool_get_default (w_heap w) tool "_server" (PStr "unknown"))
    (flat_map (cache_of h) scripts)
  = PStr <$> flat_map (λ sc, replicate (length (cache_of h sc)) sc) scripts.
Proof.
  induction scripts as [|sc scripts IH]; intros H; [done|].
  simpl. rewrite map_app, fmap_app, IH by (intros ? ?; apply H; by right).
  f_equal. assert (merged sc h w) as Hm%merged_cache_tagged by (apply H; by left).
  induction Hm as [|l ls Hl _ IHl]; [done|].
  simpl. rewrite IHl. f_equal. unfold tool_get_default.
  unfold tagged in Hl. by rewrite Hl.
Qed.


(** *** The request to the model *)

(** X19.  [run_experiment] asks the model at most once, and only after
    every requested script has connected and answered: when the merge
    raises, no request is made.  The request carries the key and the model
    name of the host, the tool choice "auto", the conversion of every tool
    of the merged catalog, and the messages: the user's query last, preceded
    by the system prompt when the host has one that is not empty. *)
Theorem model_is_asked_once_after_the_merge q arg (s s' : rstate) r :
  run_experiment q arg s = (r, s') →
  (r_requests s' = r_requests s ∧ r_llm s' = r_llm s ∧ ∃ e, r = Raise e)
  ∨ ∃ tools req,
      _get_tools_from_clients (server_scripts_of arg) (r_host s, r_world s)
      = (Ok tools, (r_host s', r_world s'))
      ∧ r_requests s' = r_requests s ++ [req]
      ∧ req_api_key req = llm_client (r_attrs s)
      ∧ req_model req = model (r_attrs s)
      ∧ req_tool_choice req = "auto"
      ∧ req_tools req = openai_tools (w_heap (r_world s')) tools
      ∧ (req_messages req = [{| role := "user"; content := q |}]
         ∧ (system_prompt (r_attrs s) = None
            ∨ system_prompt (r_attrs s) = Some "")
         ∨ ∃ p, system_prompt (r_attrs s) = Some p ∧ p ≠ ""
             ∧ req_messages req = [{| role := "system"; content := p |};
                                   {| role := "user"; content := q |}]).
Proof.
  intros (s0 & rm & h & w & Hc & Hm & Hh & Hw & Hrm)%run_experiment_cases.
  destruct (check_flags_frame (server_scripts_of arg) s)
    as (s0' & Hc' & _ & _ & _ & _ & _ & _ & Hl0 & Hr0 & _).
  rewrite Hc in Hc'. injection Hc' as <-.
  destruct rm as [tools|e].
  - destruct Hrm as ([[]|e] & s2 & Hp & Hrp);
      apply print_server_info_once_frame in Hp
        as (_ & _ & Hl2 & Hr2 & _); simpl in *.
    + right. destruct Hrp as (ra & llm' & Hllm & Hs' & Hr).
      exists tools, (completion_request_of (r_attrs s) (w_heap w) tools q).
      rewrite Hh, Hw. split; [done|].
      rewrite Hs'. simpl. split; [done|].
      split; [done|]. split; [done|]. split; [done|]. split; [done|].
      unfold build_messages.
      destruct (system_prompt (r_attrs s)) as [[|c p]|]; simpl;
        [left; eauto|right|left; eauto].
      eexists. split; [done|]. done.
    + left. destruct Hrp as [-> Hs']. rewrite Hs', Hl2, Hr2. eauto.
  - left. destruct Hrm as [-> Hs']. rewrite Hs'. simpl. eauto.
Qed.

(** *** No tool is run *)

(** X20.  The host chooses, it does not run: however they end, neither
    [run_experiment] nor [cleanup] makes the SDK invoke a tool. *)
Theorem host_never_invokes_a_tool :
  (∀ q arg (s s' : rstate) r,
     run_experiment q arg s = (r, s') →
     tool_invocations (w_log (r_world s'))
     = tool_invocations (w_log (r_world s)))
  ∧ (∀ (h h' : ResearchHost) (w w' : World) r,
       cleanup (h, w) = (r, (h', w')) →
       tool_invocations (w_log w') = tool_invocations (w_log w)).
Proof.
  split.
  - intros q arg s s' r
      (s0 & rm & h & w & _ & Hm & _ & Hw & _)%run_experiment_cases.
    rewrite Hw. by apply get_tools_from_clients_no_tool_call in Hm.
  - intros h h' w w' r (evs & -> & Hevs)%host_cleanup_lifecycle.
    rewrite tool_invocations_app, (tool_invocations_none evs).
    + by rewrite app_nil_r.
    + by apply lifecycle_no_tool_call.
Qed.

(** *** The registry under [run_experiment] *)

(** X21.  [run_experiment] never drops a client from the registry, whether
    it returns or raises (so a failed run leaves its clients for [cleanup]
    to close): from a state the host can reach it leaves a state of that
    kind, in which every script that was registered still is, every catalog
    that was merged still is, with the same dictionaries and with its client
    still passing the guard, and no key but [_server] of an existing
    dictionary has changed. *)
Theorem run_experiment_keeps_the_registry q arg (s s' : rstate) r :
  host_inv (r_host s) (r_world s) →
  run_experiment q arg s = (r, s') →
  host_inv (r_host s') (r_world s')
  ∧ evolves (r_host s, r_world s) (r_host s', r_world s').
Proof.
  intros Hinv
    (s0 & rm & h & w & _ & Hm & Hh & Hw & _)%run_experiment_cases.
  rewrite Hh, Hw.
  apply get_tools_from_clients_spec in Hm as (? & ? & _); done.
Qed.

(** *** What is printed, and when *)

Lemma join_values_strs sep (names : list string) :
  join_values sep (PStr <$> names) = Ok (str_join sep names).
Proof.
  unfold join_values. by rewrite first_non_str_strs, pyval_strs_strs.
Qed.

Lemma mapping_block_merged scripts (h : ResearchHost) (w : World) :
  (∀ sc, sc ∈ scripts → merged sc h w) →
  mapping_block (mcp_clients h) scripts
  = flat_map (λ sc, [OutServer sc; OutClientInstance sc;
                     OutClientStatus true; OutBlank]) scripts.
Proof.
  unfold mapping_block. induction scripts as [|sc scripts IH]; intros H;
    [done|].
  simpl. rewrite IH by (intros ? ?; apply H; by right).
  destruct (H sc) as (c & ls & -> & [Hi _]%connected_iff & _); [by left|].
  by rewrite Hi.
Qed.

(** The print block after a merge, in a state the host can reach. *)
Lemma print_server_info_once_merged scripts (s : rstate) :
  host_inv (r_host s) (r_world s) →
  (∀ sc, sc ∈ scripts → merged sc (r_host s) (r_world s)) →
  ∃ names,
    tool_names (w_heap (r_world s)) (flat_map (cache_of (r_host s)) scripts)
    = PStr <$> names
    ∧ print_server_info_once scripts
        (flat_map (cache_of (r_host s)) scripts) s
      = if _has_printed_server_info (r_attrs s) then (Ok tt, s)
        else
          (Ok tt,
           set_attrs (set_has_printed_server_info true (r_attrs s))
             (set_stdout
                (r_stdout s
                 ++ flat_map (λ sc, [OutServer sc; OutClientInstance sc;
                                     OutClientStatus true; OutBlank]) scripts
                 ++ [OutToolAvailable (str_join ", " names)]) s)).
Proof.
  intros Hinv Hmerged.
  destruct (tool_names_descriptors (w_heap (r_world s))
              (flat_map (cache_of (r_host s)) scripts)) as [names Hn].
  { by apply merged_cache_descriptors. }
  exists names. split; [done|].
  rewrite print_server_info_once_spec.
  destruct (_has_printed_server_info (r_attrs s)); [done|].
  simpl. rewrite Hn, join_values_strs.
  rewrite (mapping_block_merged scripts _ _ Hmerged).
  unfold set_stdout, set_attrs. simpl. by rewrite <- app_assoc.
Qed.

(** X22.  In a state the host can reach, after a [run_experiment] that
    returned, a later run that requests no script beyond those of that run
    reuses the connections and the catalogs: it makes no SDK call and
    creates no dictionary, whatever the model answers, and it does ask the
    model.  When it requests the same scripts (in any order) it prints
    nothing: the server information is printed once per configuration. *)
Theorem later_runs_reuse_the_connections q1 arg1 (s s1 : rstate) result1
    q2 arg2 (s2 : rstate) r2 :
  host_inv (r_host s) (r_world s) →
  run_experiment q1 arg1 s = (Ok result1, s1) →
  (∀ x, x ∈ server_scripts_of arg2 → x ∈ server_scripts_of arg1) →
  run_experiment q2 arg2 s1 = (r2, s2) →
  r_host s2 = r_host s1 ∧ r_world s2 = r_world s1
  ∧ (∃ req, r_requests s2 = r_requests s1 ++ [req])
  ∧ (server_scripts_of arg2 ≡ₚ server_scripts_of arg1 →
     r_stdout s2 = r_stdout s1).
Proof.
  intros Hinv (completion & Hinv1 & Hmerged & _ & Hflag & Hlast)
           %run_experiment_ok_merged Hsub Hrun; [|done].
  assert (∀ sc, sc ∈ server_scripts_of arg2 →
            merged sc (r_host s1) (r_world s1)) as Hmerged2 by auto.
  apply run_experiment_cases in Hrun
    as (s0 & rm & h & w & Hc & Hm & Hh & Hw & Hrm).
  rewrite get_tools_from_clients_merged in Hm by done.
  injection Hm as <- <- <-.
  destruct (check_flags_frame (server_scripts_of arg2) s1)
    as (s0' & Hc' & _ & _ & _ & _ & Hh0 & Hw0 & _ & _ & Hout0).
  rewrite Hc in Hc'. injection Hc' as <-.
  destruct Hrm as (rp & s3 & Hp & Hrp).
  assert (set_registry (r_host s1) (r_world s1) s0 = s0) as Hs0.
  { rewrite <- Hh0, <- Hw0. by destruct s0. }
  rewrite Hs0 in Hp.
  destruct (print_server_info_once_merged (server_scripts_of arg2) s0)
    as (names & _ & Hp'); [by rewrite Hh0, Hw0..|].
  rewrite Hh0 in Hp'. rewrite Hp' in Hp.
  split; [done|]. split; [done|].
  assert (rp = Ok tt) as ->
    by (by destruct (_has_printed_server_info (r_attrs s0)); simplify_eq).
  destruct Hrp as (ra & llm' & _ & Hs2 & _).
  split.
  { rewrite Hs2. simpl. eauto. }
  intros Hperm. rewrite Hs2. simpl.
  rewrite check_flags_same in Hc
    by (rewrite Hlast; f_equal; symmetry; by apply sorted_eq_iff).
  injection Hc as <-. rewrite Hflag in Hp. by injection Hp as <-.
Qed.

(** X23.  In a state the host can reach, [run_experiment] raises only for
    one of four reasons: a requested script could not be connected or did
    not answer [list_tools] (the error of the merge, and the model is not
    asked); the request to the model raised; the model returned no choice
    (an [IndexError]); or the arguments of one of the tool calls of the
    first choice could not be parsed, in which case the parse error is
    raised and no result is returned, although the model was asked. *)
Theorem run_experiment_failure_causes q arg (s s' : rstate) e :
  host_inv (r_host s) (r_world s) →
  run_experiment q arg s = (Raise e, s') →
  (∃ h w,
     _get_tools_from_clients (server_scripts_of arg) (r_host s, r_world s)
     = (Raise e, (h, w))
     ∧ r_requests s' = r_requests s)
  ∨ ∃ req ra,
      r_requests s' = r_requests s ++ [req]
      ∧ chat_completions_create req (r_llm s) = (ra, r_llm s')
      ∧ match ra with
        | Raise e' => e' = e
        | Ok completion =>
            match choices completion with
            | [] => e = IndexError
            | message :: _ =>
                ∃ call, call ∈ default [] (msg_tool_calls message)
                        ∧ _extract_tool_call_info call = Raise e
            end
        end.
Proof.
  intros Hinv
    (s0 & rm & h & w & Hc & Hm & Hh & Hw & Hrm)%run_experiment_cases.
  destruct (check_flags_frame (server_scripts_of arg) s)
    as (s0' & Hc' & _ & _ & _ & _ & _ & _ & _ & Hr0 & _).
  rewrite Hc in Hc'. injection Hc' as <-.
  destruct rm as [tools|e0].
  - right.
    apply get_tools_from_clients_spec in Hm as (Hinv' & _ & Hall); [|done].
    destruct (Hall tools eq_refl) as [-> Hmerged].
    destruct Hrm as (rp & s2 & Hp & Hrp).
    destruct (print_server_info_once_merged (server_scripts_of arg)
                (set_registry h w s0)) as (names & _ & Hp'); [done..|].
    simpl in Hp'. rewrite Hp' in Hp.
    assert (rp = Ok tt) as ->
      by (by destruct (_has_printed_server_info (r_attrs s0)); simplify_eq).
    destruct Hrp as (ra & llm' & Hllm & Hs' & Hr).
    eexists _, ra. rewrite Hs'. simpl. split; [done|]. split; [exact Hllm|].
    destruct ra as [completion|e']; [|by simplify_eq].
    symmetry in Hr. unfold analyse_completion in Hr.
    destruct (choices completion) as [|message rest]; [by simplify_eq|].
    rewrite (display_server_strs _ _ _
               (merged_tags (server_scripts_of arg) h w Hmerged)) in Hr.
    destruct (msg_tool_calls message) as [[|call calls]|]; [done| |done].
    by apply record_tool_calls_raise in Hr.
  - left. destruct Hrm as [[= ->] Hs']. exists h, w. split; [done|].
    by rewrite Hs'.
Qed.

(** X24.  In a state the host can reach, a [run_experiment] that returns
    has printed the server information when the print flag was off or the
    requested scripts were not those of the previous request, and nothing
    otherwise.  The information is, for every requested script in the
    order of the request, its four lines, with the status "Connected", and
    then one line with the names of all tools of the merged catalog, which
    are the [available_tools] of the result. *)
Theorem run_experiment_prints_the_server_info q arg (s s' : rstate) result :
  host_inv (r_host s) (r_world s) →
  run_experiment q arg s = (Ok result, s') →
  let scripts := server_scripts_of arg in
  ∃ names,
    available_tools result = PStr <$> names
    ∧ r_stdout s'
      = r_stdout s
        ++ (if bool_decide (_has_printed_server_info (r_attrs s) = true
                            ∧ _last_server_script (r_attrs s)
                              = Some (sorted scripts))
            then []
            else flat_map (λ sc, [OutServer sc; OutClientInstance sc;
                                  OutClientStatus true; OutBlank]) scripts
                 ++ [OutToolAvailable (str_join ", " names)]).
Proof.
  intros Hinv Hrun scripts.
  apply run_experiment_cases in Hrun
    as (s0 & rm & h & w & Hc & Hm & Hh & Hw & Hrm).
  fold scripts in Hc, Hm.
  destruct rm as [tools|e0]; [|by destruct Hrm].
  apply get_tools_from_clients_spec in Hm as (Hinv' & _ & Hall); [|done].
  destruct (Hall tools eq_refl) as [-> Hmerged].
  destruct Hrm as (rp & s2 & Hp & Hrp).
  destruct (print_server_info_once_merged scripts (set_registry h w s0))
    as (names & Hn & Hp'); [done..|].
  simpl in Hp', Hn. fold scripts in Hp. rewrite Hp' in Hp.
  assert (rp = Ok tt) as ->
    by (by destruct (_has_printed_server_info (r_attrs s0)); simplify_eq).
  destruct Hrp as ([completion|e'] & llm' & Hllm & Hs' & Hr); [|done].
  symmetry in Hr.
  apply analyse_completion_ok in Hr
    as (message & rest & ds & _ & _ & _ & Hav & _).
  exists names. split; [by rewrite Hav|].
  rewrite Hs'. simpl.
  destruct (decide (_last_server_script (r_attrs s) = Some (sorted scripts)))
    as [E|E].
  - rewrite check_flags_same in Hc by done. injection Hc as <-.
    destruct (_has_printed_server_info (r_attrs s)) eqn:Hf.
    + rewrite bool_decide_true by done.
      injection Hp as <-. by rewrite app_nil_r.
    + rewrite bool_decide_false by (by intros [? ?]).
      by injection Hp as <-.
  - rewrite bool_decide_false by (by intros [? ?]).
    rewrite check_flags_changed in Hc by done. injection Hc as <-.
    simpl in Hp. by injection Hp as <-.
Qed.

(** *** [print_result] *)

(** What [print_result] writes for the model's choice, as the code finds
    it: the first entry of [tool_calls] with the name of the selected
    tool. *)
Lemma print_result_spec result (s : rstate) :
  let printed := _has_printed_separator (r_attrs s) in
  print_result result s
  = (Ok tt,
     set_attrs
       (if printed then r_attrs s
        else set_has_printed_separator true (r_attrs s))
       (set_stdout
          (r_stdout s ++ header_lines printed
           ++ [OutUserQuery (user_query result)]
           ++ match selected_tool result with
              | Some tool =>
                  if str_truthy tool then
                    OutChoose tool
                    :: match List.find
                               (λ info, bool_decide (tci_tool_name info = tool))
                               (tool_calls result) with
                       | Some info => [OutToolFromServer (tci_server info)]
                       | None => []
                       end
                  else [OutNoTool]
              | None => [OutNoTool]
              end
           ++ response_lines result ++ [OutRule]) s)).
Proof.
  unfold print_result, response_lines, header_lines.
  destruct s as [[key m prompt last_key info sep] h w llm reqs out].
  unfold bind, attr_get, attr_set, print, gets, modify, ret,
    set_attrs, set_stdout. simpl.
  destruct sep; simpl;
    destruct (selected_tool result) as [[|c t]|]; simpl;
    try destruct (List.find _ _); simpl;
    destruct (llm_response result) as [[|c' t']|]; simpl;
    repeat rewrite <- app_assoc; simpl; done.
Qed.

Lemma find_same_server (F : string → option pyval)
    (l : list tool_call_info) (li : tool_call_info) :
  Forall (λ i, tci_server i = F (tci_tool_name i)) l →
  last l = Some li →
  ∃ i0, List.find (λ i, bool_decide (tci_tool_name i = tci_tool_name li)) l
        = Some i0
        ∧ tci_server i0 = tci_server li.
Proof.
  intros Hall Hlast. apply last_Some_elem_of in Hlast.
  destruct (List.find _ l) as [i0|] eqn:Hf.
  - exists i0. split; [done|].
    apply find_some in Hf as [Hin Hn]. apply bool_decide_eq_true in Hn.
    apply list_elem_of_In in Hin.
    assert (tci_server i0 = F (tci_tool_name i0)) as ->
      by (by eapply Forall_forall in Hall).
    assert (tci_server li = F (tci_tool_name li)) as ->
      by (by eapply Forall_forall in Hall).
    by rewrite Hn.
  - exfalso. eapply find_none in Hf; [|by apply list_elem_of_In].
    simpl in Hf. by rewrite bool_decide_true in Hf.
Qed.

(** X25.  [print_result] on the result of a [run_experiment] that
    returned: the header when it has not been written since the last change
    of configuration, the query, then the model's choice, its comment when
    it made one, and a rule.  The choice shown is the last tool call of the
    result with the server recorded for it (there is exactly one such line,
    also when the model called that tool several times); for a tool with
    the empty name, as for no tool call, the line says that the model chose
    no tool. *)
Theorem print_result_shows_the_last_call q arg (s s1 : rstate) result :
  run_experiment q arg s = (Ok result, s1) →
  ∃ s2, print_result result s1 = (Ok tt, s2)
    ∧ r_stdout s2
      = r_stdout s1 ++ header_lines (_has_printed_separator (r_attrs s1))
        ++ [OutUserQuery q] ++ choice_lines result
        ++ response_lines result ++ [OutRule]
    ∧ _has_printed_separator (r_attrs s2) = true
    ∧ r_host s2 = r_host s1 ∧ r_world s2 = r_world s1
    ∧ r_requests s2 = r_requests s1 ∧ r_llm s2 = r_llm s1.
Proof.
  intros (s0 & rm & h & w & _ & _ & _ & _ & Hrm)%run_experiment_cases.
  destruct rm as [tools|e]; [|by destruct Hrm].
  destruct Hrm as ([[]|e] & s2 & _ & Hrp); [|by destruct Hrp].
  destruct Hrp as ([completion|e] & llm' & _ & _ & Hr); [|done].
  symmetry in Hr.
  apply analyse_completion_ok in Hr
    as (message & rest & ds & _ & _ & Hq & _ & _ & _ & _ & Hsrv & Hsel & _).
  eexists. split; [apply print_result_spec|]. simpl.
  split.
  - rewrite Hq. do 3 f_equal. f_equal. unfold choice_lines.
    rewrite Hsel, fmap_last.
    destruct (last (tool_calls result)) as [li|] eqn:Hlast; [|done].
    destruct (find_same_server _ _ _ Hsrv Hlast) as (i0 & Hf & Hs0).
    cbn [fmap option_fmap option_map]. rewrite Hf, Hs0. done.
  - by destruct (_has_printed_separator (r_attrs s1)) eqn:E.
Qed.

Lemma count_lines_app f (out1 out2 : list out_line) :
  count_lines f (out1 ++ out2) = count_lines f out1 + count_lines f out2.
Proof. unfold count_lines. by rewrite filter_app, length_app. Qed.

Lemma set_has_printed_separator_same (a : HostAttrs) :
  _has_printed_separator a = true → set_has_printed_separator true a = a.
Proof. destruct a. simpl. by intros ->. Qed.

Lemma print_result_step result (s : rstate) :
  ∃ s' rest,
    print_result result s = (Ok tt, s')
    ∧ r_attrs s' = set_has_printed_separator true (r_attrs s)
    ∧ r_stdout s'
      = r_stdout s ++ header_lines (_has_printed_separator (r_attrs s))
        ++ rest
    ∧ count_lines is_results_line rest = 0
    ∧ count_lines is_query_line rest = 1
    ∧ r_host s' = r_host s ∧ r_world s' = r_world s
    ∧ r_requests s' = r_requests s ∧ r_llm s' = r_llm s.
Proof.
  eexists _, _. split; [apply print_result_spec|]. simpl.
  split; [|split; [reflexivity|]].
  { destruct (_has_printed_separator (r_attrs s)) eqn:E; [|done].
    by rewrite set_has_printed_separator_same. }
  unfold response_lines.
  split; [|split; [|done]];
    destruct (selected_tool result) as [[|c t]|]; simpl;
    try destruct (List.find _ _); simpl;
    destruct (llm_response result) as [[|c' t']|]; simpl;
    unfold count_lines; simpl; lia.
Qed.

(** X26.  When results that hold the keys [run_experiment] writes have
    been printed one after the other, nothing but standard output and the
    separator flag was written: the registry, the world, the endpoint and
    every other attribute of the host are as before, standard output was
    only appended to, and the flag is on once a result was printed.  However
    many results were printed, the "Results" header was written at most
    once, before everything else and only when the flag was off, while every
    result got its query line. *)
Theorem print_result_writes_the_header_once
    (results : list experiment_result) (s s' : rstate) :
  for_each results print_result s = (Ok tt, s') →
  r_attrs s'
    = match results with
      | [] => r_attrs s
      | _ => set_has_printed_separator true (r_attrs s)
      end
  ∧ (∃ rest,
       r_stdout s'
       = r_stdout s
         ++ match results with
            | [] => []
            | _ => header_lines (_has_printed_separator (r_attrs s))
            end
         ++ rest
       ∧ count_lines is_results_line rest = 0
       ∧ count_lines is_query_line rest = length results)
  ∧ r_host s' = r_host s ∧ r_world s' = r_world s
  ∧ r_requests s' = r_requests s ∧ r_llm s' = r_llm s.
Proof.
  revert s. induction results as [|result results IH]; intros s.
  - simpl. unfold ret. intros [= <-]. split; [done|].
    split; [|done]. exists []. by rewrite !app_nil_r.
  - destruct (print_result_step result s)
      as (s1 & rest1 & H1 & Ha1 & Ho1 & Hr1 & Hq1 & ? & ? & ? & ?).
    rewrite for_each_cons. unfold bind. rewrite H1.
    intros (Ha & (rest & Ho & Hr & Hq) & ? & ? & ? & ?)%IH.
    split.
    { rewrite Ha, Ha1. by destruct results. }
    split; [|repeat split; congruence].
    assert (header_lines (_has_printed_separator (r_attrs s1)) = [])
      as Hh by (by rewrite Ha1).
    exists (rest1 ++ rest). rewrite Ho, Ho1, !count_lines_app, Hr1, Hq1, Hr, Hq.
    split; [|split; [done|simpl; lia]].
    rewrite <- !app_assoc. do 2 f_equal.
    destruct results; [done|]. by rewrite Hh.
Qed.

End ExperimentFacts.

(** * More of the code: [test_system.py] *)

Section TestFacts.
Context `{sdk : SDK} `{platform : Platform}.

(** *** [test_client] *)

Lemma cleanup_fresh (c c' : MCPClient) (w w' : World) :
  client_inv c → _cleanup (c, w) = (Ok tt, (c', w')) →
  c' = MCPClient_init (server_script c).
Proof.
  intros [H1 H2] ->%cleanup_ok_inv.
  unfold torn_down, MCPClient_init. f_equal.
  destruct (_session_context c) eqn:Hc; [done|].
  destruct (_session c) eqn:Hs; [|done].
  destruct H1 as [? ?]; [eauto|done].
Qed.

Lemma cleanup_raise_class (c c' : MCPClient) (w w' : World) e :
  _cleanup (c, w) = (Raise e, (c', w')) → isinstance_Exception e = false.
Proof.
  intros (rel & _ & _ & He)%cleanup_log.
  destruct (isinstance_Exception e) eqn:E; [|done].
  apply isinstance_Exception_cleanup_tuple in E. congruence.
Qed.

Lemma client_inv_init script : client_inv (MCPClient_init script).
Proof. split; intros [? ?]; done. Qed.

Lemma client_inv_set_tools_cache v (c : MCPClient) :
  client_inv c → client_inv (set_tools_cache v c).
Proof. done. Qed.

Lemma announced_app (out1 out2 : list out_line) :
  announced (out1 ++ out2) = announced out1 ++ announced out2.
Proof. unfold announced. apply omap_app. Qed.

Lemma tstate_eta (t : tstate) :
  {| t_client := t_client t; t_world := t_world t; t_stdout := t_stdout t |}
  = t.
Proof. by destruct t. Qed.

(** The lines for the tools: nothing but standard output changes, and no
    server is announced. *)
Lemma print_tools_spec tools : ∀ t : tstate,
  ∃ lines, for_each tools print_tool t
           = (Ok tt, {| t_client := t_client t; t_world := t_world t;
                        t_stdout := t_stdout t ++ lines |})
           ∧ announced lines = [].
Proof.
  induction tools as [|tool tools IH]; intros t.
  - exists []. simpl. unfold ret. by rewrite app_nil_r, tstate_eta.
  - rewrite for_each_cons. unfold bind at 1.
    unfold print_tool at 1. unfold bind, gets, tprint, modify. simpl.
    destruct (IH {| t_client := t_client t; t_world := t_world t;
                    t_stdout := (t_stdout t ++ [OutTool
                      (tool_get_default (w_heap (t_world t)) tool "name"
                         (PStr "N/A"))
                      (tool_get_default (w_heap (t_world t)) tool
                         "description" (PStr "N/A"))])
                      ++ [OutToolSchema
                            (tool_get_default (w_heap (t_world t)) tool
                               "inputSchema" (PStr "N/A"))] |})
      as (lines & -> & Hl).
    simpl. eexists (_ :: _ :: lines). rewrite <- !app_assoc. simpl.
    split; [done|]. exact Hl.
Qed.

(** The [except] clause of [test_client]. *)
Lemma test_client_handler_spec (e : exn) (t t' : tstate) r :
  client_inv (t_client t) →
  (tprint (OutConnectFailed (exn_str e));;;
   try_except (on_test_client disconnect) isinstance_Exception
     (λ _, ret tt)) t = (r, t') →
  (∀ e', r = Raise e' → isinstance_Exception e' = false)
  ∧ (r = Ok tt → t_client t' = MCPClient_init (server_script (t_client t)))
  ∧ server_script (t_client t') = server_script (t_client t)
  ∧ (∃ lines, t_stdout t' = t_stdout t ++ lines ∧ announced lines = [])
  ∧ tool_invocations (w_log (t_world t'))
    = tool_invocations (w_log (t_world t)).
Proof.
  intros Hinv. unfold bind, tprint, modify, try_except, on_test_client,
    disconnect. simpl.
  destruct (_cleanup (t_client t, t_world t)) as [[[]|e1] [c1 w1]] eqn:Hc.
  - intros ?; simplify_eq. simpl.
    pose proof Hc as (Hs & _)%cleanup_frame.
    pose proof Hc as (evs & Hlog & Hevs)%cleanup_lifecycle.
    apply cleanup_fresh in Hc; [|done].
    split; [done|]. split; [done|]. split; [done|].
    split; [by eexists [_]|].
    rewrite Hlog, tool_invocations_app, (tool_invocations_none evs).
    + by rewrite app_nil_r.
    + by apply lifecycle_no_tool_call.
  - pose proof Hc as (Hs & _)%cleanup_frame.
    pose proof Hc as (evs & Hlog & Hevs)%cleanup_lifecycle.
    apply cleanup_raise_class in Hc. rewrite Hc.
    intros ?; simplify_eq. simpl.
    split; [by intros ? [= <-]|]. split; [done|]. split; [done|].
    split; [by eexists [_]|].
    rewrite Hlog, tool_invocations_app, (tool_invocations_none evs).
    + by rewrite app_nil_r.
    + by apply lifecycle_no_tool_call.
Qed.

Lemma tool_invocations_same (log evs : list event) :
  Forall (λ ev, is_tool_call ev = false) evs →
  tool_invocations (log ++ evs) = tool_invocations log.
Proof.
  intros H. by rewrite tool_invocations_app, (tool_invocations_none evs),
    app_nil_r.
Qed.

(** An iteration of the loop of [test_client]. *)
Lemma test_client_iteration_spec script (t t' : tstate) r :
  test_client_iteration script t = (r, t') →
  (∀ e, r = Raise e → isinstance_Exception e = false)
  ∧ (r = Ok tt → t_client t' = MCPClient_init script)
  ∧ server_script (t_client t') = script
  ∧ (∃ lines, t_stdout t'
              = t_stdout t ++ [OutTestServer script; OutDashes] ++ lines
              ∧ announced lines = [])
  ∧ tool_invocations (w_log (t_world t'))
    = tool_invocations (w_log (t_world t)).
Proof.
  unfold test_client_iteration.
  unfold bind at 1. unfold tprint at 1. unfold modify at 1.
  unfold bind at 1. unfold tprint at 1. unfold modify at 1.
  unfold bind at 1. unfold modify at 1. cbn [t_client t_world t_stdout].
  unfold try_except.
  unfold bind at 1. unfold on_test_client at 1.
  cbn [t_client t_world t_stdout].
  destruct (connect (MCPClient_init script, t_world t))
    as [[[]|e1] [c1 w1]] eqn:Hconn.
  - (* connected *)
    pose proof Hconn as Hinv1%connect_client_inv; [|apply client_inv_init].
    pose proof Hconn as (evs1 & Hlog1 & Hevs1%lifecycle_no_tool_call)
      %connect_lifecycle.
    pose proof Hconn as (_ & _ & Hs1)%connect_new_ok.
    unfold bind at 1. unfold on_test_client at 1.
    cbn [t_client t_world t_stdout].
    destruct (get_tools (c1, w1)) as [[tools|e2] [c2 w2]] eqn:Hget.
    + pose proof Hget as Hc2%get_tools_client.
      pose proof Hget as (evs2 & Hlog2 & Hevs2)%get_tools_no_tool_call.
      assert (client_inv c2) as Hinv2 by (by rewrite Hc2).
      assert (server_script c2 = script) as Hs2 by (by rewrite Hc2).
      unfold bind at 1. unfold tprint at 1. unfold modify at 1.
      cbn [t_client t_world t_stdout].
      unfold bind at 1.
      match goal with |- context [for_each tools print_tool ?t0] =>
        destruct (print_tools_spec tools t0) as (lines & -> & Hlines) end.
      cbn [t_client t_world t_stdout].
      unfold bind at 1. unfold tprint at 1. unfold modify at 1.
      cbn [t_client t_world t_stdout].
      unfold on_test_client, disconnect. cbn [t_client t_world t_stdout].
      destruct (_cleanup (c2, w2)) as [[[]|e3] [c3 w3]] eqn:Hc.
      * pose proof Hc as (Hs3 & _)%cleanup_frame.
        pose proof Hc as (evs3 & Hlog3 & Hevs3%lifecycle_no_tool_call)
          %cleanup_lifecycle.
        apply cleanup_fresh in Hc; [|done].
        intros ?; simplify_eq. cbn [t_client t_world t_stdout].
        split; [done|]. split; [by rewrite Hs2|]. split; [congruence|].
        split.
        { eexists (_ :: lines ++ [_]). rewrite <- !app_assoc.
          split; [done|]. cbn. rewrite announced_app, Hlines. done. }
        rewrite Hlog3, Hlog2, Hlog1. by rewrite !tool_invocations_same.
      * pose proof Hc as (Hs3 & _)%cleanup_frame.
        pose proof Hc as (evs3 & Hlog3 & Hevs3%lifecycle_no_tool_call)
          %cleanup_lifecycle.
        apply cleanup_raise_class in Hc. rewrite Hc.
        intros ?; simplify_eq. cbn [t_client t_world t_stdout].
        split; [by intros ? [= <-]|]. split; [done|]. split; [congruence|].
        split.
        { eexists (_ :: lines ++ [_]). rewrite <- !app_assoc.
          split; [done|]. cbn. rewrite announced_app, Hlines. done. }
        rewrite Hlog3, Hlog2, Hlog1. by rewrite !tool_invocations_same.
    + pose proof Hget as Hc2%get_tools_client.
      pose proof Hget as (evs2 & Hlog2 & Hevs2)%get_tools_no_tool_call.
      assert (client_inv c2) as Hinv2 by (by rewrite Hc2).
      assert (server_script c2 = script) as Hs2 by (by rewrite Hc2).
      destruct (isinstance_Exception e2) eqn:Hcls.
      * intros (Hr & Hfresh & Hscr & (lines & Hout & Hlines) & Hti)
          %test_client_handler_spec; [|done].
        cbn [t_client t_world t_stdout] in *.
        split; [done|]. split; [by rewrite <- Hs2|].
        split; [congruence|]. split.
        { exists lines. rewrite Hout. by rewrite <- !app_assoc. }
        rewrite Hti, Hlog2, Hlog1. by rewrite !tool_invocations_same.
      * intros ?; simplify_eq. cbn [t_client t_world t_stdout].
        split; [by intros ? [= <-]|]. split; [done|]. split; [done|].
        split; [exists []; by rewrite <- !app_assoc|].
        rewrite Hlog2, Hlog1. by rewrite !tool_invocations_same.
  - (* [connect] raised *)
    pose proof Hconn as Hinv1%connect_client_inv; [|apply client_inv_init].
    pose proof Hconn as (evs1 & Hlog1 & Hevs1%lifecycle_no_tool_call)
      %connect_lifecycle.
    pose proof Hconn as (Hs1 & _)%connect_raise_inv. simpl in Hs1.
    destruct (isinstance_Exception e1) eqn:Hcls.
    + intros (Hr & Hfresh & Hscr & (lines & Hout & Hlines) & Hti)
        %test_client_handler_spec; [|done].
      cbn [t_client t_world t_stdout] in *.
      split; [done|]. split; [by rewrite <- Hs1|].
      split; [congruence|]. split.
      { exists lines. rewrite Hout. by rewrite <- !app_assoc. }
      rewrite Hti, Hlog1. by rewrite !tool_invocations_same.
    + intros ?; simplify_eq. cbn [t_client t_world t_stdout].
      split; [by intros ? [= <-]|]. split; [done|]. split; [done|].
      split; [exists []; by rewrite <- !app_assoc|].
      rewrite Hlog1. by rewrite !tool_invocations_same.
Qed.

(** The walk of [test_client] over a list of servers. *)
Lemma test_client_loop scripts : ∀ (w w' : World) (out out' : list out_line) r,
  for_each scripts test_client_step (w, out) = (r, (w', out')) →
  (∀ e, r = Raise e → isinstance_Exception e = false)
  ∧ (r = Ok tt → announced out' = announced out ++ scripts)
  ∧ (∃ k, announced out' = announced out ++ take k scripts)
  ∧ tool_invocations (w_log w') = tool_invocations (w_log w).
Proof.
  induction scripts as [|script scripts IH]; intros w w' out out' r.
  - simpl. unfold ret. intros ?; simplify_eq. rewrite app_nil_r.
    split; [done|]. split; [done|]. split; [|done].
    exists 0. by rewrite app_nil_r.
  - rewrite for_each_cons. unfold bind. unfold test_client_step at 1.
    cbn [fst snd].
    destruct (test_client_iteration script _) as [r1 t1] eqn:Hit.
    apply test_client_iteration_spec in Hit
      as (Hr & _ & _ & (lines & Hout & Hlines) & Hti).
    cbn [t_client t_world t_stdout] in *.
    assert (announced (t_stdout t1) = announced out ++ [script]) as Hann.
    { rewrite Hout, !announced_app, Hlines. by rewrite app_nil_r. }
    destruct r1 as [[]|e].
    + intros (Hr' & Hok & (k & Hk) & Hti')%IH.
      split; [done|]. rewrite Hti', Hti.
      split; [|split; [|done]].
      * intros ->. rewrite Hok, Hann; [|done]. by rewrite <- app_assoc.
      * exists (S k). rewrite Hk, Hann. by rewrite <- app_assoc.
    + intros ?; simplify_eq.
      split; [intros ? [= <-]; by apply Hr|]. split; [done|].
      split; [|done]. exists 1. by rewrite Hann.
Qed.

(** *** [test_host]: how often a server is started *)

Lemma spawns_app script (l1 l2 : list event) :
  spawns script (l1 ++ l2) = spawns script l1 + spawns script l2.
Proof. unfold spawns. by rewrite filter_app, length_app. Qed.

Lemma spawns_none script (evs : list event) :
  Forall (λ ev, ev.2 ≠ CallStdioClient) evs → spawns script evs = 0.
Proof.
  unfold spawns. induction 1 as [|ev evs Hev _ IH]; [done|].
  rewrite filter_cons. destruct (decide _) as [->|]; [|done]. done.
Qed.

Lemma spawns_same script (log evs : list event) :
  Forall (λ ev, ev.2 ≠ CallStdioClient) evs →
  spawns script (log ++ evs) = spawns script log.
Proof. intros H. rewrite spawns_app, (spawns_none _ evs) by done. lia. Qed.

Lemma release_calls_no_spawn (c : MCPClient) :
  Forall (λ ev, ev.2 ≠ CallStdioClient) (release_calls c).
Proof.
  unfold release_calls.
  destruct (_session_context c), (_stdio_context c); by repeat constructor.
Qed.

Lemma cleanup_no_spawn (c c' : MCPClient) (w w' : World) (r : res unit) :
  _cleanup (c, w) = (r, (c', w')) →
  ∃ evs, w_log w' = w_log w ++ evs
         ∧ Forall (λ ev, ev.2 ≠ CallStdioClient) evs.
Proof.
  intros (rel & Hlog & [k Hk] & _)%cleanup_log.
  exists rel. split; [done|].
  pose proof (release_calls_no_spawn c) as H. rewrite Hk in H.
  by apply Forall_app in H as [? _].
Qed.

Lemma spawns_connect_calls script script0 k :
  1 ≤ k →
  spawns script (take k (connect_calls script0))
  = if decide (script = script0) then 1 else 0.
Proof.
  intros Hk. destruct k as [|k]; [lia|].
  unfold connect_calls. rewrite firstn_cons.
  change (?x :: ?l) with ([x] ++ l). rewrite spawns_app.
  rewrite (spawns_none _ (take k _)).
  - unfold spawns. rewrite filter_cons, filter_nil.
    destruct (decide (script = script0)) as [->|Hne].
    + by rewrite decide_True.
    + rewrite decide_False; [done|]. by intros [= ->].
  - apply Forall_take. by repeat constructor.
Qed.

(** [connect] on a new client starts its server once, whatever follows. *)
Lemma connect_new_spawns script0 (c' : MCPClient) (w w' : World) r :
  connect (MCPClient_init script0, w) = (r, (c', w')) →
  ∀ script,
    spawns script (w_log w')
    = spawns script (w_log w) + (if decide (script = script0) then 1 else 0).
Proof.
  unfold connect, bind at 1, self_get, gets. simpl. unfold try_except.
  destruct (connect_body (MCPClient_init script0, w))
    as [[[]|e] [c1 w1]] eqn:Hb;
    apply connect_body_steps in Hb as (k & Hk & Hlog & _); try done;
    simpl in Hlog.
  - intros ? script; simplify_eq.
    rewrite Hlog, spawns_app, spawns_connect_calls by lia. done.
  - destruct (isinstance_Exception e).
    + unfold bind, raise.
      destruct (_cleanup (c1, w1)) as [[[]|e'] [c2 w2]] eqn:Hc;
        apply cleanup_no_spawn in Hc as (evs & Hlog' & Hevs);
        intros ? script; simplify_eq;
        rewrite Hlog', spawns_same, Hlog, spawns_app, spawns_connect_calls
          by (done || lia); done.
    + intros ? script; simplify_eq.
      rewrite Hlog, spawns_app, spawns_connect_calls by lia. done.
Qed.

Lemma get_tools_no_spawn (c c' : MCPClient) (w w' : World)
    (r : res (list loc)) :
  get_tools (c, w) = (r, (c', w')) →
  ∃ evs, w_log w' = w_log w ++ evs
         ∧ Forall (λ ev, ev.2 ≠ CallStdioClient) evs.
Proof.
  intros H.
  destruct (get_tools_cases c w) as
    [[_ E]|[(_ & ls & _ & E)|[(_ & _ & sess & r0 & env' & _ & _ & E)
     |(_ & _ & sess & e & env' & _ & _ & E)]]];
    rewrite E in H; simplify_eq; simpl;
    first [ by exists []; rewrite app_nil_r
          | by eexists; split; [reflexivity|]; repeat constructor ].
Qed.

Lemma clients_update_keys script c (cs : list (string * MCPClient)) :
  (clients_update script c cs).*1 = cs.*1.
Proof.
  induction cs as [|[k c0] cs IH]; [done|]. cbn [clients_update].
  destruct (decide (k = script)); [done|]. rewrite !fmap_cons. by rewrite IH.
Qed.

(** The merge keeps the keys of the registry and starts no server. *)
Lemma merge_tools_no_spawn scripts :
  ∀ acc (h h1 : ResearchHost) (w w1 : World) r,
  merge_tools scripts acc (h, w) = (r, (h1, w1)) →
  (mcp_clients h1).*1 = (mcp_clients h).*1
  ∧ ∃ evs, w_log w1 = w_log w ++ evs
           ∧ Forall (λ ev, ev.2 ≠ CallStdioClient) evs.
Proof.
  induction scripts as [|s scripts IH]; intros acc h h1 w w1 r.
  - simpl. unfold ret. intros ?; simplify_eq. split; [done|].
    exists []. by rewrite app_nil_r.
  - simpl. unfold bind at 1, gets. simpl.
    destruct (clients_lookup s (mcp_clients h)) as [c|]; [|apply IH].
    unfold bind. rewrite fetch_and_tag_unfold.
    destruct (get_tools (c, w)) as [[tools|e] [c' w']] eqn:Hg;
      apply get_tools_no_spawn in Hg as (evs & Hlog & Hevs).
    + intros (Hkeys & evs' & Hlog' & Hevs')%IH. simpl in Hlog', Hkeys.
      rewrite clients_update_keys in Hkeys. split; [done|].
      exists (evs ++ evs'). rewrite app_assoc, <- Hlog.
      split; [done|]. by apply Forall_app.
    + intros ?; simplify_eq. simpl. rewrite clients_update_keys. eauto.
Qed.

Lemma opened_at_most allowed log0 (h : ResearchHost) log :
  (mcp_clients h).*1 ⊆ allowed → opened_once log0 h log →
  at_most_once allowed log0 log.
Proof.
  intros Hsub Ho script. rewrite (Ho script).
  destruct (decide (script ∈ (mcp_clients h).*1)) as [Hin|]; [|lia].
  rewrite decide_True; [lia|]. by apply Hsub.
Qed.

Lemma ensure_loop_spawns allowed log0 scripts :
  ∀ (h h1 : ResearchHost) (w w1 : World) r,
  scripts ⊆ allowed → (mcp_clients h).*1 ⊆ allowed →
  opened_once log0 h (w_log w) →
  _ensure_clients_connected scripts (h, w) = (r, (h1, w1)) →
  match r with
  | Ok _ => (mcp_clients h1).*1 ⊆ allowed ∧ opened_once log0 h1 (w_log w1)
  | Raise _ => at_most_once allowed log0 (w_log w1)
  end.
Proof.
  unfold _ensure_clients_connected.
  induction scripts as [|s scripts IH]; intros h h1 w w1 r Hsub Hreg Ho.
  - simpl. unfold ret. intros ?; simplify_eq. done.
  - rewrite for_each_cons. unfold bind at 1.
    assert (s ∈ allowed) as Hs by (apply Hsub; left).
    assert (scripts ⊆ allowed) as Hsub'
      by (intros x Hx; apply Hsub; by right).
    unfold ensure_step at 1. unfold bind at 1, gets. simpl.
    destruct (clients_lookup s (mcp_clients h)) as [c|] eqn:Hl.
    { unfold ret. by apply IH. }
    apply clients_lookup_None in Hl.
    unfold bind, on_client, modify. simpl.
    destruct (connect (MCPClient_init s, w)) as [[[]|e] [c1 w1']] eqn:Hc;
      pose proof (connect_new_spawns _ _ _ _ _ Hc) as Hsp.
    + apply IH; [done|..]; cbn [mcp_clients fst snd w_log].
      * rewrite fmap_app. intros x [Hx|Hx%list_elem_of_singleton]
          %elem_of_app; [by apply Hreg|by subst].
      * intros script. cbn [mcp_clients].
        rewrite Hsp, (Ho script), fmap_app.
        change ([(s, c1)].*1) with [s].
        destruct (decide (script = s)) as [->|Hne].
        -- rewrite decide_False by done.
           rewrite decide_True; [lia|]. apply elem_of_app. right. by left.
        -- destruct (decide (script ∈ (mcp_clients h).*1)) as [Hin|Hout].
           ++ rewrite decide_True; [lia|]. apply elem_of_app. by left.
           ++ rewrite decide_False; [lia|].
              intros [?|?%list_elem_of_singleton]%elem_of_app; done.
    + intros [= <- <- <-]. intros script. rewrite Hsp, (Ho script).
      destruct (decide (script = s)) as [->|Hne].
      * rewrite decide_False by done. rewrite decide_True by done. lia.
      * destruct (decide (script ∈ (mcp_clients h).*1)) as [Hin|Hout];
          [|lia].
        rewrite decide_True; [lia|]. by apply Hreg.
Qed.

Lemma get_tools_from_clients_spawns allowed log0 scripts
    (h h1 : ResearchHost) (w w1 : World) r :
  scripts ⊆ allowed → (mcp_clients h).*1 ⊆ allowed →
  opened_once log0 h (w_log w) →
  _get_tools_from_clients scripts (h, w) = (r, (h1, w1)) →
  match r with
  | Ok _ => (mcp_clients h1).*1 ⊆ allowed ∧ opened_once log0 h1 (w_log w1)
  | Raise _ => at_most_once allowed log0 (w_log w1)
  end.
Proof.
  intros Hsub Hreg Ho. unfold _get_tools_from_clients, bind.
  destruct (_ensure_clients_connected scripts (h, w))
    as [[[]|e] [h2 w2]] eqn:He;
    eapply ensure_loop_spawns in He; try done.
  - destruct He as [Hreg2 Ho2].
    intros (Hkeys & evs & Hlog & Hevs)%merge_tools_no_spawn.
    assert (opened_once log0 h1 (w_log w1)) as Ho1.
    { intros script. rewrite Hlog, spawns_same, Hkeys by done. apply Ho2. }
    assert ((mcp_clients h1).*1 ⊆ allowed) as Hreg1 by by rewrite Hkeys.
    destruct r; [done|]. by eapply opened_at_most.
  - intros ?; simplify_eq. done.
Qed.

(** What a call of [run_experiment] does to the connections and to the
    endpoint. *)
Lemma run_experiment_spawns allowed log0 q arg (s s' : rstate) r :
  server_scripts_of arg ⊆ allowed →
  (mcp_clients (r_host s)).*1 ⊆ allowed →
  opened_once log0 (r_host s) (w_log (r_world s)) →
  run_experiment q arg s = (r, s') →
  length (r_requests s') ≤ length (r_requests s) + 1
  ∧ tool_invocations (w_log (r_world s'))
    = tool_invocations (w_log (r_world s))
  ∧ match r with
    | Ok _ => (mcp_clients (r_host s')).*1 ⊆ allowed
              ∧ opened_once log0 (r_host s') (w_log (r_world s'))
    | Raise _ => at_most_once allowed log0 (w_log (r_world s'))
    end.
Proof.
  intros Hsub Hreg Ho
    (s0 & rm & h & w & Hc & Hm & Hh & Hw & Hrm)%run_experiment_cases.
  destruct (check_flags_frame (server_scripts_of arg) s)
    as (s0' & Hc' & _ & _ & _ & _ & _ & _ & _ & Hr0 & _).
  rewrite Hc in Hc'. injection Hc' as <-.
  pose proof Hm as Hti%get_tools_from_clients_no_tool_call.
  eapply get_tools_from_clients_spawns in Hm; [|done..].
  rewrite Hh, Hw. split; [|split; [done|]].
  - destruct rm as [tools|e].
    + destruct Hrm as ([[]|e] & s2 & Hp & Hrp);
        apply print_server_info_once_frame in Hp as (_ & _ & _ & Hr2 & _);
        simpl in Hr2.
      * destruct Hrp as (ra & llm' & _ & -> & _). simpl.
        rewrite length_app. simpl. lia.
      * destruct Hrp as [_ ->]. rewrite Hr2, Hr0. lia.
    + destruct Hrm as [_ ->]. simpl. rewrite Hr0. lia.
  - destruct rm as [tools|e].
    + destruct Hm as [Hreg' Ho']. destruct r; [done|].
      by eapply opened_at_most.
    + destruct Hrm as [-> _]. done.
Qed.

Lemma run_and_print_spawns allowed log0 q arg (s s' : rstate) r :
  server_scripts_of (Some arg) ⊆ allowed →
  (mcp_clients (r_host s)).*1 ⊆ allowed →
  opened_once log0 (r_host s) (w_log (r_world s)) →
  run_and_print q arg s = (r, s') →
  length (r_requests s') ≤ length (r_requests s) + 1
  ∧ tool_invocations (w_log (r_world s'))
    = tool_invocations (w_log (r_world s))
  ∧ match r with
    | Ok _ => (mcp_clients (r_host s')).*1 ⊆ allowed
              ∧ opened_once log0 (r_host s') (w_log (r_world s'))
    | Raise _ => at_most_once allowed log0 (w_log (r_world s'))
    end.
Proof.
  intros Hsub Hreg Ho. unfold run_and_print, bind.
  destruct (run_experiment q (Some arg) s) as [[result|e] s1] eqn:Hrun;
    (eapply (run_experiment_spawns allowed log0) in Hrun; [|done..]).
  - rewrite print_result_spec. intros ?; simplify_eq. exact Hrun.
  - intros ?; simplify_eq. done.
Qed.

Lemma run_and_print_loop allowed log0 arg qs : ∀ (s s' : rstate) r,
  server_scripts_of (Some arg) ⊆ allowed →
  (mcp_clients (r_host s)).*1 ⊆ allowed →
  opened_once log0 (r_host s) (w_log (r_world s)) →
  for_each qs (λ query, run_and_print query arg) s = (r, s') →
  length (r_requests s') ≤ length (r_requests s) + length qs
  ∧ tool_invocations (w_log (r_world s'))
    = tool_invocations (w_log (r_world s))
  ∧ match r with
    | Ok _ => (mcp_clients (r_host s')).*1 ⊆ allowed
              ∧ opened_once log0 (r_host s') (w_log (r_world s'))
    | Raise _ => at_most_once allowed log0 (w_log (r_world s'))
    end.
Proof.
  induction qs as [|q qs IH]; intros s s' r Hsub Hreg Ho.
  - simpl. unfold ret. intros ?; simplify_eq. split; [lia|]. done.
  - rewrite for_each_cons. unfold bind.
    destruct (run_and_print q arg s) as [[[]|e] s1] eqn:Hrun;
      eapply (run_and_print_spawns allowed log0) in Hrun
        as (Hn & Hti & Hpost); try done.
    + destruct Hpost as [Hreg1 Ho1].
      intros (Hn' & Hti' & Hpost')%IH; [|done..].
      split; [simpl; lia|]. split; [congruence|done].
    + intros ?; simplify_eq. split; [simpl; lia|]. done.
Qed.

Lemma default_server_allowed :
  server_scripts_of (Some (OneScript default_server_script)) ⊆ test_servers.
Proof. intros x ->%list_elem_of_singleton. left. Qed.

Lemma experiment_server_allowed :
  server_scripts_of (Some (OneScript experiment_server_script))
  ⊆ test_servers.
Proof. intros x ->%list_elem_of_singleton. right. left. Qed.

(** The three examples of [test_host]. *)
Lemma test_host_body_spawns log0 (s s' : rstate) r :
  (mcp_clients (r_host s)).*1 ⊆ test_servers →
  opened_once log0 (r_host s) (w_log (r_world s)) →
  test_host_body s = (r, s') →
  length (r_requests s') ≤ length (r_requests s) + 5
  ∧ tool_invocations (w_log (r_world s'))
    = tool_invocations (w_log (r_world s))
  ∧ at_most_once test_servers log0 (w_log (r_world s')).
Proof.
  intros Hreg Ho. unfold test_host_body.
  unfold bind at 1. unfold print at 1, modify at 1.
  unfold bind at 1.
  destruct (for_each test_queries _ _) as [[[]|e] s1] eqn:H1;
    eapply (run_and_print_loop test_servers log0) in H1
      as (Hn1 & Hti1 & Hpost1);
    try done; try apply default_server_allowed; simpl in Hn1, Hti1.
  2:{ intros ?; simplify_eq. split; [lia|]. done. }
  destruct Hpost1 as [Hreg1 Ho1].
  unfold bind at 1. unfold print at 1, modify at 1.
  unfold bind at 1.
  destruct (run_and_print _ (OneScript experiment_server_script) _)
    as [[[]|e] s2] eqn:H2;
    eapply (run_and_print_spawns test_servers log0) in H2
      as (Hn2 & Hti2 & Hpost2);
    try done; try apply experiment_server_allowed; simpl in Hn2, Hti2.
  2:{ intros ?; simplify_eq. split; [lia|]. split; [congruence|done]. }
  destruct Hpost2 as [Hreg2 Ho2].
  unfold bind at 1. unfold print at 1, modify at 1.
  intros H3.
  eapply (run_and_print_spawns test_servers log0) in H3
    as (Hn3 & Hti3 & Hpost3); try done; simpl in Hn3, Hti3.
  split; [lia|]. split; [congruence|].
  destruct r as [[]|e]; [|done].
  destruct Hpost3. by eapply opened_at_most.
Qed.

(** What [ResearchHost.cleanup] adds to the log and what it lets escape. *)
Lemma cleanup_step_effect script c (h h1 : ResearchHost) (w w1 : World) r :
  cleanup_step (script, c) (h, w) = (r, (h1, w1)) →
  (∃ evs, w_log w1 = w_log w ++ evs
          ∧ Forall (λ ev, ev.2 ≠ CallStdioClient) evs)
  ∧ ∀ e, r = Raise e → isinstance_Exception e = false.
Proof.
  unfold cleanup_step, try_except, on_registered, disconnect. simpl.
  destruct (_cleanup (c, w)) as [[[]|e] [c' w']] eqn:Hc.
  - apply cleanup_no_spawn in Hc. intros ?; simplify_eq. done.
  - pose proof Hc as Hcls%cleanup_raise_class.
    apply cleanup_no_spawn in Hc. rewrite Hcls.
    intros ?; simplify_eq. split; [done|]. by intros ? [= <-].
Qed.

Lemma cleanup_loop_effect items : ∀ (h h1 : ResearchHost) (w w1 : World) r,
  for_each items cleanup_step (h, w) = (r, (h1, w1)) →
  (∃ evs, w_log w1 = w_log w ++ evs
          ∧ Forall (λ ev, ev.2 ≠ CallStdioClient) evs)
  ∧ ∀ e, r = Raise e → isinstance_Exception e = false.
Proof.
  induction items as [|[script c] items IH]; intros h h1 w w1 r.
  - simpl. unfold ret. intros ?; simplify_eq. split; [|done].
    exists []. by rewrite app_nil_r.
  - rewrite for_each_cons. unfold bind.
    destruct (cleanup_step (script, c) (h, w)) as [[[]|e] [h2 w2]] eqn:Hs;
      apply cleanup_step_effect in Hs as ((evs & Hlog & Hevs) & Hcls).
    + intros ((evs' & Hlog' & Hevs') & Hcls')%IH. split; [|done].
      exists (evs ++ evs'). rewrite app_assoc, <- Hlog.
      split; [done|]. by apply Forall_app.
    + intros ?; simplify_eq. split; [eauto|]. intros ? [= <-]. by apply Hcls.
Qed.

Lemma host_cleanup_effect (h h1 : ResearchHost) (w w1 : World) r :
  cleanup (h, w) = (r, (h1, w1)) →
  (∃ evs, w_log w1 = w_log w ++ evs
          ∧ Forall (λ ev, ev.2 ≠ CallStdioClient) evs)
  ∧ ∀ e, r = Raise e → isinstance_Exception e = false.
Proof.
  unfold cleanup. unfold bind at 1, gets. simpl. unfold bind, modify.
  destruct (for_each (mcp_clients h) cleanup_step (h, w))
    as [[[]|e] [h2 w2]] eqn:Hl;
    apply cleanup_loop_effect in Hl as [Hlog Hcls]; intros ?; simplify_eq.
  - done.
  - split; [done|]. intros ? [= <-]. by apply Hcls.
Qed.

Lemma host_cleanup_swallowed (h : ResearchHost) (w : World) :
  registry_releases_swallowed (mcp_clients h) (w_env w) = true →
  cleanup (h, w)
  = (Ok tt,
     (ResearchHost_init,
      after_calls w (registry_release_env (mcp_clients h) (w_env w))
        (registry_release_calls (mcp_clients h)))).
Proof.
  intros [h' Hl]%(cleanup_loop_swallowed _ h).
  unfold cleanup. unfold bind at 1, gets. simpl. unfold bind, modify.
  by rewrite Hl.
Qed.

(** [ResearchHost(system_prompt=...)]: the token read from the environment
    is not empty when the client is constructed, so nothing but the
    [ValueError] is raised. *)
Lemma host_new_from_environ (m : string) (prompt : option string) :
  ResearchHost_new None m prompt
  = match environ_HF_TOKEN with
    | Some t =>
        if str_truthy t
        then Ok ({| llm_client := t; model := m; system_prompt := prompt;
                    _last_server_script := None;
                    _has_printed_server_info := false;
                    _has_printed_separator := false |},
                 ResearchHost_init)
        else Raise HF_TOKEN_not_found
    | None => Raise HF_TOKEN_not_found
    end.
Proof.
  unfold ResearchHost_new. destruct environ_HF_TOKEN as [[|c t]|]; simpl;
    [done| |done].
  by rewrite OpenAI_new_key.
Qed.

(** *** The theorems on [test_system.py] *)

(** X27.  One round of the loop of [test_client], for a server that may fail
    at any step: the round first announces the server, and invokes no tool.
    It lets an exception escape only if that is outside [Exception] (a
    cancellation or an interrupt, say); an error of the connection or of the
    tool listing is reported instead.  When the round ends normally, [client]
    is in the state of [MCPClient(server_script)] again: what was opened has
    been released, on the path through [except] too. *)
Theorem test_client_round_releases_the_client script (t t' : tstate) r :
  test_client_iteration script t = (r, t') →
  (∀ e, r = Raise e → isinstance_Exception e = false)
  ∧ (r = Ok tt → t_client t' = MCPClient_init script)
  ∧ (∃ lines, t_stdout t'
              = t_stdout t ++ [OutTestServer script; OutDashes] ++ lines
              ∧ announced lines = [])
  ∧ tool_invocations (w_log (t_world t'))
    = tool_invocations (w_log (t_world t)).
Proof.
  intros (H1 & H2 & _ & H3 & H4)%test_client_iteration_spec. done.
Qed.

(** X28.  [test_client] goes through [agent/server.py] and then
    [agent/experiment_server.py]: when it returns, both have been announced,
    in this order and once each, whether or not the first one could be
    reached.  It stops early only on an exception outside [Exception], after
    announcing a prefix of the two.  It invokes no tool. *)
Theorem test_client_visits_both_servers (w w' : World)
    (out out' : list out_line) r :
  test_client (w, out) = (r, (w', out')) →
  (r = Ok tt
   ∧ announced out'
     = announced out ++ [default_server_script; experiment_server_script]
   ∨ ∃ e k, r = Raise e ∧ isinstance_Exception e = false
            ∧ announced out' = announced out ++ take k test_servers)
  ∧ tool_invocations (w_log w') = tool_invocations (w_log w).
Proof.
  intros (Hr & Hok & [k Hk] & Hti)%test_client_loop. split; [|done].
  destruct r as [[]|e]; [left|right].
  - split; [done|]. by apply Hok.
  - exists e, k. split; [done|]. split; [by apply Hr|done].
Qed.

(** X29.  [test_host] without a usable [HF_TOKEN] prints the error and
    returns: the [ValueError] does not escape.  Otherwise the examples run
    on a new host with the test prompt, and [cleanup] runs after them
    whatever they did: standard output and the requests made are those of
    the examples; an exception [test_host] raises is the one of the examples
    or is outside [Exception]; and when the SDK lets every release pass,
    [test_host] ends as the examples did, with an empty registry, after the
    release calls of every client the examples left registered. *)
Theorem test_host_cleans_up_after_the_examples (w : World) (llm : LLMState)
    (requests : list completion_request) (out : list out_line) r fin :
  test_host w llm requests out = (r, fin) →
  match fin with
  | EndWithoutHost out' =>
      r = Ok tt
      ∧ out' = out ++ [OutError "HF_TOKEN not found. Please set it in environment variable "]
      ∧ (environ_HF_TOKEN = None ∨ environ_HF_TOKEN = Some "")
  | EndWithHost s' =>
      ∃ t rb s1,
        environ_HF_TOKEN = Some t ∧ t ≠ ""
        ∧ test_host_body
            {| r_attrs := {| llm_client := t; model := MODEL;
                             system_prompt := Some test_system_prompt;
                             _last_server_script := None;
                             _has_printed_server_info := false;
                             _has_printed_separator := false |};
               r_host := ResearchHost_init; r_world := w; r_llm := llm;
               r_requests := requests; r_stdout := out |}
          = (rb, s1)
        ∧ r_stdout s' = r_stdout s1 ∧ r_requests s' = r_requests s1
        ∧ (∀ e, r = Raise e → rb = Raise e ∨ isinstance_Exception e = false)
        ∧ (registry_releases_swallowed (mcp_clients (r_host s1))
             (w_env (r_world s1)) = true →
           r = rb ∧ mcp_clients (r_host s') = []
           ∧ w_log (r_world s')
             = w_log (r_world s1)
               ++ registry_release_calls (mcp_clients (r_host s1)))
  end.
Proof.
  unfold test_host. rewrite host_new_from_environ.
  destruct environ_HF_TOKEN as [[|c t]|] eqn:Htok; simpl.
  - intros ?; simplify_eq. auto.
  - unfold try_finally.
    destruct (test_host_body _) as [rb s1] eqn:Hb.
    unfold on_host.
    destruct (cleanup (r_host s1, r_world s1)) as [rc [h2 w2]] eqn:Hc.
    intros Heq.
    assert (fin = EndWithHost (set_registry h2 w2 s1)
            ∧ r = match rc with Ok _ => rb | Raise e => Raise e end)
      as [-> ->] by (destruct rc; by simplify_eq).
    exists (String c t), rb, s1. split; [done|]. split; [done|].
    split; [done|]. split; [done|]. split; [done|]. split.
    + apply host_cleanup_effect in Hc as [_ Hcls].
      destruct rc as [[]|e']; [by left|]. intros e [= <-]. right. by apply Hcls.
    + intros Hsw. rewrite host_cleanup_swallowed in Hc by done.
      by simplify_eq.
  - intros ?; simplify_eq. auto.
Qed.

(** X30.  Whatever the servers and the model do, a [test_host] that got its
    host starts [agent/server.py] and [agent/experiment_server.py] at most
    once each and no other server, although it asks for tools five times:
    the connections are reused from example to example, and a server whose
    connection failed is not tried again.  It sends the model at most five
    requests and invokes no tool. *)
Theorem test_host_starts_each_server_at_most_once (w : World)
    (llm : LLMState) (requests : list completion_request)
    (out : list out_line) r (s' : rstate) :
  test_host w llm requests out = (r, EndWithHost s') →
  (∀ script,
     spawns script (w_log (r_world s'))
     ≤ spawns script (w_log w)
       + (if decide (script ∈ [default_server_script;
                               experiment_server_script])
          then 1 else 0))
  ∧ length (r_requests s') ≤ length requests + 5
  ∧ tool_invocations (w_log (r_world s')) = tool_invocations (w_log w).
Proof.
  unfold test_host. rewrite host_new_from_environ.
  destruct environ_HF_TOKEN as [[|c t]|] eqn:Htok; simpl; [done| |done].
  unfold try_finally.
  destruct (test_host_body _) as [rb s1] eqn:Hb.
  apply (test_host_body_spawns (w_log w)) in Hb as (Hn & Hti & Hsp).
  2:{ simpl. set_solver. }
  2:{ intros script. simpl.
      try (destruct (decide _) as [Hin|]; [by apply elem_of_nil in Hin|]).
      lia. }
  simpl in Hn, Hti.
  unfold on_host.
  destruct (cleanup (r_host s1, r_world s1)) as [rc [h2 w2]] eqn:Hc.
  pose proof Hc as (evs' & Hlog' & Hevs')%host_cleanup_lifecycle.
  apply host_cleanup_effect in Hc as [(evs & Hlog & Hevs) _].
  intros Heq.
  assert (s' = set_registry h2 w2 s1) as ->
    by (destruct rc; by simplify_eq).
  simpl. split; [|split; [done|]].
  - intros script. rewrite Hlog, spawns_same by done. apply Hsp.
  - rewrite Hlog', tool_invocations_same; [done|].
    by apply lifecycle_no_tool_call.
Qed.

End TestFacts.

(** ** The claims on concrete runs *)

Example connect_then_get_tools :
  (connect;;; get_tools) (new_client healthy server_py, world0 healthy)
  = (Ok [0; 1; 2; 3], (fetched_client, fetched_world)).
Proof. vm_compute. reflexivity. Qed.

Example merge_three_endpoints :
  _get_tools_from_clients three_scripts (new_host healthy, world0 healthy)
  = (Ok merged_tools, (merged_host healthy, merged_world healthy))
  ∧ map (λ d, (d !! "name", d !! "_server")) (w_heap (merged_world healthy))
    = [(Some (PStr "simple_query"), Some (PStr server_py));
       (Some (PStr "search_with_filters"), Some (PStr server_py));
       (Some (PStr "advanced_search"), Some (PStr server_py));
       (Some (PStr "get_status"), Some (PStr server_py));
       (Some (PStr "tool_xy87"), Some (PStr experiment_server_py));
       (Some (PStr "tool_ty32"), Some (PStr experiment_server_py));
       (Some (PStr "tool_nt68"), Some (PStr experiment_server_py));
       (Some (PStr "tool_lk72"), Some (PStr experiment_server_py));
       (Some (PStr "simple_query"), Some (PStr mirror_py))].
Proof. split; vm_compute; reflexivity. Qed.

(** C1 on a run: both releases fail, both are attempted, in order, and
    nothing is raised. *)
Lemma cleanup_releases_session_then_stdio_witness :
  releases_swallowed (connected_client faulty_releases server_py)
    (w_env (connected_world faulty_releases server_py)) = true
  ∧ _cleanup (connected_client faulty_releases server_py,
              connected_world faulty_releases server_py)
    = (Ok tt,
       (new_client faulty_releases server_py,
        mock_world faulty_releases 0
          (connect_calls server_py
           ++ [(server_py, CallSessionExit); (server_py, CallStdioExit)])
          []))
  ∧ _cleanup (new_client faulty_releases server_py, world0 faulty_releases)
    = (Ok tt, (new_client faulty_releases server_py, world0 faulty_releases)).
Proof.
  split; [reflexivity|]. split.
  - exact (proj1 (cleanup_releases_session_then_stdio
                    (connected_client faulty_releases server_py)
                    (connected_world faulty_releases server_py)) eq_refl).
  - exact (proj1 (proj2 (proj2 (cleanup_releases_session_then_stdio
                                  (new_client faulty_releases server_py)
                                  (world0 faulty_releases))))
             eq_refl eq_refl).
Defined.

(** C1 as stated fails on this run: the session release is interrupted from
    the keyboard; [_cleanup] raises, the stdio release is not attempted and
    the stdio context stays set. *)
Lemma cleanup_propagates_KeyboardInterrupt :
  connect (new_client interrupted_release server_py,
           world0 interrupted_release)
  = (Ok tt, (connected_client interrupted_release server_py,
             connected_world interrupted_release server_py))
  ∧ _cleanup (connected_client interrupted_release server_py,
              connected_world interrupted_release server_py)
    = (Raise KeyboardInterrupt,
       (mock_client interrupted_release server_py
          None (Some server_py) None None true,
        mock_world interrupted_release 0
          (connect_calls server_py ++ [(server_py, CallSessionExit)]) []))
  ∧ ¬ (∀ (sdk : SDK) (c : MCPClient) (w : World),
         ∃ s', _cleanup (c, w) = (Ok tt, s')).
Proof.
  assert (_cleanup (connected_client interrupted_release server_py,
                    connected_world interrupted_release server_py)
          = (Raise KeyboardInterrupt,
             (mock_client interrupted_release server_py
                None (Some server_py) None None true,
              mock_world interrupted_release 0
                (connect_calls server_py ++ [(server_py, CallSessionExit)])
                []))) as E by (vm_compute; reflexivity).
  split; [vm_compute; reflexivity|]. split; [exact E|].
  intros H.
  destruct (H (mock_sdk interrupted_release)
              (connected_client interrupted_release server_py)
              (connected_world interrupted_release server_py)) as [s' Hs'].
  rewrite E in Hs'. discriminate.
Qed.

(** C2 on a run: the handshake fails, both contexts are released, the
    wrapped error is raised and the client is as new. *)
Lemma connect_failure_cleans_up_witness :
  _session (new_client failing_handshake server_py) = None
  ∧ connect_body (new_client failing_handshake server_py,
                  world0 failing_handshake)
    = (Raise (Exception "handshake failed"),
       (mock_client failing_handshake server_py
          (Some server_py) (Some server_py) (Some server_py) None false,
        connected_world failing_handshake server_py))
  ∧ isinstance_Exception (Exception "handshake failed") = true
  ∧ connect (new_client failing_handshake server_py, world0 failing_handshake)
    = (Raise (Exception "Failed to connect to MCP server: handshake failed"),
       (new_client failing_handshake server_py,
        mock_world failing_handshake 0
          (connect_calls server_py
           ++ [(server_py, CallSessionExit); (server_py, CallStdioExit)])
          [])).
Proof.
  assert (connect_body (new_client failing_handshake server_py,
                        world0 failing_handshake)
          = (Raise (Exception "handshake failed"),
             (mock_client failing_handshake server_py
                (Some server_py) (Some server_py) (Some server_py) None false,
              connected_world failing_handshake server_py))) as Hb
    by (vm_compute; reflexivity).
  assert (_session (new_client failing_handshake server_py) = None) as Hs
    by reflexivity.
  assert (isinstance_Exception (Exception "handshake failed") = true) as He
    by reflexivity.
  assert (releases_swallowed
            (mock_client failing_handshake server_py
               (Some server_py) (Some server_py) (Some server_py) None false)
            (w_env (connected_world failing_handshake server_py)) = true)
    as Hr by reflexivity.
  split; [exact Hs|]. split; [exact Hb|]. split; [exact He|].
  exact (proj1 (proj1 (connect_failure_cleans_up _ _ _ _ _ Hs Hb) He Hr)).
Defined.

(** C2 as stated fails on these runs.  The task is cancelled during the
    handshake: [connect] lets the cancellation through, unwrapped and
    without teardown, and the client keeps its session and both contexts.
    The handshake fails and the session release of the teardown is
    interrupted: [connect] raises the interrupt, not the wrapped error, and
    the stdio context stays set. *)
Lemma connect_cancelled_keeps_partial_state :
  connect (new_client cancelled_handshake server_py,
           world0 cancelled_handshake)
  = (Raise CancelledError,
     (mock_client cancelled_handshake server_py
        (Some server_py) (Some server_py) (Some server_py) None false,
      connected_world cancelled_handshake server_py))
  ∧ connect (new_client failing_handshake_interrupted_release server_py,
             world0 failing_handshake_interrupted_release)
    = (Raise KeyboardInterrupt,
       (mock_client failing_handshake_interrupted_release server_py
          None (Some server_py) None None false,
        mock_world failing_handshake_interrupted_release 0
          (connect_calls server_py ++ [(server_py, CallSessionExit)]) []))
  ∧ ¬ (∀ (sdk : SDK) (c : MCPClient) (w : World) e s',
         _session c = None → connect (c, w) = (Raise e, s') →
         s'.1 = MCPClient_init (server_script c)).
Proof.
  assert (connect (new_client cancelled_handshake server_py,
                   world0 cancelled_handshake)
          = (Raise CancelledError,
             (mock_client cancelled_handshake server_py
                (Some server_py) (Some server_py) (Some server_py) None false,
              connected_world cancelled_handshake server_py))) as E
    by (vm_compute; reflexivity).
  split; [exact E|]. split; [vm_compute; reflexivity|].
  intros H.
  specialize (H (mock_sdk cancelled_handshake)
                (new_client cancelled_handshake server_py)
                (world0 cancelled_handshake) _ _ eq_refl E).
  discriminate.
Qed.

(** C3 on a run: the first [connect] makes the five SDK calls, the second
    makes none. *)
Lemma connect_twice_is_connect_once_witness :
  is_Some (_session (connected_client healthy server_py))
  ∧ connect (new_client healthy server_py, world0 healthy)
    = (Ok tt, (connected_client healthy server_py,
               connected_world healthy server_py))
  ∧ connect (connected_client healthy server_py,
             connected_world healthy server_py)
    = (Ok tt, (connected_client healthy server_py,
               connected_world healthy server_py))
  ∧ (connect;;; connect) (new_client healthy server_py, world0 healthy)
    = connect (new_client healthy server_py, world0 healthy).
Proof.
  assert (connect (new_client healthy server_py, world0 healthy)
          = (Ok tt, (connected_client healthy server_py,
                     connected_world healthy server_py))) as Hc
    by (vm_compute; reflexivity).
  pose proof (connect_twice_is_connect_once
                (new_client healthy server_py) (world0 healthy))
    as (_ & Hidem & Htwice).
  split; [eexists; reflexivity|]. split; [exact Hc|].
  split; [exact (Hidem _ _ Hc)|exact Htwice].
Defined.



(** C5 on a run. *)
Lemma not_connected_calls_fail_witness :
  connected (new_client healthy server_py) = false
  ∧ get_tools (new_client healthy server_py, world0 healthy)
    = (Raise NotConnectedError, (new_client healthy server_py, world0 healthy))
  ∧ call_tool "simple_query" None (new_client healthy server_py, world0 healthy)
    = (Raise NotConnectedError, (new_client healthy server_py, world0 healthy))
  ∧ disconnect (fetched_client, fetched_world)
    = (Ok tt,
       (new_client healthy server_py,
        mock_world healthy 1
          (w_log fetched_world
           ++ [(server_py, CallSessionExit); (server_py, CallStdioExit)])
          (w_heap fetched_world)))
  ∧ ∀ w, get_tools (new_client healthy server_py, w)
         = (Raise NotConnectedError, (new_client healthy server_py, w)).
Proof.
  pose proof (@not_connected_calls_fail (mock_sdk healthy))
    as (Hguard & Hinit & Hdisc & _ & _).
  assert (disconnect (fetched_client, fetched_world)
          = (Ok tt,
             (new_client healthy server_py,
              mock_world healthy 1
                (w_log fetched_world
                 ++ [(server_py, CallSessionExit); (server_py, CallStdioExit)])
                (w_heap fetched_world)))) as Hd
    by (vm_compute; reflexivity).
  split; [exact (Hinit _)|].
  split; [exact (proj1 (Hguard _ (world0 healthy) (Hinit server_py)))|].
  split; [exact (proj2 (Hguard _ (world0 healthy) (Hinit server_py))
                   "simple_query" None)|].
  split; [exact Hd|].
  intros w. exact (proj1 (Hguard _ w (Hdisc _ _ _ _ Hd))).
Defined.



(** C7 on two runs.  The fetch and the tool call time out: the wrapped
    errors are raised and the client is untouched.  The remote answers but a
    schema cannot be dumped: the wrapped error is raised, the session, the
    contexts and the flag are untouched, and a tool call on the same client
    returns. *)
Lemma fetch_and_invoke_failures_keep_connection_witness :
  let c := connected_client odd_schemas server_py in
  let c' := set_tools_cache (Some [0]) c in
  _initialized (connected_client flaky_remote server_py) = true
  ∧ _session (connected_client flaky_remote server_py) = Some server_py
  ∧ get_tools (connected_client flaky_remote server_py, world0 flaky_remote)
    = (Raise (Exception "Failed to get tools: timed out"),
       (connected_client flaky_remote server_py,
        mock_world flaky_remote 1 [(server_py, CallListTools)] []))
  ∧ call_tool "simple_query" None
      (connected_client flaky_remote server_py, world0 flaky_remote)
    = (Raise (Exception "Failed to call tool 'simple_query': timed out"),
       (connected_client flaky_remote server_py,
        mock_world flaky_remote 0
          [(server_py, CallCallTool "simple_query")] []))
  ∧ connected (connected_client flaky_remote server_py) = true
  ∧ get_tools (c, world0 odd_schemas)
    = (Raise (Exception "Failed to get tools: model_dump failed"),
       (c', mock_world odd_schemas 1 [(server_py, CallListTools)]
              [tool_dict "empty_model" None []]))
  ∧ c' = set_tools_cache (_tools_cache c') c
  ∧ connected c' = true
  ∧ call_tool "simple_query" None (c', world0 odd_schemas)
    = (Ok {| rd_content := [TextPart "ok"]; rd_isError := None |},
       (c', mock_world odd_schemas 0
              [(server_py, CallCallTool "simple_query")] [])).
Proof.
  intros c c'.
  pose proof (fetch_and_invoke_failures_keep_connection
                (connected_client flaky_remote server_py)
                (world0 flaky_remote) server_py eq_refl eq_refl)
    as (Hget & Hcall & _ & _ & Hconn & _).
  split; [reflexivity|]. split; [reflexivity|].
  split; [exact (Hget (Exception "timed out") 1 eq_refl eq_refl)|].
  split; [exact (Hcall "simple_query" None (Exception "timed out") 0 eq_refl)|].
  split; [exact Hconn|].
  assert (get_tools (c, world0 odd_schemas)
          = (Raise (Exception "Failed to get tools: model_dump failed"),
             (c', mock_world odd_schemas 1 [(server_py, CallListTools)]
                    [tool_dict "empty_model" None []]))) as E
    by (vm_compute; reflexivity).
  split; [exact E|].
  pose proof (fetch_and_invoke_failures_keep_connection
                c (world0 odd_schemas) server_py eq_refl eq_refl)
    as (_ & _ & Hraise & _ & _ & Hlater).
  destruct (Hraise _ _ _ E) as (Hc' & Hconn' & _).
  split; [exact Hc'|]. split; [exact Hconn'|].
  exact (Hlater (Some [0]) (world0 odd_schemas) "simple_query" None
           (MkCallToolResult (Some [MkItem (Some "ok") None]) None) 0
           {| rd_content := [TextPart "ok"]; rd_isError := None |}
           eq_refl eq_refl).
Defined.

(** C7 as stated fails on this run: the task is cancelled during the fetch
    and during the tool call; the cancellation is raised as it is, not
    wrapped. *)
Lemma cancelled_fetch_is_not_wrapped :
  get_tools (connected_client cancelled_remote server_py,
             world0 cancelled_remote)
  = (Raise CancelledError,
     (connected_client cancelled_remote server_py,
      mock_world cancelled_remote 1 [(server_py, CallListTools)] []))
  ∧ call_tool "simple_query" None
      (connected_client cancelled_remote server_py, world0 cancelled_remote)
    = (Raise CancelledError,
       (connected_client cancelled_remote server_py,
        mock_world cancelled_remote 0
          [(server_py, CallCallTool "simple_query")] []))
  ∧ ¬ (∀ (sdk : SDK) (c : MCPClient) (w : World) e s',
         connected c = true → get_tools (c, w) = (Raise e, s') →
         ∃ cause, e = get_tools_error cause).
Proof.
  assert (get_tools (connected_client cancelled_remote server_py,
                     world0 cancelled_remote)
          = (Raise CancelledError,
             (connected_client cancelled_remote server_py,
              mock_world cancelled_remote 1 [(server_py, CallListTools)] [])))
    as E by (vm_compute; reflexivity).
  split; [exact E|]. split; [vm_compute; reflexivity|].
  intros H.
  destruct (H (mock_sdk cancelled_remote)
              (connected_client cancelled_remote server_py)
              (world0 cancelled_remote) _ _ eq_refl E) as [cause Hc].
  discriminate.
Qed.

(** C8 on a run: after the merge of the three endpoints, every release of
    every client fails; all six are attempted, nothing is raised and the
    registry ends empty. *)
Lemma cleanup_disconnects_every_client_witness :
  registry_releases_swallowed (mcp_clients (merged_host faulty_releases))
    (w_env (merged_world faulty_releases)) = true
  ∧ cleanup (merged_host faulty_releases, merged_world faulty_releases)
    = (Ok tt,
       (new_host faulty_releases,
        mock_world faulty_releases 3
          (w_log (merged_world faulty_releases)
           ++ [(server_py, CallSessionExit);
               (server_py, CallStdioExit);
               (experiment_server_py, CallSessionExit);
               (experiment_server_py, CallStdioExit);
               (mirror_py, CallSessionExit);
               (mirror_py, CallStdioExit)])
          (w_heap (merged_world faulty_releases)))).
Proof.
  assert (registry_releases_swallowed
            (mcp_clients (merged_host faulty_releases))
            (w_env (merged_world faulty_releases)) = true) as Hsw
    by (vm_compute; reflexivity).
  split; [exact Hsw|].
  rewrite (proj1 (cleanup_disconnects_every_client _ _) Hsw).
  vm_compute. reflexivity.
Defined.

(** C8 as stated fails on this run: after the merge of the three endpoints
    the session release of the first client is interrupted; the interrupt
    passes through [disconnect] and through the [except Exception] of
    [cleanup], the other clients are not disconnected and the registry is
    not cleared. *)
Lemma cleanup_interrupted_leaves_registry :
  cleanup (merged_host interrupted_release, merged_world interrupted_release)
  = (Raise KeyboardInterrupt,
     (mock_host interrupted_release
        [(server_py,
          mock_client interrupted_release server_py
            None (Some server_py) None (Some [0; 1; 2; 3]) true);
         (experiment_server_py,
          mock_client interrupted_release experiment_server_py
            (Some experiment_server_py) (Some experiment_server_py)
            (Some experiment_server_py) (Some [4; 5; 6; 7]) true);
         (mirror_py,
          mock_client interrupted_release mirror_py
            (Some mirror_py) (Some mirror_py) (Some mirror_py)
            (Some [8]) true)],
      mock_world interrupted_release 3
        (w_log (merged_world interrupted_release)
         ++ [(server_py, CallSessionExit)])
        (w_heap (merged_world interrupted_release))))
  ∧ ¬ (∀ (sdk : SDK) (h : ResearchHost) (w : World),
         reachable (h, w) →
         ∃ w', cleanup (h, w) = (Ok tt, (ResearchHost_init, w'))).
Proof.
  assert (cleanup (merged_host interrupted_release,
                   merged_world interrupted_release)
          = (Raise KeyboardInterrupt,
             (mock_host interrupted_release
                [(server_py,
                  mock_client interrupted_release server_py
                    None (Some server_py) None (Some [0; 1; 2; 3]) true);
                 (experiment_server_py,
                  mock_client interrupted_release experiment_server_py
                    (Some experiment_server_py) (Some experiment_server_py)
                    (Some experiment_server_py) (Some [4; 5; 6; 7]) true);
                 (mirror_py,
                  mock_client interrupted_release mirror_py
                    (Some mirror_py) (Some mirror_py) (Some mirror_py)
                    (Some [8]) true)],
              mock_world interrupted_release 3
                (w_log (merged_world interrupted_release)
                 ++ [(server_py, CallSessionExit)])
                (w_heap (merged_world interrupted_release))))) as E
    by (vm_compute; reflexivity).
  split; [exact E|].
  intros H.
  destruct (H (mock_sdk interrupted_release)
              (merged_host interrupted_release)
              (merged_world interrupted_release)) as [w' Hw'].
  - eapply (reachable_merge three_scripts
              (new_host interrupted_release, world0 interrupted_release)
              (Ok merged_tools)).
    + apply reachable_init.
    + vm_compute. reflexivity.
  - rewrite E in Hw'. discriminate.
Qed.

(** C9 on a run: [simple_query] is exported by the first and by the third
    endpoint and resolves to the first; [tool_ty32] resolves to the second;
    an unknown name resolves to nothing. *)
Lemma merged_catalog_resolves_first_match_witness :
  host_inv (new_host healthy) (world0 healthy)
  ∧ _get_tools_from_clients three_scripts (new_host healthy, world0 healthy)
    = (Ok merged_tools, (merged_host healthy, merged_world healthy))
  ∧ find_tool_server (w_heap (merged_world healthy)) merged_tools
      "simple_query"
    = Some (PStr server_py)
  ∧ find_tool_server (w_heap (merged_world healthy)) merged_tools "tool_ty32"
    = Some (PStr experiment_server_py)
  ∧ find_tool_server (w_heap (merged_world healthy)) merged_tools
      "no_such_tool"
    = None
  ∧ tagged (w_heap (merged_world healthy)) mirror_py 8.
Proof.
  assert (host_inv (new_host healthy) (world0 healthy)) as Hinv
    by (split; constructor).
  assert (_get_tools_from_clients three_scripts
            (new_host healthy, world0 healthy)
          = (Ok merged_tools, (merged_host healthy, merged_world healthy)))
    as H by (vm_compute; reflexivity).
  pose proof (merged_catalog_resolves_first_match _ _ _ _ _ _ Hinv H)
    as (_ & Htag & _ & Hfirst & Hnone).
  split; [exact Hinv|]. split; [exact H|].
  split.
  { refine (Hfirst "simple_query" [] server_py
              [experiment_server_py; mirror_py] eq_refl _ _);
      [constructor|vm_compute; reflexivity]. }
  split.
  { refine (Hfirst "tool_ty32" [server_py] experiment_server_py [mirror_py]
              eq_refl _ _); [|vm_compute; reflexivity].
    constructor; [vm_compute; reflexivity|constructor]. }
  split.
  { refine (Hnone "no_such_tool" _).
    repeat (constructor; [vm_compute; reflexivity|]). constructor. }
  refine (proj1 (Htag mirror_py 8 _ _)).
  - unfold three_scripts. do 2 apply list_elem_of_further.
    apply list_elem_of_here.
  - assert (cache_of (merged_host healthy) mirror_py = [8]) as ->
      by (vm_compute; reflexivity).
    apply list_elem_of_here.
Defined.

(** C10 on a run: after the merge every cached dictionary carries its
    script, and merging again, any number of times, changes nothing. *)
Lemma merge_tags_cached_descriptors_in_place_witness :
  host_inv (new_host healthy) (world0 healthy)
  ∧ _get_tools_from_clients three_scripts (new_host healthy, world0 healthy)
    = (Ok merged_tools, (merged_host healthy, merged_world healthy))
  ∧ cache_of (merged_host healthy) experiment_server_py = [4; 5; 6; 7]
  ∧ tagged (w_heap (merged_world healthy)) experiment_server_py 5
  ∧ is_descriptor (w_heap (merged_world healthy)) 5
  ∧ ∀ n, repeat_call n (_get_tools_from_clients three_scripts)
           (merged_host healthy, merged_world healthy)
         = (Ok (replicate n merged_tools),
            (merged_host healthy, merged_world healthy)).
Proof.
  assert (host_inv (new_host healthy) (world0 healthy)) as Hinv
    by (split; constructor).
  assert (_get_tools_from_clients three_scripts
            (new_host healthy, world0 healthy)
          = (Ok merged_tools, (merged_host healthy, merged_world healthy)))
    as H by (vm_compute; reflexivity).
  pose proof (merge_tags_cached_descriptors_in_place _ _ _ _ _ _ Hinv H)
    as (_ & Htag & _ & Hrep & _).
  assert (experiment_server_py ∈ three_scripts) as Hs.
  { unfold three_scripts. apply list_elem_of_further, list_elem_of_here. }
  assert (cache_of (merged_host healthy) experiment_server_py = [4; 5; 6; 7])
    as Hc by (vm_compute; reflexivity).
  assert (5 ∈ cache_of (merged_host healthy) experiment_server_py) as Hl.
  { rewrite Hc. apply list_elem_of_further, list_elem_of_here. }
  split; [exact Hinv|]. split; [exact H|]. split; [exact Hc|].
  split; [exact (proj1 (Htag _ _ Hs Hl))|].
  split; [exact (proj2 (Htag _ _ Hs Hl))|].
  exact Hrep.
Defined.

(** ** More of the code, on concrete runs *)

(** X2 on a run: a new client connects with the five calls in order. *)
Lemma connect_steps_in_order_witness :
  connect (new_client healthy server_py, world0 healthy)
  = (Ok tt, (connected_client healthy server_py,
             connected_world healthy server_py))
  ∧ ∃ k rel, 1 ≤ k ≤ 5
      ∧ w_log (connected_world healthy server_py)
        = w_log (world0 healthy)
          ++ take k (connect_calls (server_script (new_client healthy server_py)))
          ++ rel
      ∧ k = 5 ∧ rel = []
      ∧ connected (connected_client healthy server_py) = true
      ∧ _tools_cache (connected_client healthy server_py)
        = _tools_cache (new_client healthy server_py).
Proof.
  assert (connect (new_client healthy server_py, world0 healthy)
          = (Ok tt, (connected_client healthy server_py,
                     connected_world healthy server_py))) as H
    by (vm_compute; reflexivity).
  split; [exact H|].
  exact (connect_steps_in_order
           (new_client healthy server_py) (connected_client healthy server_py)
           (world0 healthy) (connected_world healthy server_py) (Ok tt)
           eq_refl eq_refl eq_refl H).
Defined.

(** X3 on a run: the remote answers, the second tool cannot be converted;
    the cache is left with the one dictionary built. *)
Lemma get_tools_changes_only_the_cache_witness :
  let c := connected_client odd_schemas server_py in
  let c' := set_tools_cache (Some [0]) c in
  let w' := mock_world odd_schemas 1 [(server_py, CallListTools)]
              [tool_dict "empty_model" None []] in
  get_tools (c, world0 odd_schemas)
  = (Raise (Exception "Failed to get tools: model_dump failed"), (c', w'))
  ∧ c' = set_tools_cache (_tools_cache c') c
  ∧ w_heap (world0 odd_schemas) `prefix_of` w_heap w'
  ∧ ∃ n, _tools_cache c' = Some (fresh_locs (world0 odd_schemas) n)
         ∧ length (w_heap w') = length (w_heap (world0 odd_schemas)) + n
         ∧ w_log w'
           = w_log (world0 odd_schemas) ++ [(server_py, CallListTools)].
Proof.
  intros c c' w'.
  assert (get_tools (c, world0 odd_schemas)
          = (Raise (Exception "Failed to get tools: model_dump failed"),
             (c', w'))) as H
    by (vm_compute; reflexivity).
  split; [exact H|].
  pose proof (get_tools_changes_only_the_cache _ _ _ _ _ H)
    as (Hc & Hh & _ & _ & Hn & _).
  split; [exact Hc|]. split; [exact Hh|].
  destruct (Hn eq_refl) as [(Hsame & _)|Hnew]; [discriminate Hsame|].
  exact Hnew.
Defined.

(** X4 on a run: an invocation on a client that has fetched its catalog. *)
Lemma call_tool_is_one_remote_call_witness :
  call_tool "simple_query" None (fetched_client, fetched_world)
  = (Ok {| rd_content := [TextPart "ok"]; rd_isError := None |},
     (fetched_client,
      mock_world healthy 1
        (w_log fetched_world ++ [(server_py, CallCallTool "simple_query")])
        (w_heap fetched_world)))
  ∧ fetches (w_log fetched_world ++ [(server_py, CallCallTool "simple_query")])
    = fetches (w_log fetched_world)
  ∧ call_tool "simple_query" None (fetched_client, fetched_world)
    = call_tool "simple_query" (Some []) (fetched_client, fetched_world).
Proof.
  assert (call_tool "simple_query" None (fetched_client, fetched_world)
          = (Ok {| rd_content := [TextPart "ok"]; rd_isError := None |},
             (fetched_client,
              mock_world healthy 1
                (w_log fetched_world
                 ++ [(server_py, CallCallTool "simple_query")])
                (w_heap fetched_world)))) as H
    by (vm_compute; reflexivity).
  split; [exact H|].
  pose proof (call_tool_is_one_remote_call _ _ _ _ _ _ _ H)
    as (_ & _ & _ & Hf & Hn).
  split; [exact Hf|exact Hn].
Defined.

(** X5 on two runs.  A text, an image, an item that is neither and an item
    that is both, the flag [isError] being [False]: three parts are
    returned.  A text and an image without [mimeType]: the wrapped
    [AttributeError] is raised. *)
Lemma call_tool_keeps_texts_in_order_witness :
  @session_call_tool (mock_sdk mixed_content) server_py "simple_query"
    [] 0
  = (Ok mixed_content_result, 0)
  ∧ call_tool "simple_query" None
      (connected_client mixed_content server_py,
       connected_world mixed_content server_py)
    = (Ok {| rd_content := [TextPart "first";
                            ImagePart "aGVsbG8=" "image/png";
                            TextPart "second"];
             rd_isError := None |},
       (connected_client mixed_content server_py,
        mock_world mixed_content 0
          (connect_calls server_py
           ++ [(server_py, CallCallTool "simple_query")]) []))
  ∧ (∃ d s',
       call_tool "simple_query" None
         (connected_client mixed_content server_py,
          connected_world mixed_content server_py)
       = (Ok d, s')
       ∧ Forall2 part_of
           [MkItem (Some "first") None;
            MkItem None (Some (plain_image "aGVsbG8=" "image/png"));
            MkItem (Some "second")
              (Some (plain_image "aGVsbG8=" "image/png"))]
           (rd_content d)
       ∧ texts (rd_content d) = ["first"; "second"]
       ∧ rd_isError d ≠ Some false)
  ∧ call_tool "simple_query" None
      (connected_client broken_image server_py,
       connected_world broken_image server_py)
    = (Raise (Exception
                ("Failed to call tool 'simple_query': "
                 +:+ "'Image' object has no attribute 'mimeType'")),
       (connected_client broken_image server_py,
        mock_world broken_image 0
          (connect_calls server_py
           ++ [(server_py, CallCallTool "simple_query")]) []))
  ∧ ¬ (∀ item cause,
         item ∈ default [] (ctr_content broken_image_result) →
         ¬ image_read_raises item cause).
Proof.
  assert (@session_call_tool (mock_sdk mixed_content) server_py
            "simple_query" [] 0
          = (Ok mixed_content_result, 0)) as H by reflexivity.
  assert (call_tool "simple_query" None
            (connected_client mixed_content server_py,
             connected_world mixed_content server_py)
          = (Ok {| rd_content := [TextPart "first";
                                  ImagePart "aGVsbG8=" "image/png";
                                  TextPart "second"];
                   rd_isError := None |},
             (connected_client mixed_content server_py,
              mock_world mixed_content 0
                (connect_calls server_py
                 ++ [(server_py, CallCallTool "simple_query")]) [])))
    as E by (vm_compute; reflexivity).
  assert (call_tool "simple_query" None
            (connected_client broken_image server_py,
             connected_world broken_image server_py)
          = (Raise (Exception
                      ("Failed to call tool 'simple_query': "
                       +:+ "'Image' object has no attribute 'mimeType'")),
             (connected_client broken_image server_py,
              mock_world broken_image 0
                (connect_calls server_py
                 ++ [(server_py, CallCallTool "simple_query")]) [])))
    as E' by (vm_compute; reflexivity).
  split; [exact H|]. split; [exact E|]. split.
  - destruct (call_tool_keeps_texts_in_order
                (connected_client mixed_content server_py)
                (connected_world mixed_content server_py)
                server_py "simple_query" None mixed_content_result 0
                eq_refl eq_refl H)
      as (r & s' & Hc & _ & Hr).
    rewrite E in Hc. assert (r = Ok {| rd_content := [TextPart "first";
                                  ImagePart "aGVsbG8=" "image/png";
                                  TextPart "second"];
                   rd_isError := None |}) as -> by congruence.
    destruct Hr as (Hf & Ht & He & _).
    eexists _, _. split; [exact E|]. split; [exact Hf|].
    split; [exact Ht|exact He].
  - split; [exact E'|].
    destruct (call_tool_keeps_texts_in_order
                (connected_client broken_image server_py)
                (connected_world broken_image server_py)
                server_py "simple_query" None broken_image_result 0
                eq_refl eq_refl eq_refl)
      as (r & s' & Hc & Hiff & _).
    rewrite E' in Hc. intros Hall. apply Hiff in Hall as [d ->].
    discriminate.
Defined.

(** X6 on a run: disconnect, connect and fetch again; the second catalog is
    made of four new dictionaries. *)
Lemma reconnect_fetches_again_witness :
  disconnect (fetched_client, fetched_world)
  = (Ok tt, (new_client healthy server_py, released_world))
  ∧ connect (new_client healthy server_py, released_world)
    = (Ok tt, (connected_client healthy server_py, reconnected_world))
  ∧ get_tools (connected_client healthy server_py, reconnected_world)
    = (Ok [4; 5; 6; 7], (refetched_client, refetched_world))
  ∧ fetches (w_log refetched_world) = fetches (w_log reconnected_world) + 1
  ∧ [4; 5; 6; 7] = seq (length (w_heap fetched_world)) (length [4; 5; 6; 7]).
Proof.
  assert (disconnect (fetched_client, fetched_world)
          = (Ok tt, (new_client healthy server_py, released_world))) as Hd
    by (vm_compute; reflexivity).
  assert (connect (new_client healthy server_py, released_world)
          = (Ok tt, (connected_client healthy server_py, reconnected_world)))
    as Hc by (vm_compute; reflexivity).
  assert (get_tools (connected_client healthy server_py, reconnected_world)
          = (Ok [4; 5; 6; 7], (refetched_client, refetched_world))) as Hg
    by (vm_compute; reflexivity).
  split; [exact Hd|]. split; [exact Hc|]. split; [exact Hg|].
  pose proof (reconnect_fetches_again _ _ _ _ _ _ _ _ _ Hd Hc Hg)
    as (Hf & Hs & _).
  split; [exact Hf|exact Hs].
Defined.

(** X7 on a run: a server that reports no catalog. *)
Lemma empty_catalog_is_cached_witness :
  @session_list_tools (mock_sdk healthy) empty_py 0 = (Ok None, 1)
  ∧ get_tools (connected_client healthy empty_py,
               connected_world healthy empty_py)
    = (Ok [],
       (set_tools_cache (Some []) (connected_client healthy empty_py),
        after_calls (connected_world healthy empty_py) 1
          [(empty_py, CallListTools)]))
  ∧ get_tools (set_tools_cache (Some []) (connected_client healthy empty_py),
               world0 healthy)
    = (Ok [],
       (set_tools_cache (Some []) (connected_client healthy empty_py),
        world0 healthy)).
Proof.
  assert (@session_list_tools (mock_sdk healthy) empty_py 0
          = (Ok None, 1)) as H by reflexivity.
  split; [exact H|].
  pose proof (empty_catalog_is_cached
                (connected_client healthy empty_py)
                (connected_world healthy empty_py) empty_py None 1
                eq_refl eq_refl eq_refl H eq_refl) as [H1 H2].
  split; [exact H1|exact (H2 (world0 healthy))].
Defined.

(** X8 on a run: a connected client is a state a client can reach; its
    [disconnect] gives back the new client. *)
Lemma disconnect_returns_a_new_client_witness :
  client_reachable (connected_client healthy server_py,
                    connected_world healthy server_py)
  ∧ client_inv (connected_client healthy server_py)
  ∧ ∀ c' w',
      disconnect (connected_client healthy server_py,
                  connected_world healthy server_py)
      = (Ok tt, (c', w')) →
      c' = MCPClient_init (server_script (connected_client healthy server_py)).
Proof.
  assert (client_reachable (connected_client healthy server_py,
                            connected_world healthy server_py)) as H.
  { apply (client_reachable_connect
             (new_client healthy server_py, world0 healthy) (Ok tt)).
    - apply client_reachable_init.
    - vm_compute. reflexivity. }
  split; [exact H|].
  exact (disconnect_returns_a_new_client _ _ H).
Defined.

(** X9 on a run: a request that names a script twice connects it once. *)
Lemma ensure_registers_each_script_once_witness :
  _ensure_clients_connected repeated_scripts (new_host healthy, world0 healthy)
  = (Ok tt, (ensured_host healthy repeated_scripts,
             ensured_world healthy repeated_scripts))
  ∧ (mcp_clients (ensured_host healthy repeated_scripts)).*1
    = first_seen ((mcp_clients (new_host healthy)).*1) repeated_scripts
  ∧ first_seen [] repeated_scripts = [server_py; experiment_server_py]
  ∧ fetches (w_log (ensured_world healthy repeated_scripts))
    = fetches (w_log (world0 healthy)).
Proof.
  assert (_ensure_clients_connected repeated_scripts
            (new_host healthy, world0 healthy)
          = (Ok tt, (ensured_host healthy repeated_scripts,
                     ensured_world healthy repeated_scripts))) as H
    by (vm_compute; reflexivity).
  split; [exact H|].
  pose proof (ensure_registers_each_script_once _ _ _ _ _ _ H)
    as (_ & _ & Hf & Hk & _).
  split; [exact (proj1 (Hk eq_refl))|].
  split; [vm_compute; reflexivity|exact Hf].
Defined.

(** X10 on a run: the handshake of the second of three scripts fails. *)
Lemma failed_connect_aborts_the_merge_witness :
  _ensure_clients_connected three_scripts
    (new_host failing_experiment_server, world0 failing_experiment_server)
  = (Raise (connect_error (Exception "handshake failed")),
     (ensured_host failing_experiment_server three_scripts,
      ensured_world failing_experiment_server three_scripts))
  ∧ _get_tools_from_clients three_scripts
      (new_host failing_experiment_server, world0 failing_experiment_server)
    = (Raise (connect_error (Exception "handshake failed")),
       (ensured_host failing_experiment_server three_scripts,
        ensured_world failing_experiment_server three_scripts))
  ∧ fetches (w_log (ensured_world failing_experiment_server three_scripts))
    = fetches (w_log (world0 failing_experiment_server))
  ∧ (mcp_clients (ensured_host failing_experiment_server three_scripts)).*1
    = [server_py].
Proof.
  assert (_ensure_clients_connected three_scripts
            (new_host failing_experiment_server,
             world0 failing_experiment_server)
          = (Raise (connect_error (Exception "handshake failed")),
             (ensured_host failing_experiment_server three_scripts,
              ensured_world failing_experiment_server three_scripts))) as H
    by (vm_compute; reflexivity).
  split; [exact H|].
  pose proof (failed_connect_aborts_the_merge _ _ _ _ _ _ H)
    as (Hm & Hf & _).
  split; [exact Hm|]. split; [exact Hf|]. vm_compute. reflexivity.
Defined.

(** X12 on a run: the state after the merge of the three endpoints. *)
Lemma registry_invariant_always_holds_witness :
  reachable (merged_host healthy, merged_world healthy)
  ∧ NoDup ((mcp_clients (merged_host healthy)).*1)
  ∧ NoDup (owned (mcp_clients (merged_host healthy))).
Proof.
  assert (reachable (merged_host healthy, merged_world healthy)) as H.
  { apply (reachable_merge three_scripts (new_host healthy, world0 healthy)
             (Ok merged_tools)).
    - apply reachable_init.
    - vm_compute. reflexivity. }
  split; [exact H|].
  pose proof (registry_invariant_always_holds _ _ H) as (Hk & _ & Ho & _).
  split; [exact Hk|exact Ho].
Defined.

(** X13 on a run: the two servers requested in the other order. *)
Lemma print_flags_reset_iff_scripts_change_witness :
  _last_server_script (r_attrs after_two_servers)
  = Some (sorted [server_py; experiment_server_py])
  ∧ [experiment_server_py; server_py] ≡ₚ [server_py; experiment_server_py]
  ∧ _check_and_reset_print_flags [experiment_server_py; server_py]
      after_two_servers
    = (Ok tt, after_two_servers).
Proof.
  assert ([experiment_server_py; server_py]
          ≡ₚ [server_py; experiment_server_py]) as Hp by apply perm_swap.
  split; [reflexivity|]. split; [exact Hp|].
  destruct (print_flags_reset_iff_scripts_change
              [experiment_server_py; server_py] after_two_servers)
    as (s' & H & _ & Hsame & _).
  rewrite (Hsame [server_py; experiment_server_py] eq_refl Hp) in H.
  exact H.
Defined.

(** X14 on a run: the four tools of [agent/server.py] after the merge. *)
Lemma display_server_names_each_origin_once_witness :
  Forall (tagged (w_heap (merged_world healthy)) server_py) [0; 1; 2; 3]
  ∧ _get_display_server (platform := mock_platform picks_nothing None)
      (w_heap (merged_world healthy)) [0; 1; 2; 3]
    = Ok server_py.
Proof.
  assert (Forall (tagged (w_heap (merged_world healthy)) server_py)
            [0; 1; 2; 3]) as H
    by (repeat (constructor; [vm_compute; reflexivity|]); constructor).
  split; [exact H|].
  refine (proj1 (proj2 (display_server_names_each_origin_once
                          (platform := mock_platform picks_nothing None)
                          (w_heap (merged_world healthy))))
            server_py [0; 1; 2; 3] _ H).
  discriminate.
Defined.

(** X15 on three runs: no token is given and the variable is not set; the
    empty string is given; a token is given. *)
Lemma host_init_needs_a_token_witness :
  environ_HF_TOKEN (Platform := mock_platform picks_nothing None) = None
  ∧ ResearchHost_new (sdk := mock_sdk healthy)
      (platform := mock_platform picks_nothing None) None MODEL None
    = Raise HF_TOKEN_not_found
  ∧ ResearchHost_new (sdk := mock_sdk healthy)
      (platform := mock_platform picks_nothing None) (Some "") MODEL None
    = Raise api_key_not_set
  ∧ ∃ a, ResearchHost_new (sdk := mock_sdk healthy)
           (platform := mock_platform picks_nothing None)
           (Some "hf_test") MODEL None
         = Ok (a, ResearchHost_init)
         ∧ llm_client a = "hf_test".
Proof.
  split; [reflexivity|]. split; [|split].
  - apply (proj1 (host_init_needs_a_token (sdk := mock_sdk healthy)
                    (platform := mock_platform picks_nothing None)
                    None MODEL None)).
    left. split; [reflexivity|]. split; [reflexivity|]. left. reflexivity.
  - apply (proj1 (host_init_needs_a_token (sdk := mock_sdk healthy)
                    (platform := mock_platform picks_nothing None)
                    (Some "") MODEL None)).
    right. split; reflexivity.
  - apply (proj1 (proj2 (host_init_needs_a_token (sdk := mock_sdk healthy)
                    (platform := mock_platform picks_nothing None)
                    (Some "hf_test") MODEL None)) "hf_test").
    + discriminate.
    + left. reflexivity.
Defined.

(** X16 on a run: the model calls two tools; the second one is the
    selected tool. *)
Lemma run_experiment_selects_the_last_call_witness :
  let s := new_rstate healthy picks_two_tools in
  let s' := ran_state healthy picks_two_tools (Some (ScriptList three_scripts)) in
  run_experiment usdt_query (Some (ScriptList three_scripts)) s
  = (Ok two_tools_result, s')
  ∧ selected_tool two_tools_result
    = last (tci_tool_name <$> tool_calls two_tools_result)
  ∧ ∃ req, r_requests s' = r_requests s ++ [req].
Proof.
  intros s s'.
  assert (run_experiment usdt_query (Some (ScriptList three_scripts)) s
          = (Ok two_tools_result, s')) as H by (vm_compute; reflexivity).
  split; [exact H|].
  destruct (run_experiment_selects_the_last_call _ _ _ _ _ H)
    as (req & completion & message & rest & Hr & _ & _ & _ & _ & _ & Hs & _).
  split; [exact Hs|]. exists req. exact Hr.
Defined.



(** X19 on the same run: one request, with the system prompt of
    [test_system.py] before the query. *)
Lemma model_is_asked_once_after_the_merge_witness :
  let s := new_rstate healthy picks_two_tools in
  let s' := ran_state healthy picks_two_tools (Some (ScriptList three_scripts)) in
  run_experiment usdt_query (Some (ScriptList three_scripts)) s
  = (Ok two_tools_result, s')
  ∧ ((r_requests s' = r_requests s ∧ r_llm s' = r_llm s
      ∧ ∃ e, Ok two_tools_result = Raise e)
     ∨ ∃ tools req,
         _get_tools_from_clients
           (server_scripts_of (platform := mock_platform picks_two_tools None)
               (Some (ScriptList three_scripts)))
           (r_host s, r_world s)
         = (Ok tools, (r_host s', r_world s'))
         ∧ r_requests s' = r_requests s ++ [req]
         ∧ req_api_key req = llm_client (r_attrs s)
         ∧ req_model req = model (r_attrs s)
         ∧ req_tool_choice req = "auto"
         ∧ req_tools req = openai_tools (w_heap (r_world s')) tools
         ∧ (req_messages req = [{| role := "user"; content := usdt_query |}]
            ∧ (system_prompt (r_attrs s) = None
               ∨ system_prompt (r_attrs s) = Some "")
            ∨ ∃ p, system_prompt (r_attrs s) = Some p ∧ p ≠ ""
                ∧ req_messages req
                  = [{| role := "system"; content := p |};
                     {| role := "user"; content := usdt_query |}])).
Proof.
  intros s s'.
  assert (run_experiment usdt_query (Some (ScriptList three_scripts)) s
          = (Ok two_tools_result, s')) as H by (vm_compute; reflexivity).
  split; [exact H|].
  exact (model_is_asked_once_after_the_merge _ _ _ _ _ H).
Defined.

(** X20 on the same run: the log holds no invocation. *)
Lemma host_never_invokes_a_tool_witness :
  let s := new_rstate healthy picks_two_tools in
  let s' := ran_state healthy picks_two_tools (Some (ScriptList three_scripts)) in
  run_experiment usdt_query (Some (ScriptList three_scripts)) s
  = (Ok two_tools_result, s')
  ∧ tool_invocations (w_log (r_world s'))
    = tool_invocations (w_log (r_world s)).
Proof.
  intros s s'.
  assert (run_experiment usdt_query (Some (ScriptList three_scripts)) s
          = (Ok two_tools_result, s')) as H by (vm_compute; reflexivity).
  split; [exact H|].
  exact (proj1 host_never_invokes_a_tool _ _ _ _ _ H).
Defined.

(** X21 on a run: the endpoint of the model is down; the run raises and the
    three clients stay registered. *)
Lemma run_experiment_keeps_the_registry_witness :
  let s := new_rstate healthy llm_down in
  let s' := ran_state healthy llm_down (Some (ScriptList three_scripts)) in
  host_inv (r_host s) (r_world s)
  ∧ run_experiment usdt_query (Some (ScriptList three_scripts)) s
    = (Raise (Exception "Connection error."), s')
  ∧ host_inv (r_host s') (r_world s')
  ∧ evolves (r_host s, r_world s) (r_host s', r_world s')
  ∧ (mcp_clients (r_host s')).*1 = three_scripts.
Proof.
  intros s s'.
  assert (host_inv (r_host s) (r_world s)) as Hinv by (split; constructor).
  assert (run_experiment usdt_query (Some (ScriptList three_scripts)) s
          = (Raise (Exception "Connection error."), s')) as H
    by (vm_compute; reflexivity).
  split; [exact Hinv|]. split; [exact H|].
  pose proof (run_experiment_keeps_the_registry _ _ _ _ _ Hinv H) as [H1 H2].
  split; [exact H1|]. split; [exact H2|]. vm_compute. reflexivity.
Defined.

(** X22 on a run: a second query, with the three scripts in another order. *)
Lemma later_runs_reuse_the_connections_witness :
  let s := new_rstate healthy picks_two_tools in
  let s1 := ran_state healthy picks_two_tools (Some (ScriptList three_scripts)) in
  host_inv (r_host s) (r_world s)
  ∧ run_experiment usdt_query (Some (ScriptList three_scripts)) s
    = (Ok two_tools_result, s1)
  ∧ three_scripts_again ≡ₚ three_scripts
  ∧ run_experiment "Get system status"
      (Some (ScriptList three_scripts_again)) s1
    = (ran_again_result, ran_again_state)
  ∧ r_host ran_again_state = r_host s1
  ∧ r_world ran_again_state = r_world s1
  ∧ r_stdout ran_again_state = r_stdout s1.
Proof.
  intros s s1.
  assert (host_inv (r_host s) (r_world s)) as Hinv by (split; constructor).
  assert (run_experiment usdt_query (Some (ScriptList three_scripts)) s
          = (Ok two_tools_result, s1)) as H by (vm_compute; reflexivity).
  assert (three_scripts_again ≡ₚ three_scripts) as Hp
    by apply Permutation_cons_append.
  assert (run_experiment "Get system status"
            (Some (ScriptList three_scripts_again)) s1
          = (ran_again_result, ran_again_state)) as H2
    by (vm_compute; reflexivity).
  split; [exact Hinv|]. split; [exact H|]. split; [exact Hp|].
  split; [exact H2|].
  assert (∀ x, x ∈ server_scripts_of (platform := mock_platform picks_two_tools None)
                 (Some (ScriptList three_scripts_again))
               → x ∈ server_scripts_of (platform := mock_platform picks_two_tools None)
               (Some (ScriptList three_scripts)))
    as Hsub.
  { intros x Hx. change (x ∈ three_scripts_again) in Hx.
    change (x ∈ three_scripts). by rewrite <- Hp. }
  pose proof (later_runs_reuse_the_connections _ _ _ _ _ _ _ _ _
                Hinv H Hsub H2) as (Hh & Hw & _ & Hout).
  split; [exact Hh|]. split; [exact Hw|]. exact (Hout Hp).
Defined.

(** X23 on a run: the model names a tool with arguments that are not
    JSON; the parse error is raised after the model was asked. *)
Lemma run_experiment_failure_causes_witness :
  let s := new_rstate healthy picks_garbage in
  let s' := ran_state healthy picks_garbage None in
  host_inv (r_host s) (r_world s)
  ∧ run_experiment usdt_query None s = (Raise JSONDecodeError, s')
  ∧ ((∃ h w,
        _get_tools_from_clients (server_scripts_of (platform := mock_platform picks_garbage None)
           None) (r_host s, r_world s)
        = (Raise JSONDecodeError, (h, w))
        ∧ r_requests s' = r_requests s)
     ∨ ∃ req ra,
         r_requests s' = r_requests s ++ [req]
         ∧ chat_completions_create req (r_llm s) = (ra, r_llm s')
         ∧ match ra with
           | Raise e' => e' = JSONDecodeError
           | Ok completion =>
               match choices completion with
               | [] => JSONDecodeError = IndexError
               | message :: _ =>
                   ∃ call, call ∈ default [] (msg_tool_calls message)
                           ∧ _extract_tool_call_info
                               (platform := mock_platform picks_garbage None)
                               call
                             = Raise JSONDecodeError
               end
           end).
Proof.
  intros s s'.
  assert (host_inv (r_host s) (r_world s)) as Hinv by (split; constructor).
  assert (run_experiment usdt_query None s = (Raise JSONDecodeError, s'))
    as H by (vm_compute; reflexivity).
  split; [exact Hinv|]. split; [exact H|].
  exact (run_experiment_failure_causes _ _ _ _ _ Hinv H).
Defined.

(** X24 on a run: the first run for three scripts prints their twelve lines
    and the line with the nine names. *)
Lemma run_experiment_prints_the_server_info_witness :
  let s := new_rstate healthy picks_two_tools in
  let s' := ran_state healthy picks_two_tools (Some (ScriptList three_scripts)) in
  let scripts := server_scripts_of (platform := mock_platform picks_two_tools None)
               (Some (ScriptList three_scripts)) in
  host_inv (r_host s) (r_world s)
  ∧ run_experiment usdt_query (Some (ScriptList three_scripts)) s
    = (Ok two_tools_result, s')
  ∧ ∃ names,
      available_tools two_tools_result = PStr <$> names
      ∧ r_stdout s'
        = r_stdout s
          ++ (if bool_decide (_has_printed_server_info (r_attrs s) = true
                              ∧ _last_server_script (r_attrs s)
                                = Some (sorted scripts))
              then []
              else flat_map (λ sc, [OutServer sc; OutClientInstance sc;
                                    OutClientStatus true; OutBlank]) scripts
                   ++ [OutToolAvailable (str_join ", " names)]).
Proof.
  intros s s' scripts.
  assert (host_inv (r_host s) (r_world s)) as Hinv by (split; constructor).
  assert (run_experiment usdt_query (Some (ScriptList three_scripts)) s
          = (Ok two_tools_result, s')) as H by (vm_compute; reflexivity).
  split; [exact Hinv|]. split; [exact H|].
  exact (run_experiment_prints_the_server_info _ _ _ _ _ Hinv H).
Defined.

(** X25 on the same run: the header, the query, the last call with its
    server, and a rule. *)
Lemma print_result_shows_the_last_call_witness :
  let s := new_rstate healthy picks_two_tools in
  let s1 := ran_state healthy picks_two_tools (Some (ScriptList three_scripts)) in
  run_experiment usdt_query (Some (ScriptList three_scripts)) s
  = (Ok two_tools_result, s1)
  ∧ ∃ s2, print_result two_tools_result s1 = (Ok tt, s2)
      ∧ r_stdout s2
        = r_stdout s1 ++ header_lines (_has_printed_separator (r_attrs s1))
          ++ [OutUserQuery usdt_query] ++ choice_lines two_tools_result
          ++ response_lines two_tools_result ++ [OutRule]
      ∧ choice_lines two_tools_result
        = [OutChoose "simple_query";
           OutToolFromServer (Some (PStr server_py))].
Proof.
  intros s s1.
  assert (run_experiment usdt_query (Some (ScriptList three_scripts)) s
          = (Ok two_tools_result, s1)) as H by (vm_compute; reflexivity).
  split; [exact H|].
  destruct (print_result_shows_the_last_call _ _ _ _ _ H)
    as (s2 & Hp & Hout & _).
  exists s2. split; [exact Hp|]. split; [exact Hout|]. reflexivity.
Defined.

(** X26 on a run: two results printed after an experiment. *)
Lemma print_result_writes_the_header_once_witness :
  let s := ran_state healthy picks_two_tools (Some (ScriptList three_scripts)) in
  let results := [two_tools_result; two_tools_result] in
  let s' := (for_each results print_result s).2 in
  for_each results print_result s = (Ok tt, s')
  ∧ r_attrs s' = set_has_printed_separator true (r_attrs s)
  ∧ (∃ rest,
       r_stdout s'
       = r_stdout s ++ header_lines (_has_printed_separator (r_attrs s))
         ++ rest
       ∧ count_lines is_results_line rest = 0
       ∧ count_lines is_query_line rest = 2)
  ∧ r_host s' = r_host s ∧ r_world s' = r_world s.
Proof.
  intros s results s'.
  assert (for_each results print_result s = (Ok tt, s')) as H
    by (vm_compute; reflexivity).
  split; [exact H|].
  pose proof (print_result_writes_the_header_once _ _ _ H)
    as (Ha & Ho & Hh & Hw & _).
  split; [exact Ha|]. split; [exact Ho|]. split; [exact Hh|exact Hw].
Defined.

Lemma test_client_round_releases_the_client_witness :
  let t := round_start failing_handshake in
  let t' := (test_client_iteration server_py t).2 in
  test_client_iteration server_py t = (Ok tt, t')
  ∧ t_client t' = new_client failing_handshake server_py
  ∧ tool_invocations (w_log (t_world t'))
    = tool_invocations (w_log (t_world t)).
Proof.
  intros t t'.
  assert (test_client_iteration server_py t = (Ok tt, t')) as H
    by (vm_compute; reflexivity).
  split; [exact H|].
  pose proof (test_client_round_releases_the_client _ _ _ _ H)
    as (_ & Hc & _ & Hti).
  split; [exact (Hc eq_refl)|exact Hti].
Defined.

Lemma test_client_visits_both_servers_witness :
  let p := mock_platform picks_nothing None in
  let w := world0 failing_experiment_server in
  let fin := (@test_client (mock_sdk failing_experiment_server) p (w, [])).2 in
  @test_client (mock_sdk failing_experiment_server) p (w, []) = (Ok tt, fin)
  ∧ announced fin.2 = [server_py; experiment_server_py]
  ∧ tool_invocations (w_log fin.1) = tool_invocations (w_log w).
Proof.
  intros p w fin.
  assert (@test_client (mock_sdk failing_experiment_server) p (w, [])
          = (Ok tt, (fin.1, fin.2))) as H by (vm_compute; reflexivity).
  split; [vm_compute; reflexivity|].
  pose proof (test_client_visits_both_servers _ _ _ _ _ H) as [Ha Hti].
  split; [|exact Hti].
  destruct Ha as [[_ Ha]|(e & k & He & _)]; [exact Ha|discriminate He].
Defined.

Lemma test_host_cleans_up_after_the_examples_witness :
  let s1 := examples_end healthy picks_simple_query in
  let s' := host_at_end healthy picks_simple_query in
  @test_host (mock_sdk healthy) (token_platform picks_simple_query)
    (world0 healthy) 0 [] []
  = (Ok tt, EndWithHost s')
  ∧ (mcp_clients (r_host s1)).*1 = [server_py; experiment_server_py]
  ∧ mcp_clients (r_host s') = []
  ∧ w_log (r_world s')
    = w_log (r_world s1) ++ registry_release_calls (mcp_clients (r_host s1))
  ∧ r_stdout s' = r_stdout s1.
Proof.
  intros s1 s'.
  assert (@test_host (mock_sdk healthy) (token_platform picks_simple_query)
            (world0 healthy) 0 [] []
          = (Ok tt, EndWithHost s')) as H by (vm_compute; reflexivity).
  split; [exact H|]. split; [vm_compute; reflexivity|].
  pose proof (test_host_cleans_up_after_the_examples _ _ _ _ _ _ H)
    as (t & rb & s1' & Htok & _ & Hb & Hout & _ & _ & Hsw).
  change (Some "hf_test" = Some t) in Htok. injection Htok as <-.
  assert (@test_host_body (mock_sdk healthy)
            (token_platform picks_simple_query)
            (test_host_start healthy picks_simple_query)
          = (Ok tt, s1)) as Hb' by (vm_compute; reflexivity).
  change (@test_host_body (mock_sdk healthy)
            (token_platform picks_simple_query)
            (test_host_start healthy picks_simple_query)
          = (rb, s1')) in Hb.
  rewrite Hb' in Hb.
  assert (s1' = s1) as -> by congruence.
  assert (rb = Ok tt) as -> by congruence.
  destruct Hsw as (_ & Hreg & Hlog); [vm_compute; reflexivity|].
  split; [exact Hreg|]. split; [exact Hlog|exact Hout].
Defined.

Lemma test_host_starts_each_server_at_most_once_witness :
  let s' := host_at_end failing_experiment_server picks_simple_query in
  @test_host (mock_sdk failing_experiment_server)
    (token_platform picks_simple_query)
    (world0 failing_experiment_server) 0 [] []
  = (Raise (connect_error (Exception "handshake failed")), EndWithHost s')
  ∧ spawns server_py (w_log (r_world s')) ≤ 1
  ∧ spawns experiment_server_py (w_log (r_world s')) ≤ 1
  ∧ spawns mirror_py (w_log (r_world s')) ≤ 0
  ∧ length (r_requests s') ≤ 5
  ∧ tool_invocations (w_log (r_world s')) = [].
Proof.
  intros s'.
  assert (@test_host (mock_sdk failing_experiment_server)
            (token_platform picks_simple_query)
            (world0 failing_experiment_server) 0 [] []
          = (Raise (connect_error (Exception "handshake failed")),
             EndWithHost s')) as H by (vm_compute; reflexivity).
  split; [exact H|].
  pose proof (test_host_starts_each_server_at_most_once _ _ _ _ _ _ H)
    as (Hsp & Hn & Hti).
  split; [exact (Hsp server_py)|].
  split; [exact (Hsp experiment_server_py)|].
  split; [exact (Hsp mirror_py)|].
  split; [exact Hn|exact Hti].
Defined.
